(** * FinLens front-end data service: health scoring and category rollup

    A shallow embedding of the decision logic of
    [frontend/src/services/dataService.ts] (class [DataService]) and of the
    optimization data contract declared by the Lambda card components
    ([frontend/src/components/LambdaOptimizationCard.tsx] and the function
    card next to it).

    Conventions of the embedding.

    - A JavaScript [number] is modelled by [number]: the three non-finite
      values of IEEE 754 ([NaN], [+Infinity], [-Infinity]) and the finite ones,
      each carried as the rational it denotes (the sign of zero is not
      modelled).  Special values follow ECMAScript ([NaN] is contagious,
      comparisons with [NaN] are false, [Infinity / Infinity] is [NaN], ...).
      What the sum, product or quotient of two finite numbers is belongs to
      the host: it is a parameter ([Arithmetic]) of every definition that
      computes.  [binary64Arithmetic] is the arithmetic of ECMAScript (the
      exact result rounded to the nearest binary64, ties to even);
      [exactArithmetic] does not round; it is used for the statements on
      sums of counts and on the active count, in the sections that say so.
    - A JavaScript value of unknown shape (the parsed JSON payload) is a
      [JsValue]; an object is the list of its own properties in insertion
      order, and a property is read by the first binding of its key (the keys
      of a well-formed object are distinct).
    - [Number(string)], the host's string-to-number conversion, is a
      parameter of the development ([StringToNumber]): every statement holds
      for every such conversion.
    - String-keyed dictionaries ([Record<string, T>]) that the code only
      indexes are finite maps ([gmap string T]).
    - A string is a sequence of 8-bit characters.  On ASCII text a character
      is a UTF-16 code unit of the code; case conversion is modelled on the
      ASCII letters only, and a statement about it is about ASCII text. *)

From Stdlib Require Import ZArith QArith Qround Qabs Qpower Lia Lqa.
From stdpp Require Import base strings list gmap.

Local Open Scope Z_scope.

(** ** JavaScript numbers *)

Inductive number : Type :=
| Fin (q : Q)
| PosInf
| NegInf
| NaN.

Definition of_Z (z : Z) : number := Fin (inject_Z z).

Coercion of_Z : Z >-> number.

(** [Number.isFinite] on a value that is already a number. *)
Definition isFinite (n : number) : bool :=
  match n with Fin _ => true | _ => false end.

(** The host's arithmetic on finite numbers: what [x + y], [x * y] and
    [x / y] (for [y] other than zero) evaluate to when both operands are
    finite.  The result is a [number]: a finite result can overflow to an
    infinity. *)
Class Arithmetic : Type := {
  finiteSum : Q -> Q -> number;
  finiteProduct : Q -> Q -> number;
  finiteQuotient : Q -> Q -> number
}.

(** The operators and the [Math] functions the service uses. *)
Module JsNumber.

(** [a === b] on numbers. *)
Definition eqb (a b : number) : bool :=
  match a, b with
  | Fin x, Fin y => Qeq_bool x y
  | PosInf, PosInf => true
  | NegInf, NegInf => true
  | _, _ => false
  end.

(** [a < b]. *)
Definition ltb (a b : number) : bool :=
  match a, b with
  | Fin x, Fin y => negb (Qle_bool y x)
  | Fin _, PosInf => true
  | NegInf, Fin _ => true
  | NegInf, PosInf => true
  | _, _ => false
  end.

(** [a > b]. *)
Definition gtb (a b : number) : bool := ltb b a.

(** [a >= b]. *)
Definition geb (a b : number) : bool :=
  match a, b with
  | Fin x, Fin y => Qle_bool y x
  | PosInf, (Fin _ | PosInf | NegInf) => true
  | Fin _, NegInf => true
  | NegInf, NegInf => true
  | _, _ => false
  end.

(** Truthiness of a number: [0] and [NaN] are falsy. *)
Definition truthy (n : number) : bool :=
  match n with
  | Fin q => negb (Qeq_bool q 0)
  | NaN => false
  | _ => true
  end.

Definition neg (a : number) : number :=
  match a with
  | Fin x => Fin (Qred (- x))
  | PosInf => NegInf
  | NegInf => PosInf
  | NaN => NaN
  end.

Section Operators.

Context {arith : Arithmetic}.

(** [a + b]. *)
Definition add (a b : number) : number :=
  match a, b with
  | NaN, _ | _, NaN => NaN
  | Fin x, Fin y => finiteSum x y
  | PosInf, NegInf | NegInf, PosInf => NaN
  | PosInf, _ | _, PosInf => PosInf
  | NegInf, _ | _, NegInf => NegInf
  end.

(** [a - b]. *)
Definition sub (a b : number) : number := add a (neg b).

(** Sign of a finite rational: [1], [0] or [-1]. *)
Definition Qsgn (x : Q) : Z := Z.sgn (Qnum x).

Definition signed_inf (s : Z) : number :=
  match s with
  | Z0 => NaN
  | Zpos _ => PosInf
  | Zneg _ => NegInf
  end.

Definition sgn_inf (a : number) : Z :=
  match a with PosInf => 1 | NegInf => -1 | _ => 0 end.

(** [a * b]. *)
Definition mul (a b : number) : number :=
  match a, b with
  | NaN, _ | _, NaN => NaN
  | Fin x, Fin y => finiteProduct x y
  | Fin x, _ => signed_inf (Qsgn x * sgn_inf b)
  | _, Fin y => signed_inf (sgn_inf a * Qsgn y)
  | _, _ => signed_inf (sgn_inf a * sgn_inf b)
  end.

(** [a / b].  A finite zero divisor is taken as [+0]. *)
Definition div (a b : number) : number :=
  match a, b with
  | NaN, _ | _, NaN => NaN
  | Fin x, Fin y =>
      if Qeq_bool y 0 then signed_inf (Qsgn x) else finiteQuotient x y
  | Fin _, _ => Fin 0
  | _, Fin y => if Qle_bool 0 y then a else neg a
  | _, _ => NaN
  end.

End Operators.

(** [Math.round]: nearest integer, ties towards [+Infinity]. *)
Definition round (a : number) : number :=
  match a with
  | Fin x => of_Z (Qfloor (x + (1 # 2)))
  | _ => a
  end.

(** [Math.floor]. *)
Definition floor (a : number) : number :=
  match a with
  | Fin x => of_Z (Qfloor x)
  | _ => a
  end.

(** [Math.max(a, b)] and [Math.min(a, b)]: [NaN] if either argument is. *)
Definition max (a b : number) : number :=
  match a, b with
  | NaN, _ | _, NaN => NaN
  | _, _ => if ltb a b then b else a
  end.

Definition min (a b : number) : number :=
  match a, b with
  | NaN, _ | _, NaN => NaN
  | _, _ => if ltb b a then b else a
  end.

End JsNumber.

Declare Scope js_scope.
Delimit Scope js_scope with js.
Bind Scope js_scope with number.
Notation "a === b" := (JsNumber.eqb a b) (at level 70, no associativity) : js_scope.
Notation "a <? b" := (JsNumber.ltb a b) : js_scope.
Notation "a >? b" := (JsNumber.gtb a b) : js_scope.
Notation "a >=? b" := (JsNumber.geb a b) : js_scope.
Notation "a + b" := (JsNumber.add a b) : js_scope.
Notation "a - b" := (JsNumber.sub a b) : js_scope.
Notation "a * b" := (JsNumber.mul a b) : js_scope.
Notation "a / b" := (JsNumber.div a b) : js_scope.

(** *** The arithmetic of ECMAScript

    A finite result is the exact result rounded to the nearest value of the
    binary64 format, ties to the value with an even significand; a result
    that rounds to [2^1024] or beyond is an infinity. *)

(** [floor(log2 a)] for a positive rational [a]. *)
Definition ilog2 (a : Q) : Z :=
  let k := Z.log2 (Qnum a) - Z.log2 (Zpos (Qden a)) in
  if Qle_bool (Qpower 2 k) a then k else k - 1.

(** The nearest integer, ties to the even one. *)
Definition roundHalfEven (x : Q) : Z :=
  let f := Qfloor x in
  match Qcompare (x - inject_Z f) (1 # 2) with
  | Lt => f
  | Gt => f + 1
  | Eq => if Z.even f then f else f + 1
  end.

(** Rounding to binary64: 53 bits of significand, exponents from [-1022]
    (below it the spacing stays [2^-1074], the subnormal numbers) to
    [1023]. *)
Definition binary64 (x : Q) : number :=
  if Qeq_bool x 0 then Fin 0
  else
    let a := Qabs x in
    let e := Z.max (ilog2 a) (-1022) in
    let ulp := Qpower 2 (e - 52) in
    let r := (inject_Z (roundHalfEven (a / ulp)) * ulp)%Q in
    if Qle_bool (Qpower 2 1024) r
    then if Qle_bool 0 x then PosInf else NegInf
    else Fin (Qred (if Qle_bool 0 x then r else - r)).

Definition binary64Arithmetic : Arithmetic := {|
  finiteSum x y := binary64 (x + y);
  finiteProduct x y := binary64 (x * y);
  finiteQuotient x y := binary64 (x / y)
|}.

(** Arithmetic without rounding. *)
Definition exactArithmetic : Arithmetic := {|
  finiteSum x y := Fin (Qred (x + y));
  finiteProduct x y := Fin (Qred (x * y));
  finiteQuotient x y := Fin (Qred (x / y))
|}.


(** ** JavaScript values *)

#[local] Set Warnings "-register-all".

Inductive JsValue : Type :=
| JUndefined
| JNull
| JBool (b : bool)
| JNum (n : number)
| JStr (s : string)
| JArr (items : list JsValue)
| JObj (props : list (string * JsValue)).

(** Own-property lookup in a property list. *)
Fixpoint lookupProp {A} (props : list (string * A)) (key : string) : option A :=
  match props with
  | [] => None
  | (k, v) :: rest => if String.eqb k key then Some v else lookupProp rest key
  end.

(** [value[key]] for one of the data keys the service reads.  Primitive
    wrappers and arrays have no such property, so the read is [undefined];
    reading from [null] or [undefined] is never attempted by the code (every
    such read is guarded by a truthiness or [isRecord] test). *)
Definition getProp (value : JsValue) (key : string) : JsValue :=
  match value with
  | JObj props => default JUndefined (lookupProp props key)
  | _ => JUndefined
  end.

(** Truthiness ([!value] is its negation). *)
Definition truthy (value : JsValue) : bool :=
  match value with
  | JUndefined | JNull => false
  | JBool b => b
  | JNum n => JsNumber.truthy n
  | JStr s => negb (String.eqb s "")
  | JArr _ | JObj _ => true
  end.

(** [a ?? b]. *)
Definition nullish (a b : JsValue) : JsValue :=
  match a with
  | JUndefined | JNull => b
  | _ => a
  end.

(** ** [String.prototype.toLowerCase] on the ASCII letters.

    Characters outside [A-Z] are left alone.  (The lower-case form of a
    character outside ASCII is never made of the letters of [success],
    [failed] or [partial] alone, so a string holding one matches none of the
    three either way, and the comparison made by [normalizeScanStatus] is
    not affected.) *)

Definition lowerAscii (c : Ascii.ascii) : Ascii.ascii :=
  let n := Ascii.N_of_ascii c in
  if ((65 <=? n) && (n <=? 90))%N then Ascii.ascii_of_N (n + 32) else c.

Fixpoint toLowerCase (s : string) : string :=
  match s with
  | EmptyString => EmptyString
  | String c rest => String (lowerAscii c) (toLowerCase rest)
  end.

(** ** Scan status *)

Inductive ScanStatus : Type := success | failed | partial.

Global Instance ScanStatus_eq_dec : EqDecision ScanStatus.
Proof. solve_decision. Defined.

(** The string each status stands for. *)
Definition statusString (st : ScanStatus) : string :=
  match st with
  | success => "success"
  | failed => "failed"
  | partial => "partial"
  end.

(** [normalizeScanStatus(status: unknown)] *)
Definition normalizeScanStatus (status : JsValue) : ScanStatus :=
  match status with
  | JStr s =>
      let normalized := toLowerCase s in
      if String.eqb normalized "success" then success
      else if String.eqb normalized "failed" then failed
      else if String.eqb normalized "partial" then partial
      else failed
  | _ => failed
  end.

(** ** Records and numeric coercion *)

(** [isRecord(value)]: an object that is neither [null] nor an array. *)
Definition isRecord (value : JsValue) : bool :=
  match value with JObj _ => true | _ => false end.

(** The loop of [asNumberRecord]: the entries whose value is a number. *)
Fixpoint numericEntries (props : list (string * JsValue)) : list (string * number) :=
  match props with
  | [] => []
  | (key, JNum val) :: rest => (key, val) :: numericEntries rest
  | _ :: rest => numericEntries rest
  end.

(** [asNumberRecord(value)]; [None] is [undefined]. *)
Definition asNumberRecord (value : JsValue) : option (list (string * number)) :=
  match value with
  | JObj props =>
      let result := numericEntries props in
      let hasNumericEntries := match result with [] => false | _ :: _ => true end in
      if hasNumericEntries then Some result else None
  | _ => None
  end.

(** [record.key ?? 0] on a number record. *)
Definition fieldOrZero (record : list (string * number)) (key : string) : number :=
  default (0 : number) (lookupProp record key).

(** A resource is a [Record<string, unknown>]. *)
Definition ServiceResource : Type := list (string * JsValue).

Definition resourceProp (resource : ServiceResource) (key : string) : JsValue :=
  default JUndefined (lookupProp resource key).

(** [typeof region === 'string' && region === regionCode] *)
Definition isRegion (region : JsValue) (regionCode : string) : bool :=
  match region with
  | JStr r => String.eqb r regionCode
  | _ => false
  end.

(** The region a resource declares:
    [resource['region'] ?? resource['Region'] ?? resource['aws_region']]. *)
Definition resourceRegion (resource : ServiceResource) : JsValue :=
  nullish (nullish (resourceProp resource "region") (resourceProp resource "Region"))
          (resourceProp resource "aws_region").

(** [filterResourcesByRegion(resources, regionCode?)]; an omitted
    [regionCode] is [None], and [!regionCode] holds of it and of the empty
    string. *)
Definition filterResourcesByRegion
    (resources : list ServiceResource) (regionCode : option string)
    : list ServiceResource :=
  match regionCode with
  | None => resources
  | Some code =>
      if String.eqb code "" || (length resources =? 0)%nat then resources
      else
        let filtered :=
          List.filter (fun resource => isRegion (resourceRegion resource) code)
                      resources in
        if (0 <? length filtered)%nat then filtered else resources
  end.

(** ** Health scoring *)

(** The object returned by [calculateServiceHealth]. *)
Record ServiceHealth : Type := mkHealth {
  healthPercent : number;
  scanStatus : ScanStatus
}.

Section HostConversion.

Context {arith : Arithmetic}.

(** [Number(value)] applied to a string. *)
Variable StringToNumber : string -> number.

(** [getNumericValue(value: unknown)] *)
Definition getNumericValue (value : JsValue) : number :=
  match value with
  | JNum n => n
  | JStr s =>
      let parsed := StringToNumber s in
      if isFinite parsed then parsed else 0
  | _ => 0
  end.

(** The [switch (serviceName)] of [calculateServiceHealth]: from the initial
    [(healthScore, scanStatus)] to the pair after the selected case. *)
Definition heuristic (serviceName : string) (summary : JsValue)
    (resourceCount : number) (normalizedStatus : ScanStatus)
    (healthScore : number) (scanStatus : ScanStatus) : number * ScanStatus :=
  if String.eqb serviceName "ec2" then
    match asNumberRecord (getProp summary "state_distribution") with
    | Some stateDistribution =>
        let running := fieldOrZero stateDistribution "running" in
        let stopped := fieldOrZero stateDistribution "stopped" in
        let terminated := fieldOrZero stateDistribution "terminated" in
        let healthScore :=
          if (resourceCount >? 0)%js
          then JsNumber.round ((running / resourceCount) * 100)%js
          else (0 : number) in
        let scanStatus := if (stopped >? 0)%js then partial else scanStatus in
        let healthScore :=
          if (terminated >? 0)%js
          then JsNumber.max 0 (healthScore - 20)%js
          else healthScore in
        (healthScore, scanStatus)
    | None => (healthScore, scanStatus)
    end
  else if String.eqb serviceName "rds" then
    match asNumberRecord (getProp summary "status_distribution") with
    | Some statusDistribution =>
        let available := fieldOrZero statusDistribution "available" in
        let healthScore :=
          if (resourceCount >? 0)%js
          then JsNumber.round ((available / resourceCount) * 100)%js
          else (0 : number) in
        let scanStatus := if (available <? resourceCount)%js then partial else scanStatus in
        (healthScore, scanStatus)
    | None => (healthScore, scanStatus)
    end
  else if String.eqb serviceName "cloudtrail" then
    let loggingEnabled := getNumericValue (getProp summary "logging_enabled") in
    let totalTrails := getNumericValue (getProp summary "total_trails") in
    if (totalTrails === 0)%js then ((0 : number), failed)
    else
      let healthScore := JsNumber.round ((loggingEnabled / totalTrails) * 100)%js in
      let scanStatus := if (loggingEnabled <? totalTrails)%js then partial else scanStatus in
      (healthScore, scanStatus)
  else if String.eqb serviceName "vpc" then
    match getProp summary "is_default" with
    | JBool isDefault =>
        let healthScore : number := if isDefault then 70 else 100 in
        let scanStatus := if isDefault then partial else scanStatus in
        (healthScore, scanStatus)
    | _ => (healthScore, scanStatus)
    end
  else if String.eqb serviceName "s3" then
    let encryptionStatus := getProp summary "encryption_status" in
    if isRecord encryptionStatus then
      let encrypted := getNumericValue (getProp encryptionStatus "encrypted") in
      let healthScore :=
        if (resourceCount >? 0)%js
        then JsNumber.round ((encrypted / resourceCount) * 100)%js
        else (0 : number) in
      let scanStatus := if (encrypted <? resourceCount)%js then partial else scanStatus in
      (healthScore, scanStatus)
    else (healthScore, scanStatus)
  else
    match normalizedStatus with
    | success => ((if (resourceCount >? 0)%js then 95 else 100) : number, scanStatus)
    | _ => ((75 : number), partial)
    end.

(** [calculateServiceHealth(serviceName, serviceData)]; a [null] payload is
    [JNull]. *)
Definition calculateServiceHealth (serviceName : string) (serviceData : JsValue)
    : ServiceHealth :=
  if negb (truthy serviceData) || negb (truthy (getProp serviceData "summary"))
  then mkHealth 0 failed
  else
    let summary := getProp serviceData "summary" in
    let resourceCount : number :=
      match getProp summary "resource_count" with
      | JNum n => n
      | _ => 0
      end in
    let normalizedStatus := normalizeScanStatus (getProp summary "scan_status") in
    if bool_decide (normalizedStatus = failed) || (resourceCount === 0)%js then
      mkHealth (if (resourceCount === 0)%js then 100 else 0)
               (if (resourceCount === 0)%js then success else failed)
    else
      let healthScore : number := 100 in
      let scanStatus :=
        if bool_decide (normalizedStatus = partial) then partial else success in
      let '(healthScore, scanStatus) :=
        heuristic serviceName summary resourceCount normalizedStatus
                  healthScore scanStatus in
      mkHealth (JsNumber.max 0 (JsNumber.min 100 healthScore)) scanStatus.

End HostConversion.

(** ** Category rollup *)

(** [Record<string, string[]>]: the service names of each category. *)
Abbreviation CategoryServices := (gmap string (list string)).

(** [Record<string, Record<string, number>>]: category, then service. *)
Abbreviation CategoryCounts := (gmap string (gmap string number)).

(** [DiscoverySnapshot], as returned by [simulateFileSystemRead]. *)
Record DiscoverySnapshot : Type := mkSnapshot {
  accounts : list string;
  regions : gmap string (list string);
  services : gmap string CategoryServices;
  resourceCounts : gmap string (gmap string CategoryCounts)
}.

Inductive HealthStatus : Type := healthy | warning | critical.

(** [AWSService] without its display-only members ([name], [description],
    [icon]) and its clock reading ([lastUpdated]). *)
Module AWSService.
Record t : Type := mk {
  id : string;
  serviceName : string;
  categoryKey : string;
  category : string;
  resourceCount : number;
  activeCount : number;
  healthPercent : number;
  status : HealthStatus;
  scanStatus : ScanStatus
}.
End AWSService.

(** [ServiceCategory] *)
Module ServiceCategory.
Record t : Type := mk {
  key : string;
  name : string;
  services : list AWSService.t;
  totalResources : number
}.
End ServiceCategory.

(** The literal [categoryOrder] of [getServiceCategories]. *)
Definition categoryOrder : list string :=
  [ "compute"; "database"; "general"; "storage"; "networking"; "integration";
    "cost_management"; "security"; "monitoring"; "devops_tools"; "analytics";
    "migration_transfer"; "management_governance"; "ai_ml" ].

(** The literal [categoryNameMap] of [formatCategoryName]. *)
Definition categoryNameMap : list (string * string) :=
  [ ("compute", "Compute"); ("database", "Database"); ("general", "General");
    ("storage", "Storage"); ("networking", "Networking");
    ("integration", "Integration"); ("cost_management", "Cost Management");
    ("security", "Security"); ("monitoring", "Monitoring");
    ("devops_tools", "DevOps Tools"); ("analytics", "Analytics");
    ("migration_transfer", "Migration Transfer");
    ("management_governance", "Management Governance"); ("ai_ml", "AI-ML") ].

Definition upperAscii (c : Ascii.ascii) : Ascii.ascii :=
  let n := Ascii.N_of_ascii c in
  if ((97 <=? n) && (n <=? 122))%N then Ascii.ascii_of_N (n - 32) else c.

(** [word.charAt(0).toUpperCase() + word.slice(1)] for a word of ASCII
    characters, of which [toUpperCase] changes the letters [a]-[z] only; what
    it does to other characters is not modelled. *)
Definition capitalize (word : string) : string :=
  match word with
  | EmptyString => EmptyString
  | String c rest => String (upperAscii c) rest
  end.

(** [category.split('_')], with the word being read in [word]. *)
Fixpoint splitUnderscore (category : string) (word : string) : list string :=
  match category with
  | EmptyString => [word]
  | String c rest =>
      if Ascii.eqb c (Ascii.ascii_of_N 95) then word :: splitUnderscore rest EmptyString
      else splitUnderscore rest (word +:+ String c EmptyString)
  end.

(** [words.join(' ')] *)
Fixpoint joinSpace (words : list string) : string :=
  match words with
  | [] => EmptyString
  | [w] => w
  | w :: rest => w +:+ " " +:+ joinSpace rest
  end.

(** [formatCategoryName(category)]; an empty mapped name would be falsy, but
    the map has none. *)
Definition formatCategoryName (category : string) : string :=
  match lookupProp categoryNameMap category with
  | Some mapped => mapped
  | None => joinSpace (List.map capitalize (splitUnderscore category EmptyString))
  end.

(** [value || 0] on a possibly missing count. *)
Definition countOrZero (value : option number) : number :=
  match value with
  | Some n => if JsNumber.truthy n then n else 0
  | None => 0
  end.

(** [array.filter(Boolean)] on an array of objects and [null]s. *)
Fixpoint filterBoolean {A} (items : list (option A)) : list A :=
  match items with
  | [] => []
  | Some x :: rest => x :: filterBoolean rest
  | None :: rest => filterBoolean rest
  end.

Section Rollup.

Context {arith : Arithmetic}.

Variable StringToNumber : string -> number.

(** What the [try] block of [createServiceModelWithData] leaves in
    [serviceData] for an account, region, category and service: the fetched
    payload after [normalizeServiceData], or [JNull] when the request failed. *)
Variable fetchServiceData : string -> string -> string -> string -> JsValue.

(** [createServiceModelWithData(serviceName, category, accountName,
    regionCode, resourceCount)] *)
Definition createServiceModelWithData
    (serviceName category accountName regionCode : string)
    (resourceCount : number) : AWSService.t :=
  let serviceData := fetchServiceData accountName regionCode category serviceName in
  let health := calculateServiceHealth StringToNumber serviceName serviceData in
  let healthPercent := healthPercent health in
  let activeCount : number :=
    if (resourceCount >? 0)%js then
      let healthRatio := (healthPercent / 100)%js in
      JsNumber.floor (resourceCount * (Fin (1 # 2) + healthRatio * Fin (1 # 2)))%js
    else 0 in
  AWSService.mk
    (category +:+ "/" +:+ serviceName)
    serviceName
    category
    (formatCategoryName category)
    resourceCount
    activeCount
    healthPercent
    (if (healthPercent >=? 90)%js then healthy
     else if (healthPercent >=? 70)%js then warning else critical)
    (scanStatus health).

(** The callback mapped over [categoryOrder]; [None] is [null]. *)
Definition categoryFor (accountName regionCode : string)
    (services : CategoryServices) (resourceCounts : CategoryCounts)
    (categoryName : string) : option ServiceCategory.t :=
  let serviceNames := default [] (services !! categoryName) in
  if (length serviceNames =? 0)%nat then None
  else
    let categoryResourceCounts : gmap string number :=
      default ∅ (resourceCounts !! categoryName) in
    let servicesWithResources :=
      List.filter
        (fun serviceName =>
           let resourceCount := countOrZero (categoryResourceCounts !! serviceName) in
           (resourceCount >? 0)%js)
        serviceNames in
    if (length servicesWithResources =? 0)%nat then None
    else
      let categoryTotalResources :=
        fold_left
          (fun sum serviceName =>
             (sum + countOrZero (categoryResourceCounts !! serviceName))%js)
          servicesWithResources (0 : number) in
      let categoryServices :=
        List.map
          (fun serviceName =>
             createServiceModelWithData serviceName categoryName accountName regionCode
               (countOrZero (categoryResourceCounts !! serviceName)))
          servicesWithResources in
      Some (ServiceCategory.mk categoryName (formatCategoryName categoryName)
              categoryServices categoryTotalResources).

(** [getServiceCategories(accountName, regionCode)] on the snapshot [data]
    that [simulateFileSystemRead] returned. *)
Definition getServiceCategories (data : DiscoverySnapshot)
    (accountName regionCode : string) : list ServiceCategory.t :=
  let services : CategoryServices := default ∅ (services data !! accountName) in
  let resourceCounts : CategoryCounts :=
    default ∅ (resourceCounts data !! accountName ≫= (.!! regionCode)) in
  let categoriesResults :=
    List.map (categoryFor accountName regionCode services resourceCounts) categoryOrder in
  filterBoolean categoriesResults.

End Rollup.

(** ** A string-to-number conversion to run the definitions with

    [asciiStringToNumber] reads the [StringNumericLiteral] grammar of
    ECMAScript over ASCII text: optional surrounding white space, then nothing
    (which is [0]), a signed decimal literal with optional fraction and
    exponent, a signed [Infinity], or an unsigned [0x], [0o] or [0b] integer;
    any other text is [NaN].  The value read is the value of the literal
    rounded to binary64. *)

Module HostNumber.

Definition code (c : Ascii.ascii) : Z := Z.of_N (Ascii.N_of_ascii c).

Definition isWhiteSpace (c : Ascii.ascii) : bool :=
  let n := code c in
  ((9 <=? n) && (n <=? 13)) || (n =? 32).

Fixpoint trimStart (s : string) : string :=
  match s with
  | String c rest => if isWhiteSpace c then trimStart rest else s
  | EmptyString => s
  end.

Definition trim (s : string) : string :=
  String.rev (trimStart (String.rev (trimStart s))).

(** The value of [c] as a digit of the given radix. *)
Definition digitOf (radix : Z) (c : Ascii.ascii) : option Z :=
  let n := code c in
  let d :=
    if (48 <=? n) && (n <=? 57) then n - 48
    else if (97 <=? n) && (n <=? 122) then n - 87
    else if (65 <=? n) && (n <=? 90) then n - 55
    else radix in
  if d <? radix then Some d else None.

(** Reads the longest run of digits: its value, its length, and the rest. *)
Fixpoint readDigits (radix : Z) (s : string) (acc : Z) (count : nat)
    : Z * nat * string :=
  match s with
  | String c rest =>
      match digitOf radix c with
      | Some d => readDigits radix rest (radix * acc + d) (S count)
      | None => (acc, count, s)
      end
  | EmptyString => (acc, count, s)
  end.

(** Reads an optional sign; [true] is [-]. *)
Definition readSign (s : string) : bool * string :=
  match s with
  | String c rest =>
      if code c =? 45 then (true, rest)
      else if code c =? 43 then (false, rest)
      else (false, s)
  | EmptyString => (false, s)
  end.

(** An optional [ExponentPart] that must end the text. *)
Definition readExponent (s : string) : option Z :=
  match s with
  | EmptyString => Some 0
  | String c rest =>
      if (code c =? 101) || (code c =? 69) then
        let '(negative, digits) := readSign rest in
        let '(e, n, trailing) := readDigits 10 digits 0 0%nat in
        if (0 <? n)%nat && String.eqb trailing ""
        then Some (if negative then - e else e)
        else None
      else None
  end.

Definition readUnsignedDecimal (s : string) : number :=
  if String.eqb s "Infinity" then PosInf
  else
    let '(ip, ni, afterInt) := readDigits 10 s 0 0%nat in
    let '(fp, nf, afterFrac) :=
      match afterInt with
      | String c rest =>
          if code c =? 46 then readDigits 10 rest 0 0%nat else (0, 0%nat, afterInt)
      | EmptyString => (0, 0%nat, afterInt)
      end in
    if (ni + nf =? 0)%nat then NaN
    else
      match readExponent afterFrac with
      | Some e =>
          let scale := 10 ^ Z.of_nat nf in
          binary64 ((inject_Z (ip * scale + fp) / inject_Z scale)
                            * Qpower (inject_Z 10) e)
      | None => NaN
      end.

Definition readRadix (radix : Z) (digits : string) : number :=
  let '(v, n, trailing) := readDigits radix digits 0 0%nat in
  if (0 <? n)%nat && String.eqb trailing ""
  then binary64 (inject_Z v)
  else NaN.

Definition asciiStringToNumber (s : string) : number :=
  match trim s with
  | EmptyString => 0
  | String c0 (String c1 digits) as text =>
      if (code c0 =? 48) && ((code c1 =? 120) || (code c1 =? 88))
      then readRadix 16 digits
      else if (code c0 =? 48) && ((code c1 =? 111) || (code c1 =? 79))
      then readRadix 8 digits
      else if (code c0 =? 48) && ((code c1 =? 98) || (code c1 =? 66))
      then readRadix 2 digits
      else
        let '(negative, unsigned) := readSign text in
        let v := readUnsignedDecimal unsigned in
        if negative then JsNumber.neg v else v
  | text =>
      let '(negative, unsigned) := readSign text in
      let v := readUnsignedDecimal unsigned in
      if negative then JsNumber.neg v else v
  end.

End HostNumber.

(** ** Workload optimization data contract *)

Inductive MemoryStatus : Type := optimal | over_provisioned | under_provisioned.

Global Instance MemoryStatus_eq_dec : EqDecision MemoryStatus.
Proof. solve_decision. Defined.

(** [interface LambdaOptimization] *)
Module LambdaOptimization.
Record t : Type := mk {
  is_idle : bool;
  invocations : number;
  avg_duration_ms : number;
  max_duration_ms : number;
  errors : number;
  throttles : number;
  error_rate : number;
  memory_status : MemoryStatus;
  memory_utilization_percent : number;
  high_error_rate : bool;
  arm_candidate : bool;
  potential_savings : number;
  recommendations : list string
}.
End LambdaOptimization.

(** [interface LambdaFunction]; the optional [optimization] is present on an
    analyzed function. *)
Module LambdaFunction.
Record t : Type := mk {
  function_name : string;
  runtime : string;
  memory_size : number;
  timeout : number;
  architecture : string;
  trigger_types : list string;
  optimization : option LambdaOptimization.t
}.
End LambdaFunction.

(** [interface OptimizationSummary] *)
Module OptimizationSummary.
Record t : Type := mk {
  total_functions : number;
  idle_functions : number;
  over_provisioned_memory : number;
  under_provisioned_memory : number;
  high_error_rate : number;
  arm_migration_candidates : number;
  potential_monthly_savings : number
}.
End OptimizationSummary.

(** [flag ? 1 : 0] *)
Definition countIf (flag : bool) : number := if flag then 1 else 0.

(** Modelled from the spec: the producer of [OptimizationSummary] (the
    back-end workload analyzer) is not among the sources; only the two
    interfaces above are.  The spec has the summary "produced by summing
    counts and potential_savings across all analyzed resources of the
    service".  [accumulate] adds one analyzed resource to a running summary
    and [summarizeOptimization] runs it over the functions of the service,
    from the all-zero summary. *)
Definition accumulate {arith : Arithmetic}
    (acc : OptimizationSummary.t) (opt : LambdaOptimization.t)
    : OptimizationSummary.t :=
  OptimizationSummary.mk
    (OptimizationSummary.total_functions acc + 1)%js
    (OptimizationSummary.idle_functions acc
       + countIf (LambdaOptimization.is_idle opt))%js
    (OptimizationSummary.over_provisioned_memory acc
       + countIf (bool_decide (LambdaOptimization.memory_status opt = over_provisioned)))%js
    (OptimizationSummary.under_provisioned_memory acc
       + countIf (bool_decide (LambdaOptimization.memory_status opt = under_provisioned)))%js
    (OptimizationSummary.high_error_rate acc
       + countIf (LambdaOptimization.high_error_rate opt))%js
    (OptimizationSummary.arm_migration_candidates acc
       + countIf (LambdaOptimization.arm_candidate opt))%js
    (OptimizationSummary.potential_monthly_savings acc
       + LambdaOptimization.potential_savings opt)%js.

Definition emptySummary : OptimizationSummary.t :=
  OptimizationSummary.mk 0 0 0 0 0 0 0.

(** The analyzed resources of a service. *)
Definition analyzed (functions : list LambdaFunction.t) : list LambdaOptimization.t :=
  filterBoolean (List.map LambdaFunction.optimization functions).

Definition summarizeOptimization {arith : Arithmetic}
    (functions : list LambdaFunction.t)
    : OptimizationSummary.t :=
  fold_left accumulate (analyzed functions) emptySummary.

(** ** Resource extraction and payload normalization *)

(** [Object.entries(value)] for an object: the properties whose key is an
    array index (a canonical decimal numeral below [2^32 - 1]) come first, in
    ascending order of index, then the others in insertion order. *)
Definition arrayIndex (key : string) : option Z :=
  let '(v, n, trailing) := HostNumber.readDigits 10 key 0 0%nat in
  let canonical :=
    match key with
    | String c (String _ _) => negb (HostNumber.code c =? 48)
    | _ => true
    end in
  if (0 <? n)%nat && String.eqb trailing "" && canonical && (v <=? 4294967294)
  then Some v else None.

Fixpoint insertByIndex {A} (i : Z) (entry : A) (sorted : list (Z * A))
    : list (Z * A) :=
  match sorted with
  | [] => [(i, entry)]
  | (j, e) :: rest =>
      if i <? j then (i, entry) :: sorted else (j, e) :: insertByIndex i entry rest
  end.

Fixpoint indexEntries {A} (props : list (string * A)) : list (Z * (string * A)) :=
  match props with
  | [] => []
  | (k, v) :: rest =>
      match arrayIndex k with
      | Some i => insertByIndex i (k, v) (indexEntries rest)
      | None => indexEntries rest
      end
  end.

Definition objectEntries {A} (props : list (string * A)) : list (string * A) :=
  List.map snd (indexEntries props)
  ++ List.filter (fun '(k, _) => negb (bool_decide (is_Some (arrayIndex k)))) props.

(** The region an array element of unknown shape declares; [None] is the
    [TypeError] of reading a property of [null] or [undefined]. *)
Definition regionOf (resource : JsValue) : option JsValue :=
  match resource with
  | JNull | JUndefined => None
  | _ =>
      Some (nullish (nullish (getProp resource "region") (getProp resource "Region"))
                    (getProp resource "aws_region"))
  end.

(** [array.filter(callback)] with a callback that can throw. *)
Fixpoint filterThrowing {A} (f : A -> option bool) (items : list A)
    : option (list A) :=
  match items with
  | [] => Some []
  | x :: rest =>
      match f x with
      | None => None
      | Some keep =>
          match filterThrowing f rest with
          | None => None
          | Some kept => Some (if keep then x :: kept else kept)
          end
      end
  end.

(** [filterResourcesByRegion] as it runs on an array cast from the raw
    payload ([value as ServiceResource[]]), whose elements can be anything;
    [None] is a thrown [TypeError]. *)
Definition filterRawResourcesByRegion (resources : list JsValue)
    (regionCode : option string) : option (list JsValue) :=
  match regionCode with
  | None => Some resources
  | Some code =>
      if String.eqb code "" || (length resources =? 0)%nat then Some resources
      else
        match
          filterThrowing
            (fun resource => option_map (fun region => isRegion region code)
                                        (regionOf resource))
            resources
        with
        | None => None
        | Some filtered =>
            Some (if (0 <? length filtered)%nat then filtered else resources)
        end
  end.

(** The literal [preferredArrayKeys] of [extractResourceArray]. *)
Definition preferredArrayKeys : list string :=
  [ "buckets"; "instances"; "clusters"; "functions"; "volumes";
    "snapshots"; "repositories"; "vpcs"; "subnets"; "security_groups";
    "db_instances"; "tables"; "distributions"; "load_balancers" ].

(** The first loop of [extractResourceArray]: the first preferred key that
    holds an array. *)
Fixpoint firstPreferredArray (serviceData : JsValue) (keys : list string)
    : option (list JsValue) :=
  match keys with
  | [] => None
  | key :: rest =>
      match getProp serviceData key with
      | JArr items => Some items
      | _ => firstPreferredArray serviceData rest
      end
  end.

(** The second loop: the first array among the entries, [tags], [metadata]
    and [summary] aside. *)
Fixpoint firstOtherArray (entries : list (string * JsValue)) : option (list JsValue) :=
  match entries with
  | [] => None
  | (key, value) :: rest =>
      if String.eqb key "tags" || String.eqb key "metadata" || String.eqb key "summary"
      then firstOtherArray rest
      else
        match value with
        | JArr items => Some items
        | _ => firstOtherArray rest
        end
  end.

(** The array that [extractResourceArray] settles on, before the region
    filter. *)
Definition selectedArray (serviceData : JsValue) : option (list JsValue) :=
  match serviceData with
  | JObj props =>
      match getProp serviceData "resources" with
      | JArr items => Some items
      | _ =>
          match firstPreferredArray serviceData preferredArrayKeys with
          | Some items => Some items
          | None => firstOtherArray (objectEntries props)
          end
      end
  | _ => None
  end.

(** [extractResourceArray(serviceData, regionCode?)] *)
Definition extractResourceArray (serviceData : JsValue) (regionCode : option string)
    : option (list JsValue) :=
  match selectedArray serviceData with
  | Some items => filterRawResourcesByRegion items regionCode
  | None => Some []
  end.

(** [array.length] *)
Definition lengthOf {A} (items : list A) : number := of_Z (Z.of_nat (length items)).

Section Normalization.

Variable StringToNumber : string -> number.

(** [extractResourceCount(serviceData, regionCode?)] *)
Definition extractResourceCount (serviceData : JsValue) (regionCode : option string)
    : option number :=
  if negb (isRecord serviceData) then Some (0 : number)
  else
    let summary :=
      if isRecord (getProp serviceData "summary")
      then getProp serviceData "summary" else JUndefined in
    let summaryCount :=
      getNumericValue StringToNumber
        (nullish (getProp summary "resource_count") (getProp summary "total_resources")) in
    if (summaryCount >? 0)%js then Some summaryCount
    else option_map lengthOf (extractResourceArray serviceData regionCode).

(** The clock reading [new Date().toISOString()]. *)
Variable now : string.

(** [normalizeServiceData(rawData, accountName, regionCode, serviceName)] *)
Definition normalizeServiceData (rawData : JsValue)
    (accountName regionCode serviceName : string) : option JsValue :=
  if isRecord rawData
     && (match getProp rawData "resources" with JArr _ => true | _ => false end)
     && isRecord (getProp rawData "summary")
  then Some rawData
  else
    match extractResourceArray rawData (Some regionCode),
          extractResourceCount rawData (Some regionCode) with
    | Some inferredResources, Some inferredCount =>
    Some (JObj
      [ ("schema_version",
         match getProp rawData "schema_version" with
         | JStr version => JStr version
         | _ => JStr "1.0.0"
         end);
        ("generated_at",
         match getProp rawData "generated_at" with
         | JStr stamp => JStr stamp
         | _ => JStr now
         end);
        ("service",
         JObj [ ("service_name", JStr serviceName); ("region", JStr regionCode);
                ("profile", JStr accountName) ]);
        ("summary",
         JObj [ ("resource_count", JNum inferredCount);
                ("scan_status", JStr "success") ]);
        ("resources", JArr inferredResources) ])
    | _, _ => None
    end.

(** The [try] block of [createServiceModelWithData]: [serviceData] stays
    [null] unless the response is ok ([Some rawData]) and normalizes without
    a throw. *)
Definition fetchedServiceData (response : option JsValue)
    (accountName regionCode serviceName : string) : JsValue :=
  match response with
  | Some rawData =>
      default JNull (normalizeServiceData rawData accountName regionCode serviceName)
  | None => JNull
  end.

End Normalization.

(** ** Account identifiers *)

(** [ToInt32]: the signed 32-bit integer congruent to [z]. *)
Definition toInt32 (z : Z) : Z := (z + 2 ^ 31) mod 2 ^ 32 - 2 ^ 31.

(** One step of the reduction of [generateAccountId]:
    [a = ((a << 5) - a) + b.charCodeAt(0); return a & a]. *)
Definition hashStep (a : Z) (charCode : Z) : Z :=
  let a := (toInt32 (toInt32 a * 2 ^ 5) - a) + charCode in
  toInt32 a.

(** The decimal numeral of a non-negative integer ([Number.prototype.toString]
    on it), most significant digit first; the fuel is the bit length, which
    bounds the number of digits. *)
Fixpoint decimalDigits (fuel : nat) (n : Z) (acc : string) : string :=
  let acc := String (Ascii.ascii_of_N (Z.to_N (48 + n mod 10))) acc in
  match fuel with
  | O => acc
  | S fuel' => if n / 10 =? 0 then acc else decimalDigits fuel' (n / 10) acc
  end.

Definition toDecimal (n : Z) : string :=
  decimalDigits (Z.to_nat (Z.log2 n)) n EmptyString.

Fixpoint repeatChar (n : nat) (c : Ascii.ascii) : string :=
  match n with
  | O => EmptyString
  | S n' => String c (repeatChar n' c)
  end.

(** [s.padStart(n, c)] for a one-character filler. *)
Definition padStart (n : nat) (c : Ascii.ascii) (s : string) : string :=
  repeatChar (n - String.length s) c +:+ s.

(** [s.slice(0, n)] *)
Fixpoint sliceTo (n : nat) (s : string) : string :=
  match n, s with
  | S n', String c rest => String c (sliceTo n' rest)
  | _, _ => EmptyString
  end.

(** [generateAccountId(name)], on the UTF-16 code units of [name] (what
    [name.split('')] and [charCodeAt(0)] read). *)
Definition generateAccountId (nameUnits : list Z) : string :=
  let hash := fold_left hashStep nameUnits 0 in
  sliceTo 12 (padStart 12 (Ascii.ascii_of_N 48) (toDecimal (Z.abs hash))).

(** The code units of a text of ASCII characters. *)
Fixpoint codeUnits (s : string) : list Z :=
  match s with
  | EmptyString => []
  | String c rest => HostNumber.code c :: codeUnits rest
  end.

(** A text made of decimal digits. *)
Fixpoint allDigits (s : string) : bool :=
  match s with
  | EmptyString => true
  | String c rest =>
      (48 <=? HostNumber.code c) && (HostNumber.code c <=? 57) && allDigits rest
  end.

(** ** The application store *)

(** The state of [useAppStore].  Accounts and regions are only stored and
    handed back, so their types are parameters. *)
Module AppStore.

Section Store.

Context {Account Region : Type}.

Record t : Type := mk {
  accounts : list Account;
  regions : list Region;
  serviceCategories : list ServiceCategory.t;
  lastScanTimestamp : option string;
  selectedAccount : option Account;
  selectedRegion : option Region;
  selectedCategory : option ServiceCategory.t;
  accountSidebarOpen : bool;
  regionSidebarOpen : bool;
  loading : bool;
  error : option string
}.

(** The initial state. *)
Definition initial : t :=
  mk [] [] [] None None None None true false false None.

(** What changes the state: each constructor is one [set] call of the store
    (an asynchronous action is its [set] calls, in order, with anything in
    between). *)
Inductive event : Type :=
| LoadStarted
| AccountsLoaded (loaded : list Account)
| RegionsLoaded (loaded : list Region)
| CategoriesLoaded (loaded : list ServiceCategory.t) (timestamp : option string)
| LoadFailed (message : string)
| SelectAccount (account : Account)
| SelectRegion (region : Region)
| SelectCategory (category : ServiceCategory.t)
| BackToAccounts
| BackToRegions
| ToggleAccountSidebar
| ToggleRegionSidebar
| ClearError
| SetSelectedAccount (account : option Account)
| SetSelectedRegion (region : option Region)
| SetSelectedCategory (category : option ServiceCategory.t)
| SetAccountSidebarOpen (open : bool)
| SetRegionSidebarOpen (open : bool).

(** The direct setters, which no component calls. *)
Definition isDirectSetter (e : event) : bool :=
  match e with
  | SetSelectedAccount _ | SetSelectedRegion _ | SetSelectedCategory _
  | SetAccountSidebarOpen _ | SetRegionSidebarOpen _ => true
  | _ => false
  end.

Definition apply (e : event) (s : t) : t :=
  match e with
  | LoadStarted =>
      mk (accounts s) (regions s) (serviceCategories s) (lastScanTimestamp s)
         (selectedAccount s) (selectedRegion s) (selectedCategory s)
         (accountSidebarOpen s) (regionSidebarOpen s) true None
  | AccountsLoaded loaded =>
      mk loaded (regions s) (serviceCategories s) (lastScanTimestamp s)
         (selectedAccount s) (selectedRegion s) (selectedCategory s)
         (accountSidebarOpen s) (regionSidebarOpen s) false (error s)
  | RegionsLoaded loaded =>
      mk (accounts s) loaded (serviceCategories s) (lastScanTimestamp s)
         (selectedAccount s) (selectedRegion s) (selectedCategory s)
         (accountSidebarOpen s) (regionSidebarOpen s) false (error s)
  | CategoriesLoaded loaded timestamp =>
      mk (accounts s) (regions s) loaded timestamp
         (selectedAccount s) (selectedRegion s) (selectedCategory s)
         (accountSidebarOpen s) (regionSidebarOpen s) false (error s)
  | LoadFailed message =>
      mk (accounts s) (regions s) (serviceCategories s) (lastScanTimestamp s)
         (selectedAccount s) (selectedRegion s) (selectedCategory s)
         (accountSidebarOpen s) (regionSidebarOpen s) false (Some message)
  | SelectAccount account =>
      mk (accounts s) [] (serviceCategories s) (lastScanTimestamp s)
         (Some account) None None false true (loading s) (error s)
  | SelectRegion region =>
      match selectedAccount s with
      | None => s
      | Some _ =>
          mk (accounts s) (regions s) [] (lastScanTimestamp s)
             (selectedAccount s) (Some region) None
             (accountSidebarOpen s) false (loading s) (error s)
      end
  | SelectCategory category =>
      mk (accounts s) (regions s) (serviceCategories s) (lastScanTimestamp s)
         (selectedAccount s) (selectedRegion s) (Some category)
         (accountSidebarOpen s) (regionSidebarOpen s) (loading s) (error s)
  | BackToAccounts =>
      mk (accounts s) [] [] (lastScanTimestamp s)
         None None None true false (loading s) (error s)
  | BackToRegions =>
      mk (accounts s) (regions s) [] (lastScanTimestamp s)
         (selectedAccount s) None None false true (loading s) (error s)
  | ToggleAccountSidebar =>
      mk (accounts s) (regions s) (serviceCategories s) (lastScanTimestamp s)
         (selectedAccount s) (selectedRegion s) (selectedCategory s)
         (negb (accountSidebarOpen s))
         (if negb (accountSidebarOpen s) then false else regionSidebarOpen s)
         (loading s) (error s)
  | ToggleRegionSidebar =>
      mk (accounts s) (regions s) (serviceCategories s) (lastScanTimestamp s)
         (selectedAccount s) (selectedRegion s) (selectedCategory s)
         (if negb (regionSidebarOpen s) then false else accountSidebarOpen s)
         (negb (regionSidebarOpen s))
         (loading s) (error s)
  | ClearError =>
      mk (accounts s) (regions s) (serviceCategories s) (lastScanTimestamp s)
         (selectedAccount s) (selectedRegion s) (selectedCategory s)
         (accountSidebarOpen s) (regionSidebarOpen s) (loading s) None
  | SetSelectedAccount account =>
      mk (accounts s) (regions s) (serviceCategories s) (lastScanTimestamp s)
         account (selectedRegion s) (selectedCategory s)
         (accountSidebarOpen s) (regionSidebarOpen s) (loading s) (error s)
  | SetSelectedRegion region =>
      mk (accounts s) (regions s) (serviceCategories s) (lastScanTimestamp s)
         (selectedAccount s) region (selectedCategory s)
         (accountSidebarOpen s) (regionSidebarOpen s) (loading s) (error s)
  | SetSelectedCategory category =>
      mk (accounts s) (regions s) (serviceCategories s) (lastScanTimestamp s)
         (selectedAccount s) (selectedRegion s) category
         (accountSidebarOpen s) (regionSidebarOpen s) (loading s) (error s)
  | SetAccountSidebarOpen open =>
      mk (accounts s) (regions s) (serviceCategories s) (lastScanTimestamp s)
         (selectedAccount s) (selectedRegion s) (selectedCategory s)
         open (regionSidebarOpen s) (loading s) (error s)
  | SetRegionSidebarOpen open =>
      mk (accounts s) (regions s) (serviceCategories s) (lastScanTimestamp s)
         (selectedAccount s) (selectedRegion s) (selectedCategory s)
         (accountSidebarOpen s) open (loading s) (error s)
  end.

(** The state after a sequence of events. *)
Definition run (events : list event) (s : t) : t :=
  fold_left (fun s e => apply e s) events s.

End Store.

Arguments t : clear implicits.
Arguments event : clear implicits.

End AppStore.

(** ** Dashboard metrics *)

(** The figures of [MetricCards] (its [lastScan], a formatted date, is left
    out). *)
Module Metrics.
Record t : Type := mk {
  totalResources : number;
  totalServices : number;
  activeServices : number;
  categories : number
}.
End Metrics.



(** ** Column definitions *)

(** A column definition of [generateColumnsFromData]. *)
Module Column.
Record t : Type := mk {
  key : string;
  label : string;
  visible : bool;
  sortable : bool
}.
End Column.

(** The columns returned when there is no resource. *)
Definition defaultColumns : list Column.t :=
  [ Column.mk "resource_name" "Name" true true;
    Column.mk "resource_type" "Type" true true;
    Column.mk "status" "Status" true true;
    Column.mk "region" "Region" true true;
    Column.mk "launch_time" "Created" true true;
    Column.mk "instance_type" "Instance Type" true true;
    Column.mk "vpc_id" "VPC" true true ].

(** The literal [priorityColumns]: key and label. *)
Definition priorityColumns : list (string * string) :=
  [ ("resource_name", "Name"); ("resource_id", "Resource ID");
    ("resource_type", "Type"); ("status", "Status"); ("state", "State");
    ("region", "Region"); ("instance_type", "Instance Type");
    ("instance_id", "Instance ID"); ("launch_time", "Launch Time");
    ("created_time", "Created"); ("vpc_id", "VPC ID"); ("subnet_id", "Subnet ID");
    ("platform", "Platform"); ("db_instance_class", "DB Class");
    ("engine", "Engine"); ("engine_version", "Engine Version");
    ("endpoint", "Endpoint"); ("availability_zone", "AZ");
    ("security_groups", "Security Groups") ].

Definition maxVisible : nat := 9.

(** [value !== undefined && value !== null] *)
Definition present (value : JsValue) : bool :=
  match value with
  | JUndefined | JNull => false
  | _ => true
  end.

(** [columns.find(c => c.key === key)] finds a column. *)
Definition hasColumn (columns : list Column.t) (key : string) : bool :=
  existsb (fun c => String.eqb (Column.key c) key) columns.

(** The label made from a key:
    [key.split('_').map(word => word.charAt(0).toUpperCase() + word.slice(1)).join(' ')]
    (upper-casing as in [capitalize]). *)
Definition labelOf (key : string) : string :=
  joinSpace (List.map capitalize (splitUnderscore key EmptyString)).

(** The first loop of [generateColumnsFromData], over the priority columns;
    the state is [columns] and [visibleCount]. *)
Fixpoint addPriorityColumns (firstResource : ServiceResource)
    (priority : list (string * string)) (columns : list Column.t) (visibleCount : nat)
    : list Column.t * nat :=
  match priority with
  | [] => (columns, visibleCount)
  | (key, label) :: rest =>
      if present (resourceProp firstResource key) && (visibleCount <? maxVisible)%nat
      then addPriorityColumns firstResource rest
             (columns ++ [Column.mk key label true true]) (S visibleCount)
      else addPriorityColumns firstResource rest columns visibleCount
  end.

(** The second loop, over [Object.entries(firstResource)]. *)
Fixpoint addRemainingColumns (entries : list (string * JsValue))
    (columns : list Column.t) (visibleCount : nat) : list Column.t :=
  match entries with
  | [] => columns
  | (key, value) :: rest =>
      if String.eqb key "tags" then addRemainingColumns rest columns visibleCount
      else if negb (hasColumn columns key) && present value then
        let visible := (visibleCount <? Nat.max 7 maxVisible)%nat in
        addRemainingColumns rest
          (columns ++ [Column.mk key (labelOf key) visible true])
          (if visible then S visibleCount else visibleCount)
      else addRemainingColumns rest columns visibleCount
  end.

(** [generateColumnsFromData(resources, _serviceName)]; a missing
    [resources] is [None]. *)
Definition generateColumnsFromData (resources : option (list ServiceResource))
    (_serviceName : string) : list Column.t :=
  match resources with
  | None | Some [] => defaultColumns
  | Some (firstResource :: _) =>
      let '(columns, visibleCount) :=
        addPriorityColumns firstResource priorityColumns [] 0%nat in
      addRemainingColumns (objectEntries firstResource) columns visibleCount
  end.

(** ** Predicates of the statements *)

(** The facts of an [ec2] summary: a positive [resource_count] (the total), a
    declared status that does not normalize to [failed], and a state
    distribution with numeric [running], [stopped] and [terminated]. *)
Definition ec2Facts (serviceData : JsValue)
    (total running stopped terminated : number) : Prop :=
  let summary := getProp serviceData "summary" in
  truthy summary = true
  /\ getProp summary "resource_count" = JNum total
  /\ (total >? 0)%js = true
  /\ normalizeScanStatus (getProp summary "scan_status") <> failed
  /\ exists distribution : list (string * JsValue),
       getProp summary "state_distribution" = JObj distribution
       /\ getProp (JObj distribution) "running" = JNum running
       /\ getProp (JObj distribution) "stopped" = JNum stopped
       /\ getProp (JObj distribution) "terminated" = JNum terminated.


(** A number that is not a finite fraction: an integer or a special value. *)
Definition integral (n : number) : Prop :=
  isFinite n = false \/ exists z : Z, n = of_Z z.

(** An arithmetic is regular when no finite operation yields [NaN] and the
    sum of two integers is an integer or an infinity. *)
Definition regular (arith : Arithmetic) : Prop :=
  (forall x y : Q, finiteSum x y <> NaN)
  /\ (forall x y : Q, finiteProduct x y <> NaN)
  /\ (forall x y : Q, finiteQuotient x y <> NaN)
  /\ (forall a b : Z, integral (finiteSum (inject_Z a) (inject_Z b))).

(** The service names the snapshot lists under a category of an account:
    [data.services[accountName][categoryName]], or none. *)
Definition categoryMembers (data : DiscoverySnapshot)
    (accountName categoryName : string) : list string :=
  default [] (default ∅ (services data !! accountName) !! categoryName).

(** The resource count the snapshot holds for a service:
    [data.resourceCounts[accountName][regionCode][categoryName][serviceName]],
    or [0]. *)
Definition serviceCount (data : DiscoverySnapshot)
    (accountName regionCode categoryName serviceName : string) : number :=
  countOrZero
    (default ∅
       (default ∅ (resourceCounts data !! accountName ≫= (.!! regionCode))
          !! categoryName)
       !! serviceName).

(** A summary that passes the head of [calculateServiceHealth]: it is
    present, its [resource_count] is a number other than [0], and its declared
    status normalizes to [declared], which is not [failed]. *)
Definition scoredSummary (serviceData : JsValue) (resourceCount : number)
    (declared : ScanStatus) : Prop :=
  let summary := getProp serviceData "summary" in
  truthy summary = true
  /\ getProp summary "resource_count" = JNum resourceCount
  /\ (resourceCount === 0)%js = false
  /\ normalizeScanStatus (getProp summary "scan_status") = declared
  /\ declared <> failed.

(** The services with a heuristic of their own. *)
Definition hasOwnHeuristic (serviceName : string) : bool :=
  String.eqb serviceName "ec2" || String.eqb serviceName "rds"
  || String.eqb serviceName "cloudtrail" || String.eqb serviceName "vpc"
  || String.eqb serviceName "s3".

(** A payload that [normalizeServiceData] passes through: a record with an
    array of resources and a record summary. *)
Definition isNormalized (rawData : JsValue) : bool :=
  isRecord rawData
  && (match getProp rawData "resources" with JArr _ => true | _ => false end)
  && isRecord (getProp rawData "summary").

(** The visibility profile of [n] columns: the first [maxVisible] are
    visible, the others hidden. *)
Definition visibleFirst (n : nat) : list bool :=
  replicate (Nat.min maxVisible n) true ++ replicate (n - maxVisible) false.

(** The state of the two loops: the count is the number of visible columns,
    and they come first. *)
Definition columnState (columns : list Column.t) (visibleCount : nat) : Prop :=
  visibleCount = Nat.min maxVisible (length columns)
  /\ List.map Column.visible columns = visibleFirst (length columns).

(** Text of ASCII characters (codes below [128]). *)
Fixpoint isAscii (text : string) : bool :=
  match text with
  | EmptyString => true
  | String c rest => (Ascii.N_of_ascii c <? 128)%N && isAscii rest
  end.

(** A single pass over a key: each underscore becomes a space, and the
    first character of each word is upper-cased (as in [capitalize]). *)
Fixpoint titleCase (key : string) (atStart : bool) : string :=
  match key with
  | EmptyString => EmptyString
  | String c rest =>
      if Ascii.eqb c (Ascii.ascii_of_N 95)
      then String (Ascii.ascii_of_N 32) (titleCase rest true)
      else String (if atStart then upperAscii c else c) (titleCase rest false)
  end.

(** ** Sample inputs *)

(** [summaryOf fields] is a service payload whose summary has the given
    fields. *)
Definition summaryOf (fields : list (string * JsValue)) : JsValue :=
  JObj [("resources", JArr []); ("summary", JObj fields)].

(** Five running, none stopped, three terminated, out of eight. *)
Definition ec2Fleet (declared : string) : JsValue :=
  summaryOf
    [ ("resource_count", JNum 8); ("scan_status", JStr declared);
      ("state_distribution",
       JObj [("running", JNum 5); ("stopped", JNum 0); ("terminated", JNum 3)]) ].

(** An [ec2] summary declared [success], with the given counts. *)
Definition ec2Counts (total running stopped terminated : Z) : JsValue :=
  summaryOf
    [ ("resource_count", JNum total); ("scan_status", JStr "success");
      ("state_distribution",
       JObj [("running", JNum running); ("stopped", JNum stopped);
             ("terminated", JNum terminated)]) ].

(** Counts that overflowed to [Infinity] when the payload was parsed (JSON
    text [1e999]). *)
Definition ec2Overflowed : JsValue :=
  summaryOf
    [ ("resource_count", JNum PosInf); ("scan_status", JStr "success");
      ("state_distribution", JObj [("running", JNum PosInf)]) ].

Definition ec2WithoutDistribution : JsValue :=
  summaryOf [ ("resource_count", JNum 3); ("scan_status", JStr "success") ].

Definition failedWithoutResources : JsValue :=
  summaryOf [ ("resource_count", JNum 0); ("scan_status", JStr "failed") ].

Definition failedWithResources : JsValue :=
  summaryOf [ ("resource_count", JNum 4); ("scan_status", JStr "FAILED") ].

Definition cloudtrailWithoutResources : JsValue :=
  summaryOf
    [ ("resource_count", JNum 0); ("scan_status", JStr "success");
      ("logging_enabled", JNum 0); ("total_trails", JNum 0) ].

Definition cloudtrailWithoutTrails : JsValue :=
  summaryOf
    [ ("resource_count", JNum 2); ("scan_status", JStr "partial");
      ("logging_enabled", JNum 1); ("total_trails", JStr "0") ].

Definition sampleResources : list ServiceResource :=
  [ [("resource_id", JStr "i-1"); ("region", JStr "ap-south-1")];
    [("resource_id", JStr "i-2"); ("Region", JStr "us-east-1")];
    [("resource_id", JStr "i-3"); ("region", JNull); ("aws_region", JStr "ap-south-1")] ].

(** A snapshot of one account and region: [compute] has a populated and an
    empty service, [storage] and [networking] a populated one each,
    [database] only an empty one, and [monitoring] lists none. *)
Definition sampleSnapshot : DiscoverySnapshot :=
  mkSnapshot
    ["acme"]
    {[ "acme" := ["ap-south-1"] ]}
    {[ "acme" := {[ "networking" := ["vpc"]; "storage" := ["s3"];
                    "compute" := ["ec2"; "eks"]; "database" := ["rds"];
                    "monitoring" := [] ]} ]}
    {[ "acme" :=
         {[ "ap-south-1" :=
              {[ "compute" := {[ "ec2" := (8 : number); "eks" := (0 : number) ]};
                 "database" := {[ "rds" := (0 : number) ]};
                 "networking" := {[ "vpc" := (1 : number) ]};
                 "storage" := {[ "s3" := (2 : number) ]} ]} ]} ]}.

Definition sampleFetch (accountName regionCode categoryName serviceName : string)
    : JsValue :=
  if String.eqb serviceName "ec2" then ec2Fleet "success" else JNull.

Definition sampleOptimization (idle : bool) (savings : Q) : LambdaOptimization.t :=
  LambdaOptimization.mk idle 0 0 0 0 0 0 optimal 0 false false (Fin savings) [].

(** Three analyzed functions with savings [10^16], [1] and [1]. *)
Definition unevenSavings : list LambdaFunction.t :=
  [ LambdaFunction.mk "archive" "python3.12" 512 30 "x86_64" []
      (Some (sampleOptimization false (inject_Z (10 ^ 16))));
    LambdaFunction.mk "resize" "python3.12" 512 30 "x86_64" []
      (Some (sampleOptimization false 1));
    LambdaFunction.mk "notify" "nodejs20.x" 128 10 "arm64" []
      (Some (sampleOptimization false 1)) ].

Definition sampleFunctions : list LambdaFunction.t :=
  [ LambdaFunction.mk "resize" "python3.12" 512 30 "x86_64" []
      (Some (sampleOptimization true (5 # 4)));
    LambdaFunction.mk "notify" "nodejs20.x" 128 10 "arm64" [] None;
    LambdaFunction.mk "ingest" "python3.12" 1024 60 "x86_64" []
      (Some (sampleOptimization false (3 # 4))) ].

(** Twenty-nine of two hundred database instances available. *)
Definition rdsFleet : JsValue :=
  summaryOf
    [ ("resource_count", JNum 200); ("scan_status", JStr "success");
      ("status_distribution", JObj [("available", JNum 29); ("stopped", JNum 171)]) ].

(** Twenty-three of forty buckets encrypted, the count given as text. *)
Definition s3Buckets : JsValue :=
  summaryOf
    [ ("resource_count", JNum 40); ("scan_status", JStr "success");
      ("encryption_status", JObj [("encrypted", JStr "23"); ("unencrypted", JNum 17)]) ].

(** Twenty-three of forty trails logging. *)
Definition cloudtrailTrails : JsValue :=
  summaryOf
    [ ("resource_count", JNum 40); ("scan_status", JStr "success");
      ("logging_enabled", JNum 23); ("total_trails", JNum 40) ].

Definition vpcDefault : JsValue :=
  summaryOf
    [ ("resource_count", JNum 1); ("scan_status", JStr "success");
      ("is_default", JBool true) ].

Definition lambdaSummary : JsValue :=
  summaryOf [ ("resource_count", JNum 12); ("scan_status", JStr "success") ].

(** A raw payload without a summary: its resources are under [buckets]. *)
Definition rawBuckets : JsValue :=
  JObj [ ("tags", JArr [JStr "team"]);
         ("buckets",
          JArr [ JObj [("name", JStr "logs"); ("region", JStr "ap-south-1")];
                 JObj [("name", JStr "media"); ("region", JStr "us-east-1")] ]) ].

(** A raw payload whose array holds a [null]. *)
Definition rawWithNull : JsValue :=
  JObj [ ("items", JArr [JObj [("region", JStr "ap-south-1")]; JNull]) ].

Definition sampleNow : string := "2026-01-01T00:00:00.000Z".

(** A resource with eleven fields that hold a value, a [null] field and
    [tags]. *)
Definition sampleInstance : ServiceResource :=
  [ ("instance_id", JStr "i-1"); ("state", JStr "running");
    ("region", JStr "ap-south-1"); ("instance_type", JStr "t3.micro");
    ("launch_time", JStr "2026-01-01"); ("vpc_id", JStr "vpc-1");
    ("subnet_id", JStr "subnet-1"); ("platform", JNull);
    ("tags", JObj [("team", JStr "core")]); ("availability_zone", JStr "ap-south-1a");
    ("monitoring_state", JStr "enabled"); ("key_name", JStr "ops");
    ("public_ip", JStr "10.0.0.1") ].

(** A session: pick an account, load its regions, pick a region, open the
    account sidebar again, go back to the regions. *)
Definition sampleSession : list (AppStore.event string string) :=
  [ AppStore.LoadStarted; AppStore.AccountsLoaded ["acme"];
    AppStore.SelectAccount "acme"; AppStore.LoadStarted;
    AppStore.RegionsLoaded ["ap-south-1"]; AppStore.SelectRegion "ap-south-1";
    AppStore.ToggleAccountSidebar; AppStore.ToggleRegionSidebar;
    AppStore.BackToRegions ].

(** * Properties *)

(** ** Arithmetic of the number model *)

Section NumberFacts.

Context {arith : Arithmetic}.

Lemma Qred_inject_Z (z : Z) : Qred (inject_Z z) = inject_Z z.
Proof.
  unfold Qred, inject_Z.
  generalize (Z.ggcd_gcd z 1) (Z.ggcd_correct_divisors z 1).
  destruct (Z.ggcd z 1) as [g [aa bb]]; simpl.
  rewrite Z.gcd_1_r. intros -> [Ha Hb].
  assert (aa = z) as -> by lia. assert (bb = 1) as -> by lia. reflexivity.
Qed.

Lemma Qle_bool_inject_Z (a b : Z) : Qle_bool (inject_Z a) (inject_Z b) = (a <=? b).
Proof. unfold Qle_bool, inject_Z; simpl. by rewrite !Z.mul_1_r. Qed.

Lemma ltb_of_Z (a b : Z) : JsNumber.ltb (of_Z a) (of_Z b) = (a <? b).
Proof.
  unfold JsNumber.ltb, of_Z. rewrite Qle_bool_inject_Z.
  destruct (Z.leb_spec b a), (Z.ltb_spec a b); simpl; try reflexivity; lia.
Qed.









Section Regular.

Hypothesis Hregular : regular arith.




End Regular.


Lemma roundHalfEven_Z (x : Q) (n : Z) : (x == inject_Z n)%Q -> roundHalfEven x = n.
Proof.
  intros Hx. unfold roundHalfEven.
  assert (Qfloor x = n) as -> by (rewrite Hx; apply Qfloor_Z).
  assert ((x - inject_Z n ?= 1 # 2)%Q = Lt) as ->; [| reflexivity].
  rewrite Hx. apply Qlt_alt.
  assert (inject_Z n - inject_Z n == 0)%Q as -> by ring. reflexivity.
Qed.

Lemma power2_shift (k : Z) (x : Q) : (x * Qpower 2 (- k) * Qpower 2 k == x)%Q.
Proof.
  rewrite <- Qmult_assoc, <- Qpower_plus by discriminate.
  replace (- k + k) with 0 by lia. apply Qmult_1_r.
Qed.

(** An integer rounded to a multiple of a power of two is an integer. *)
Lemma binary64_grid (a : Q) (k : Z) (z : Z) :
  (a == inject_Z z)%Q ->
  exists n : Z,
    (inject_Z (roundHalfEven (a / Qpower 2 k)) * Qpower 2 k == inject_Z n)%Q.
Proof.
  intros Ha. destruct (Z.le_gt_cases 0 k) as [Hk | Hk].
  - exists (roundHalfEven (a / Qpower 2 k) * 2 ^ k).
    rewrite inject_Z_mult, Zpower_Qpower by done. reflexivity.
  - exists z.
    assert (a / Qpower 2 k == inject_Z (z * 2 ^ (- k)))%Q as Hq.
    { rewrite inject_Z_mult, Zpower_Qpower by lia. unfold Qdiv.
      rewrite <- Qpower_opp, Ha. reflexivity. }
    rewrite (roundHalfEven_Z _ _ Hq), inject_Z_mult, Zpower_Qpower by lia.
    apply power2_shift.
Qed.

Lemma binary64_integral (z : Z) : integral (binary64 (inject_Z z)).
Proof.
  unfold binary64. destruct (Qeq_bool _ _); [right; by exists 0 |].
  set (k := Z.max _ _ - 52).
  destruct (binary64_grid (Qabs (inject_Z z)) k (Z.abs z)) as [n Hn]; [reflexivity |].
  destruct (Qle_bool (Qpower 2 1024) _); [destruct (Qle_bool 0 _); by left |].
  right. destruct (Qle_bool 0 _).
  - exists n. unfold of_Z. f_equal. rewrite <- (Qred_inject_Z n).
    by apply Qred_complete.
  - exists (- n). unfold of_Z. f_equal. rewrite <- (Qred_inject_Z (- n)).
    apply Qred_complete. rewrite Hn. reflexivity.
Qed.

Lemma binary64_number (x : Q) : binary64 x <> NaN.
Proof. unfold binary64. by repeat case_match. Qed.

Lemma binary64Arithmetic_regular : regular binary64Arithmetic.
Proof.
  repeat split; try (intros; apply binary64_number). intros a b.
  cbn [finiteSum binary64Arithmetic].
  replace (inject_Z a + inject_Z b)%Q with (inject_Z (a + b)); [apply binary64_integral |].
  unfold Qplus, inject_Z. cbn [Qnum Qden Pos.mul]. by rewrite !Z.mul_1_r.
Qed.


End NumberFacts.

(** ** Rounding to binary64 *)

Section Binary64Facts.

#[local] Existing Instance binary64Arithmetic.

Lemma power2_pos (k : Z) : (0 < Qpower 2 k)%Q.
Proof. by apply Qpower_0_lt. Qed.

Lemma power2_succ (k : Z) : (Qpower 2 (k + 1) == 2 * Qpower 2 k)%Q.
Proof. rewrite Qpower_plus by discriminate. rewrite Qmult_comm. reflexivity. Qed.

Lemma power2_Z (k : Z) : 0 <= k -> (Qpower 2 k == inject_Z (2 ^ k))%Q.
Proof. intros Hk. by rewrite Zpower_Qpower. Qed.

Lemma power2_scale (k j : Z) :
  0 <= j -> (Qpower 2 k * inject_Z (2 ^ j) == Qpower 2 (k + j))%Q.
Proof. intros Hj. rewrite <- power2_Z by done. by rewrite Qpower_plus. Qed.

(** [ilog2] is the binade of a positive rational. *)
Lemma ilog2_spec (x : Q) :
  (0 < x)%Q -> (Qpower 2 (ilog2 x) <= x)%Q /\ (x < Qpower 2 (ilog2 x + 1))%Q.
Proof.
  intros Hx. destruct x as [n d]. assert (0 < n) as Hn.
  { unfold Qlt in Hx. simpl in Hx. lia. }
  unfold ilog2. cbn [Qnum Qden].
  pose proof (Z.log2_spec n Hn) as [Hn_lo Hn_hi].
  pose proof (Z.log2_spec (Zpos d) ltac:(lia)) as [Hd_lo Hd_hi].
  pose proof (Z.log2_nonneg n) as Hp. pose proof (Z.log2_nonneg (Zpos d)) as Hr.
  set (p := Z.log2 n) in *. set (r := Z.log2 (Z.pos d)) in *.
  assert (n # d == inject_Z n / inject_Z (Zpos d))%Q as Hq by apply Qmake_Qdiv.
  assert (0 < inject_Z (Zpos d))%Q as Hdpos by (rewrite <- (Zlt_Qlt 0); lia).
  destruct (Qle_bool (Qpower 2 (p - r)) (n # d)) eqn:Hle.
  - apply Qle_bool_iff in Hle. split; [exact Hle |].
    rewrite Hq. apply Qlt_shift_div_r; [done |].
    apply Qlt_le_trans with (Qpower 2 (p - r + 1) * inject_Z (2 ^ r))%Q.
    + rewrite power2_scale by done. replace (p - r + 1 + r) with (Z.succ p) by lia.
      rewrite power2_Z by lia. by rewrite <- Zlt_Qlt.
    + apply Qmult_le_l; [apply power2_pos |]. by rewrite <- Zle_Qle.
  - assert (n # d < Qpower 2 (p - r))%Q as Hlt.
    { apply Qnot_le_lt. intros H. apply Qle_bool_iff in H. congruence. }
    split; [| by replace (p - r - 1 + 1) with (p - r) by lia].
    rewrite Hq. apply Qle_shift_div_l; [done |].
    apply Qle_trans with (Qpower 2 (p - r - 1) * inject_Z (2 ^ Z.succ r))%Q.
    + apply Qmult_le_l; [apply power2_pos |]. rewrite <- Zle_Qle. lia.
    + rewrite power2_scale by lia.
      replace (p - r - 1 + Z.succ r) with p by lia.
      rewrite power2_Z by lia. by rewrite <- Zle_Qle.
Qed.

Lemma roundHalfEven_error (t : Q) :
  (Qabs (inject_Z (roundHalfEven t) - t) <= 1 # 2)%Q.
Proof.
  unfold roundHalfEven. pose proof (Qfloor_le t) as Hlo. pose proof (Qlt_floor t) as Hhi.
  rewrite inject_Z_plus in Hhi. change (inject_Z 1) with 1%Q in Hhi.
  apply Qabs_Qle_condition.
  destruct (Qcompare_spec (t - inject_Z (Qfloor t)) (1 # 2)) as [Heq | Hlt | Hgt].
  - destruct (Z.even _); rewrite ?inject_Z_plus; change (inject_Z 1) with 1%Q;
      revert Heq Hlo Hhi; generalize (inject_Z (Qfloor t)); intros f Heq Hlo Hhi;
      split; lra.
  - revert Hlt Hlo Hhi; generalize (inject_Z (Qfloor t)); intros f Hlt Hlo Hhi.
    split; lra.
  - rewrite inject_Z_plus. change (inject_Z 1) with 1%Q.
    revert Hgt Hlo Hhi; generalize (inject_Z (Qfloor t)); intros f Hgt Hlo Hhi.
    split; lra.
Qed.

Lemma power2_lt_inv (a b : Z) : (Qpower 2 a < Qpower 2 b)%Q -> a < b.
Proof.
  intros H. destruct (Z.lt_ge_cases a b) as [? | Hge]; [done |].
  exfalso. apply (Qlt_not_le _ _ H). apply Qpower_le_compat_l; [lia | discriminate].
Qed.

(** In the normal range the rounding error is at most [2^-53] of the value. *)
Lemma binary64_error (x : Q) :
  (Qpower 2 (-1022) <= x)%Q -> (x <= Qpower 2 1023)%Q ->
  exists x' : Q,
    binary64 x = Fin x' /\ (Qabs (x' - x) <= x * (1 # 9007199254740992))%Q.
Proof.
  intros Hlo Hhi.
  assert (0 < x)%Q as Hpos by (eapply Qlt_le_trans; [apply (power2_pos (-1022)) | done]).
  unfold binary64.
  assert (Qeq_bool x 0 = false) as ->.
  { destruct (Qeq_bool x 0) eqn:Hz; [| done]. apply Qeq_bool_iff in Hz.
    rewrite Hz in Hpos. by apply Qlt_irrefl in Hpos. }
  assert (Qle_bool 0 x = true) as -> by (by apply Qle_bool_iff, Qlt_le_weak).
  assert (Qabs x = x) as ->.
  { destruct x as [[| n | n] d]; try done. }
  destruct (ilog2_spec x Hpos) as [He_lo He_hi].
  assert (Z.max (ilog2 x) (-1022) = ilog2 x) as ->.
  { apply Z.max_l. assert (-1022 < ilog2 x + 1); [| lia].
    apply power2_lt_inv. by eapply Qle_lt_trans. }
  assert (ilog2 x <= 1023) as He.
  { assert (ilog2 x < 1024); [| lia]. apply power2_lt_inv.
    eapply Qle_lt_trans; [exact He_lo |]. eapply Qle_lt_trans; [exact Hhi |].
    by apply Qpower_lt_compat_l. }
  set (e := ilog2 x) in *. set (ulp := Qpower 2 (e - 52)).
  assert (0 < ulp)%Q as Hulp by apply power2_pos.
  assert (ulp == Qpower 2 e * (1 # 4503599627370496))%Q as Hulp_e.
  { subst ulp. unfold Z.sub. by rewrite Qpower_plus. }
  pose proof (roundHalfEven_error (x / ulp)) as Herr.
  set (m := inject_Z (roundHalfEven (x / ulp))) in *.
  assert (Qabs (m * ulp - x) <= ulp * (1 # 2))%Q as Hr.
  { assert (m * ulp - x == (m - x / ulp) * ulp)%Q as -> by (field; lra).
    rewrite Qabs_Qmult, (Qabs_pos ulp) by lra. rewrite (Qmult_comm ulp).
    by apply Qmult_le_compat_r; [| lra]. }
  apply Qabs_Qle_condition in Hr.
  assert (Qle_bool (Qpower 2 1024) (m * ulp) = false) as ->.
  { destruct (Qle_bool _ _) eqn:Hov; [| done]. apply Qle_bool_iff in Hov.
    assert (Qpower 2 1024 == 2 * Qpower 2 1023)%Q as Hp by (by rewrite <- power2_succ).
    assert (Qpower 2 e <= Qpower 2 1023)%Q as Hpe
      by (apply Qpower_le_compat_l; [lia | discriminate]).
    revert Hp Hov Hulp_e Hr Hhi He_lo Hpe.
    generalize (Qpower 2 1024) (Qpower 2 1023) (Qpower 2 e) (m * ulp)%Q ulp.
    intros. lra. }
  exists (Qred (m * ulp)). split; [reflexivity |].
  rewrite Qred_correct. apply Qabs_Qle_condition.
  revert Hulp_e Hr He_lo. generalize (Qpower 2 e) (m * ulp)%Q ulp. intros. lra.
Qed.

(** [Math.round((a / b) * 100)] on integer counts: the percentage is rounded
    twice, and what [Math.round] makes of it is a nearest integer to the exact
    percentage. *)
Lemma binary64_percentage (a b : Z) :
  0 < a < 2 ^ 44 -> 0 < b < 2 ^ 53 ->
  exists x1 y1 : Q,
    binary64 (inject_Z a / inject_Z b) = Fin x1
    /\ binary64 (x1 * inject_Z 100) = Fin y1
    /\ 2 * b * Qfloor (y1 + (1 # 2)) <= 200 * a + b
    /\ 200 * a - b <= 2 * b * Qfloor (y1 + (1 # 2)).
Proof.
  intros Ha Hb.
  assert (1 <= inject_Z a <= 17592186044415)%Q as [HA_lo HA_hi].
  { change 1%Q with (inject_Z 1). change 17592186044415%Q
      with (inject_Z 17592186044415). rewrite <- !Zle_Qle. lia. }
  assert (1 <= inject_Z b <= 9007199254740991)%Q as [HB_lo HB_hi].
  { change 1%Q with (inject_Z 1). change 9007199254740991%Q
      with (inject_Z 9007199254740991). rewrite <- !Zle_Qle. lia. }
  set (A := inject_Z a) in *. set (B := inject_Z b) in *.
  assert (~ B == 0)%Q as HB0 by lra.
  assert ((1 # 9007199254740992) <= A / B /\ A / B <= 17592186044415)%Q as [Hx_lo Hx_hi].
  { split; [apply Qle_shift_div_l | apply Qle_shift_div_r]; lra. }
  assert (Qpower 2 (-1022) <= 1 # 9007199254740992)%Q as Hsmall.
  { change (1 # 9007199254740992)%Q with (Qpower 2 (-53)).
    apply Qpower_le_compat_l; [lia | discriminate]. }
  assert (4503599627370496 <= Qpower 2 1023)%Q as Hlarge.
  { change 4503599627370496%Q with (Qpower 2 52).
    apply Qpower_le_compat_l; [lia | discriminate]. }
  destruct (binary64_error (A / B)) as (x1 & Hx1 & Ex1); [lra | lra |].
  apply Qabs_Qle_condition in Ex1.
  destruct (binary64_error (x1 * inject_Z 100)) as (y1 & Hy1 & Ey1).
  { change (inject_Z 100) with 100%Q. lra. }
  { change (inject_Z 100) with 100%Q. lra. }
  change (inject_Z 100) with 100%Q in Ey1. apply Qabs_Qle_condition in Ey1.
  exists x1, y1. split; [exact Hx1 |]. split; [exact Hy1 |].
  pose proof (Qfloor_le (y1 + (1 # 2))) as Hz_lo.
  pose proof (Qlt_floor (y1 + (1 # 2))) as Hz_hi.
  rewrite inject_Z_plus in Hz_hi. change (inject_Z 1) with 1%Q in Hz_hi.
  set (z := Qfloor (y1 + (1 # 2))) in *. set (Z' := inject_Z z) in *.
  assert (0 < 2 * B)%Q as H2B by lra.
  split.
  - assert (Z' <= 100 * (A / B) * (1 + (5 # 18014398509481984)) + (1 # 2))%Q as H1 by lra.
    apply (Qmult_le_l _ _ _ H2B) in H1.
    assert (2 * B * (100 * (A / B) * (1 + (5 # 18014398509481984)) + (1 # 2))
            == 200 * A * (1 + (5 # 18014398509481984)) + B)%Q as H3 by (by field).
    rewrite H3 in H1.
    assert (inject_Z (2 * b * z) < inject_Z (200 * a + b + 1))%Q as Hlt.
    { rewrite !inject_Z_plus, !inject_Z_mult. fold A B Z'.
      change (inject_Z 2) with 2%Q. change (inject_Z 200) with 200%Q.
      change (inject_Z 1) with 1%Q. lra. }
    rewrite <- Zlt_Qlt in Hlt. lia.
  - assert (100 * (A / B) * (1 - (2 # 9007199254740992)) - (1 # 2) < Z')%Q as H1 by lra.
    apply (Qmult_lt_l _ _ _ H2B) in H1.
    assert (2 * B * (100 * (A / B) * (1 - (2 # 9007199254740992)) - (1 # 2))
            == 200 * A * (1 - (2 # 9007199254740992)) - B)%Q as H3 by (by field).
    rewrite H3 in H1.
    assert (inject_Z (200 * a - b - 1) < inject_Z (2 * b * z))%Q as Hlt.
    { unfold Z.sub. rewrite !inject_Z_plus, !inject_Z_mult, !inject_Z_opp. fold A B Z'.
      change (inject_Z 2) with 2%Q. change (inject_Z 200) with 200%Q.
      change (inject_Z 1) with 1%Q. lra. }
    rewrite <- Zlt_Qlt in Hlt. lia.
Qed.

Lemma clamp_of_Z (z : Z) :
  0 <= z <= 100 -> JsNumber.max 0 (JsNumber.min 100 (of_Z z)) = of_Z z.
Proof.
  intros Hz. unfold JsNumber.min. cbn [of_Z]. fold (of_Z z) (of_Z 100).
  rewrite ltb_of_Z. destruct (Z.ltb_spec z 100).
  - unfold JsNumber.max. cbn [of_Z]. fold (of_Z z) (of_Z 0).
    rewrite ltb_of_Z. destruct (Z.ltb_spec 0 z); [reflexivity |].
    by replace z with 0 by lia.
  - by replace z with 100 by lia.
Qed.

(** The rounded percentage of a part of a total, both integers: an integer
    of [0..100] within one half of the exact percentage. *)
Lemma rounded_percentage (part total : Z) :
  0 <= part <= total -> 0 < total < 2 ^ 53 -> part < 2 ^ 44 ->
  exists z : Z,
    JsNumber.round ((of_Z part / of_Z total) * 100)%js = of_Z z
    /\ 0 <= z <= 100
    /\ 200 * part - total <= 2 * total * z <= 200 * part + total.
Proof.
  intros Hpart Htotal Hbound. unfold JsNumber.div. cbn [of_Z].
  assert (Qeq_bool (inject_Z total) 0 = false) as ->.
  { destruct (Qeq_bool _ _) eqn:Hz; [| done]. apply Qeq_bool_iff in Hz.
    unfold Qeq in Hz. simpl in Hz. lia. }
  cbn [finiteQuotient binary64Arithmetic].
  destruct (Z.eq_dec part 0) as [-> | Hnz].
  - exists 0. split; [| lia].
    assert (binary64 (inject_Z 0 / inject_Z total) = Fin 0) as ->; [| reflexivity].
    unfold binary64.
    assert (Qeq_bool (inject_Z 0 / inject_Z total) 0 = true) as ->; [| reflexivity].
    apply Qeq_bool_iff. unfold Qdiv. apply Qmult_0_l.
  - destruct (binary64_percentage part total) as (x1 & y1 & -> & Hy1 & Hhi & Hlo);
      [lia | lia |].
    cbn [JsNumber.mul finiteProduct binary64Arithmetic of_Z]. rewrite Hy1.
    cbn [JsNumber.round]. eexists. split; [reflexivity |]. nia.
Qed.

End Binary64Facts.

(** ** Scan-status normalization *)

Section ScanStatusFacts.

Lemma normalizeScanStatus_string (s : string) :
  normalizeScanStatus (JStr s) =
    if String.eqb (toLowerCase s) "success" then success
    else if String.eqb (toLowerCase s) "partial" then partial
    else failed.
Proof.
  unfold normalizeScanStatus.
  destruct (String.eqb (toLowerCase s) "success"); [reflexivity |].
  destruct (String.eqb_spec (toLowerCase s) "failed") as [Hf | _]; [| reflexivity].
  rewrite Hf. reflexivity.
Qed.

(** C10.  [normalizeScanStatus] sends every input to one of [success],
    [failed], [partial].  A string is lower-cased before it is matched, and
    the result is then the lower-cased string itself when that is one of the
    three (so [Success] gives [success]); every unrecognized string, the
    fallback marker [fallback_data] among them, and every input that is not a
    string gives [failed]. *)
Theorem normalizeScanStatus_total (status : JsValue) :
  statusString (normalizeScanStatus status) ∈ ["success"; "failed"; "partial"]
  /\ (forall s, status = JStr s ->
        toLowerCase s ∈ ["success"; "failed"; "partial"] ->
        statusString (normalizeScanStatus status) = toLowerCase s)
  /\ (forall s, status = JStr s ->
        toLowerCase s ∉ ["success"; "failed"; "partial"] ->
        normalizeScanStatus status = failed)
  /\ ((forall s, status <> JStr s) -> normalizeScanStatus status = failed)
  /\ normalizeScanStatus (JStr "Success") = success
  /\ normalizeScanStatus (JStr "fallback_data") = failed.
Proof.
  repeat split.
  - destruct (normalizeScanStatus status); simpl; repeat constructor.
  - intros s -> Hin. rewrite normalizeScanStatus_string.
    destruct (String.eqb_spec (toLowerCase s) "success") as [-> | Hs]; [done |].
    destruct (String.eqb_spec (toLowerCase s) "partial") as [-> | Hp]; [done |].
    apply list_elem_of_In in Hin.
    destruct Hin as [H | [H | [H | []]]]; simpl; congruence.
  - intros s -> Hnot. rewrite normalizeScanStatus_string.
    destruct (String.eqb_spec (toLowerCase s) "success") as [Hs | _].
    { destruct Hnot. rewrite Hs. repeat constructor. }
    destruct (String.eqb_spec (toLowerCase s) "partial") as [Hp | _].
    { destruct Hnot. rewrite Hp. repeat constructor. }
    reflexivity.
  - intros Hns. destruct status; try reflexivity. by destruct (Hns s).
Qed.

End ScanStatusFacts.

(** ** Region filter *)

Section RegionFilterFacts.

(** C6.  With a region code given, [filterResourcesByRegion] returns the whole
    list whenever no record carries that region, returns the matching records
    otherwise (for a non-empty code), and so returns an empty list only for an
    empty input. *)
Theorem filterResourcesByRegion_never_drops_all
    (resources : list ServiceResource) (regionCode : string) :
  let matching :=
    List.filter (fun resource => isRegion (resourceRegion resource) regionCode)
                resources in
  (matching = [] ->
     filterResourcesByRegion resources (Some regionCode) = resources)
  /\ (matching <> [] -> regionCode <> "" ->
     filterResourcesByRegion resources (Some regionCode) = matching)
  /\ (filterResourcesByRegion resources (Some regionCode) = [] -> resources = []).
Proof.
  intros matching. unfold filterResourcesByRegion.
  fold matching. repeat split.
  - intros Hm. rewrite Hm. simpl. by destruct (_ || _).
  - intros Hne Hcode. destruct (String.eqb_spec regionCode "") as [| _]; [done |].
    destruct resources as [| r rs]; [done |]. cbn [orb length Nat.eqb].
    destruct matching; [done | reflexivity].
  - destruct (_ || _); [done |].
    destruct matching; simpl; [done | discriminate].
Qed.

End RegionFilterFacts.

(** ** Numeric coercion and health scoring *)

Section HealthFacts.

Context {arith : Arithmetic}.

Variable StringToNumber : string -> number.

(** C7.  [getNumericValue] yields a number for every input: the input itself
    when it is a number, the converted value when it is a string whose
    conversion is finite, and [0] in every other case (a string whose
    conversion is not finite, [null], [undefined], a boolean, an object, an
    array). *)
Theorem getNumericValue_total (value : JsValue) :
  (exists n : number, getNumericValue StringToNumber value = n)
  /\ (forall n, value = JNum n -> getNumericValue StringToNumber value = n)
  /\ (forall s, value = JStr s -> isFinite (StringToNumber s) = true ->
        getNumericValue StringToNumber value = StringToNumber s)
  /\ (forall s, value = JStr s -> isFinite (StringToNumber s) = false ->
        getNumericValue StringToNumber value = 0)
  /\ ((forall n, value <> JNum n) -> (forall s, value <> JStr s) ->
        getNumericValue StringToNumber value = 0).
Proof.
  repeat split.
  - eauto.
  - by intros n ->.
  - intros s -> Hfin. simpl. by rewrite Hfin.
  - intros s -> Hfin. simpl. by rewrite Hfin.
  - intros Hn Hs. destruct value; try reflexivity.
    + by destruct (Hn n).
    + by destruct (Hs s).
Qed.

(** The guard at the head of [calculateServiceHealth]. *)
Lemma missing_summary (serviceName : string) (serviceData : JsValue) :
  truthy (getProp serviceData "summary") = false ->
  calculateServiceHealth StringToNumber serviceName serviceData = mkHealth 0 failed.
Proof.
  intros H. unfold calculateServiceHealth. rewrite H.
  by rewrite orb_true_r.
Qed.

(** Past the guard, the function is determined by the summary. *)
Lemma with_summary (serviceName : string) (serviceData : JsValue) :
  truthy (getProp serviceData "summary") = true ->
  calculateServiceHealth StringToNumber serviceName serviceData =
    let summary := getProp serviceData "summary" in
    let resourceCount : number :=
      match getProp summary "resource_count" with JNum n => n | _ => 0 end in
    let normalizedStatus := normalizeScanStatus (getProp summary "scan_status") in
    if bool_decide (normalizedStatus = failed) || (resourceCount === 0)%js then
      mkHealth (if (resourceCount === 0)%js then 100 else 0)
               (if (resourceCount === 0)%js then success else failed)
    else
      let '(healthScore, scanStatus) :=
        heuristic StringToNumber serviceName summary resourceCount normalizedStatus 100
          (if bool_decide (normalizedStatus = partial) then partial else success) in
      mkHealth (JsNumber.max 0 (JsNumber.min 100 healthScore)) scanStatus.
Proof.
  intros H. unfold calculateServiceHealth. rewrite H.
  assert (truthy serviceData = true) as ->; [| reflexivity].
  destruct serviceData; try discriminate. reflexivity.
Qed.

(** C2.  A summary that reports [resource_count == 0] is scored
    [health_percent = 100], [scan_status = success], whatever the service name,
    the declared scan status and the other fields. *)
Theorem zero_resources_is_healthy
    (serviceName : string) (serviceData : JsValue) (n : number) :
  truthy (getProp serviceData "summary") = true ->
  getProp (getProp serviceData "summary") "resource_count" = JNum n ->
  (n === 0)%js = true ->
  calculateServiceHealth StringToNumber serviceName serviceData = mkHealth 100 success.
Proof.
  intros Hsum Hcount Hzero. rewrite with_summary by done. cbn zeta.
  rewrite Hcount, Hzero. by rewrite orb_true_r.
Qed.

(** C5, amended.  For [cloudtrail], a summary whose [resource_count] is a
    non-zero number and whose [total_trails] coerces to [0] is scored
    [health_percent = 0], [scan_status = failed], whatever the declared scan
    status and the other fields. *)
Theorem cloudtrail_without_trails_fails (serviceData : JsValue) (n : number) :
  truthy (getProp serviceData "summary") = true ->
  getProp (getProp serviceData "summary") "resource_count" = JNum n ->
  (n === 0)%js = false ->
  (getNumericValue StringToNumber
     (getProp (getProp serviceData "summary") "total_trails") === 0)%js = true ->
  calculateServiceHealth StringToNumber "cloudtrail" serviceData = mkHealth 0 failed.
Proof.
  intros Hsum Hcount Hnz Htrails. rewrite with_summary by done. cbn zeta.
  rewrite Hcount, Hnz.
  destruct (bool_decide _); [reflexivity |].
  unfold heuristic. cbn [String.eqb Ascii.eqb Bool.eqb orb].
  rewrite Htrails. reflexivity.
Qed.

(** C4, amended.  A missing payload or summary is scored [0] / [failed]; so is
    a summary whose declared status normalizes to [failed] while its
    [resource_count] is a non-zero number.  An [ec2] summary with a non-zero
    [resource_count], a declared status that is not [failed] and no numeric
    [state_distribution] keeps [health_percent = 100] and the declared
    status. *)
Theorem failed_status_or_missing_facts (serviceName : string) (serviceData : JsValue) :
  (truthy serviceData = false \/ truthy (getProp serviceData "summary") = false ->
     calculateServiceHealth StringToNumber serviceName serviceData = mkHealth 0 failed)
  /\ (forall n : number,
        truthy (getProp serviceData "summary") = true ->
        getProp (getProp serviceData "summary") "resource_count" = JNum n ->
        (n === 0)%js = false ->
        normalizeScanStatus (getProp (getProp serviceData "summary") "scan_status")
          = failed ->
        calculateServiceHealth StringToNumber serviceName serviceData
          = mkHealth 0 failed)
  /\ (forall n : number,
        truthy (getProp serviceData "summary") = true ->
        getProp (getProp serviceData "summary") "resource_count" = JNum n ->
        (n === 0)%js = false ->
        normalizeScanStatus (getProp (getProp serviceData "summary") "scan_status")
          <> failed ->
        asNumberRecord (getProp (getProp serviceData "summary") "state_distribution")
          = None ->
        calculateServiceHealth StringToNumber "ec2" serviceData
          = mkHealth 100
              (normalizeScanStatus
                 (getProp (getProp serviceData "summary") "scan_status"))).
Proof.
  repeat split.
  - intros [H | H]; [| by apply missing_summary].
    apply missing_summary. by destruct serviceData.
  - intros n Hsum Hcount Hnz Hst. rewrite with_summary by done. cbn zeta.
    rewrite Hcount, Hnz, Hst. reflexivity.
  - intros n Hsum Hcount Hnz Hst Hdist. rewrite with_summary by done. cbn zeta.
    rewrite Hcount, Hnz. rewrite bool_decide_eq_false_2 by done.
    unfold heuristic. cbn [String.eqb Ascii.eqb Bool.eqb orb]. rewrite Hdist.
    destruct (normalizeScanStatus _); [reflexivity | done | reflexivity].
Qed.






Section IntegerScores.

Hypothesis Hregular : regular arith.





End IntegerScores.

Lemma lookup_numericEntries (props : list (string * JsValue)) (key : string) (n : number) :
  lookupProp props key = Some (JNum n) ->
  lookupProp (numericEntries props) key = Some n.
Proof.
  induction props as [| [k v] rest IH]; [discriminate |]. cbn [lookupProp].
  destruct (String.eqb k key) eqn:Hk.
  - intros [= ->]. cbn [numericEntries lookupProp]. by rewrite Hk.
  - intros Hrest. specialize (IH Hrest).
    destruct v; cbn [numericEntries lookupProp]; try done. by rewrite Hk.
Qed.

Lemma getProp_number (props : list (string * JsValue)) (key : string) (n : number) :
  getProp (JObj props) key = JNum n ->
  asNumberRecord (JObj props) = Some (numericEntries props)
  /\ fieldOrZero (numericEntries props) key = n.
Proof.
  cbn [getProp]. destruct (lookupProp props key) as [v |] eqn:Hl; [| discriminate].
  cbn [default from_option id]. intros ->.
  apply lookup_numericEntries in Hl. unfold asNumberRecord, fieldOrZero.
  rewrite Hl. split; [| reflexivity].
  destruct (numericEntries props); [discriminate | reflexivity].
Qed.

Lemma positive_nonzero (n : number) : (n >? 0)%js = true -> (n === 0)%js = false.
Proof.
  destruct n as [q | | |]; try done. cbn. intros Hpos.
  destruct (Qeq_bool q (inject_Z 0)) eqn:Hz; [| done].
  apply Qeq_bool_iff in Hz. apply negb_true_iff in Hpos.
  assert (Qle_bool q (inject_Z 0) = true) as Hle; [| congruence].
  apply Qle_bool_iff. rewrite Hz. apply Qle_refl.
Qed.

(** C3, amended.  For [ec2] with a positive [resource_count] (the total), a
    declared status that is not [failed], and a state distribution giving
    [running], [stopped] and [terminated]: the score is
    [Math.round((running / total) * 100)] as the host computes it, less [20]
    and floored at [0] when [terminated > 0], and the health is that score
    clamped to [0..100]; the scan status is [partial] exactly when
    [stopped > 0] or the declared status is [partial], and [success]
    otherwise. *)
Theorem ec2_state_machine_score
    (serviceData : JsValue) (total running stopped terminated : number) :
  ec2Facts serviceData total running stopped terminated ->
  let declared :=
    normalizeScanStatus (getProp (getProp serviceData "summary") "scan_status") in
  let ratio := JsNumber.round ((running / total) * 100)%js in
  let score :=
    if (terminated >? 0)%js then JsNumber.max 0 (ratio - 20)%js else ratio in
  let result := calculateServiceHealth StringToNumber "ec2" serviceData in
  healthPercent result = JsNumber.max 0 (JsNumber.min 100 score)
  /\ (scanStatus result = partial <->
        (stopped >? 0)%js = true \/ declared = partial)
  /\ (scanStatus result <> partial -> scanStatus result = success).
Proof.
  intros (Hsum & Hcount & Htotal & Hdecl & dist & Hdist & Hrun & Hstop & Hterm).
  intros declared ratio score result. subst result.
  rewrite with_summary by done. cbn zeta. rewrite Hcount. fold declared.
  fold declared in Hdecl. clearbody declared.
  rewrite bool_decide_eq_false_2 by done.
  rewrite (positive_nonzero total Htotal).
  cbn [orb]. unfold heuristic. cbn [String.eqb Ascii.eqb Bool.eqb orb].
  rewrite Hdist.
  destruct (getProp_number _ _ _ Hrun) as [-> ->].
  destruct (getProp_number _ _ _ Hstop) as [_ ->].
  destruct (getProp_number _ _ _ Hterm) as [_ ->].
  rewrite Htotal. fold ratio. fold score. cbn [healthPercent scanStatus].
  split; [reflexivity |]. split.
  - destruct (stopped >? 0)%js; [by intuition |].
    destruct declared; [| done |]; cbn; intuition congruence.
  - destruct (stopped >? 0)%js; [done |].
    destruct declared; [| done |]; cbn; intuition congruence.
Qed.

End HealthFacts.

(** ** Category rollup *)

Section RollupFacts.

Context {arith : Arithmetic}.

Variable StringToNumber : string -> number.
Variable fetchServiceData : string -> string -> string -> string -> JsValue.
Variable data : DiscoverySnapshot.
Variables accountName regionCode : string.

Let hasResources (categoryName serviceName : string) : bool :=
  (serviceCount data accountName regionCode categoryName serviceName >? 0)%js.

Let category (categoryName : string) : option ServiceCategory.t :=
  categoryFor StringToNumber fetchServiceData accountName regionCode
    (default ∅ (services data !! accountName))
    (default ∅ (resourceCounts data !! accountName ≫= (.!! regionCode)))
    categoryName.

Lemma filter_nil_existsb {A} (f : A -> bool) (l : list A) :
  (length (List.filter f l) =? 0)%nat = negb (existsb f l).
Proof.
  induction l as [| x l IH]; [reflexivity |]. simpl.
  destruct (f x); [reflexivity | exact IH].
Qed.

Lemma category_None (categoryName : string) :
  existsb (hasResources categoryName) (categoryMembers data accountName categoryName)
    = false ->
  category categoryName = None.
Proof.
  intros Hnone. unfold category, categoryFor.
  fold (categoryMembers data accountName categoryName).
  destruct (length (categoryMembers _ _ _) =? 0)%nat; [reflexivity |].
  rewrite filter_nil_existsb.
  unfold hasResources, serviceCount in Hnone. by rewrite Hnone.
Qed.

Lemma category_Some (categoryName : string) :
  existsb (hasResources categoryName) (categoryMembers data accountName categoryName)
    = true ->
  exists c, category categoryName = Some c
    /\ ServiceCategory.key c = categoryName
    /\ List.map AWSService.serviceName (ServiceCategory.services c)
       = List.filter (hasResources categoryName)
           (categoryMembers data accountName categoryName).
Proof.
  intros Hsome. unfold category, categoryFor.
  fold (categoryMembers data accountName categoryName).
  destruct (categoryMembers data accountName categoryName) as [| m ms] eqn:Hm;
    [discriminate |].
  cbn [length Nat.eqb]. rewrite filter_nil_existsb.
  unfold hasResources, serviceCount in Hsome. rewrite Hsome. cbn [negb].
  eexists. split; [reflexivity |]. cbn [ServiceCategory.key ServiceCategory.services].
  split; [reflexivity |].
  rewrite List.map_map. cbn [AWSService.serviceName createServiceModelWithData].
  by rewrite List.map_id.
Qed.

Lemma keys_of_categories (order : list string) :
  List.map ServiceCategory.key (filterBoolean (List.map category order))
  = List.filter
      (fun k => existsb (hasResources k) (categoryMembers data accountName k)) order.
Proof.
  induction order as [| k order IH]; [reflexivity |]. cbn [List.map List.filter].
  destruct (existsb _ _) eqn:Hk.
  - destruct (category_Some k Hk) as (c & -> & Hkey & _).
    cbn [filterBoolean List.map]. by rewrite Hkey, IH.
  - rewrite (category_None k Hk). exact IH.
Qed.

Lemma categories_from (order : list string) (c : ServiceCategory.t) :
  c ∈ filterBoolean (List.map category order) ->
  existsb (hasResources (ServiceCategory.key c))
    (categoryMembers data accountName (ServiceCategory.key c)) = true
  /\ category (ServiceCategory.key c) = Some c.
Proof.
  induction order as [| k order IH]; [by intros ?%elem_of_nil |].
  cbn [List.map]. destruct (existsb (hasResources k) (categoryMembers data accountName k))
    eqn:Hk.
  - destruct (category_Some k Hk) as (c' & Hc' & Hkey & _). rewrite Hc'.
    cbn [filterBoolean]. intros [-> | Hin]%elem_of_cons; [| by apply IH].
    rewrite Hkey. by split.
  - rewrite (category_None k Hk). cbn [filterBoolean]. apply IH.
Qed.

Lemma zero_has_no_resources (n : number) : (n === 0)%js = true -> (n >? 0)%js = false.
Proof.
  destruct n as [q | | |]; try discriminate. cbn. intros Hq.
  apply Qeq_bool_iff in Hq. apply negb_false_iff, Qle_bool_iff.
  rewrite Hq. apply Qle_refl.
Qed.

Lemma filter_sublist {A} (f : A -> bool) (l : list A) : sublist (List.filter f l) l.
Proof.
  induction l as [| x l IH]; [constructor |]. simpl.
  destruct (f x); by constructor.
Qed.

(** C8.  The categories come out in the order of [categoryOrder]: their keys
    are the sub-list of [categoryOrder] made of the categories with at least
    one service of positive resource count.  Inside a category, the services
    are the listed ones of positive count, in their listed order: a service
    whose count is [0] is left out, and a category whose services all have
    count [0], or that lists no service, is left out altogether. *)
Theorem getServiceCategories_ordered_and_pruned :
  let categories :=
    getServiceCategories StringToNumber fetchServiceData data accountName regionCode in
  let members := categoryMembers data accountName in
  let count := serviceCount data accountName regionCode in
  List.map ServiceCategory.key categories
    = List.filter (fun k => existsb (fun s => (count k s >? 0)%js) (members k))
        categoryOrder
  /\ sublist (List.map ServiceCategory.key categories) categoryOrder
  /\ (forall c, c ∈ categories ->
        List.map AWSService.serviceName (ServiceCategory.services c)
        = List.filter (fun s => (count (ServiceCategory.key c) s >? 0)%js)
            (members (ServiceCategory.key c)))
  /\ (forall c s, c ∈ categories ->
        (count (ServiceCategory.key c) s === 0)%js = true ->
        s ∉ List.map AWSService.serviceName (ServiceCategory.services c))
  /\ (forall k,
        (forall s, s ∈ members k -> (count k s === 0)%js = true) ->
        k ∉ List.map ServiceCategory.key categories).
Proof.
  intros categories members count.
  assert (List.map ServiceCategory.key categories
          = List.filter (fun k => existsb (hasResources k) (members k)) categoryOrder)
    as Hkeys by apply keys_of_categories.
  assert (forall c, c ∈ categories ->
            List.map AWSService.serviceName (ServiceCategory.services c)
            = List.filter (hasResources (ServiceCategory.key c))
                (members (ServiceCategory.key c))) as Hservices.
  { intros c [Hex Hc]%categories_from.
    destruct (category_Some _ Hex) as (c' & Hc' & _ & Hlist).
    rewrite Hc' in Hc. injection Hc as <-. exact Hlist. }
  split; [exact Hkeys |]. split; [rewrite Hkeys; apply filter_sublist |].
  split; [exact Hservices |]. split.
  - intros c s Hc Hzero Hin. rewrite (Hservices c Hc) in Hin.
    apply list_elem_of_In, List.filter_In in Hin. destruct Hin as [_ Hpos].
    unfold hasResources in Hpos. fold count in Hpos.
    by rewrite (zero_has_no_resources _ Hzero) in Hpos.
  - intros k Hzero Hin. rewrite Hkeys in Hin.
    apply list_elem_of_In, List.filter_In in Hin. destruct Hin as [_ Hex].
    apply List.existsb_exists in Hex. destruct Hex as (s & Hs & Hpos).
    apply list_elem_of_In in Hs. unfold hasResources in Hpos. fold count in Hpos.
    by rewrite (zero_has_no_resources _ (Hzero s Hs)) in Hpos.
Qed.

End RollupFacts.

(** ** Optimization summary *)

Section SummaryFacts.

Context {arith : Arithmetic}.

Lemma accumulate_in_order (functions : list LambdaFunction.t)
    (acc : OptimizationSummary.t) :
  OptimizationSummary.potential_monthly_savings
    (fold_left accumulate (analyzed functions) acc)
  = fold_left
      (fun sum f =>
         match LambdaFunction.optimization f with
         | Some opt => (sum + LambdaOptimization.potential_savings opt)%js
         | None => sum
         end)
      functions (OptimizationSummary.potential_monthly_savings acc).
Proof.
  revert acc. induction functions as [| f functions IH]; intros acc; [reflexivity |].
  unfold analyzed in *. cbn [List.map filterBoolean fold_left].
  destruct (LambdaFunction.optimization f) as [opt |]; cbn [filterBoolean fold_left].
  - rewrite IH. reflexivity.
  - apply IH.
Qed.

(** The savings of the modelled summary: the savings of the functions that
    carry an analysis, added to [0] one after the other, in the order of the
    functions and in the arithmetic of the host. *)
Lemma potential_monthly_savings_in_order (functions : list LambdaFunction.t) :
  OptimizationSummary.potential_monthly_savings (summarizeOptimization functions)
  = fold_left
      (fun sum f =>
         match LambdaFunction.optimization f with
         | Some opt => (sum + LambdaOptimization.potential_savings opt)%js
         | None => sum
         end)
      functions (0 : number).
Proof. apply accumulate_in_order. Qed.

End SummaryFacts.

(** ** The statements on the sample inputs *)

(** C1 (not met by the code).  On the [ec2] payload whose [resource_count]
    and running count are both [Infinity], the selected ratio is
    [Infinity / Infinity], [Math.round] of it is [NaN], and the final
    [Math.max(0, Math.min(100, ...))] returns [NaN]: the health percent is not
    an integer of [0..100].  (Its scan status is [success], one of the three.
    By [health_percent_range] every score other than [NaN] is an integer of
    [0..100], and by [health_percent_range_finite] [NaN] needs a number of
    the payload that is not finite; both hold in every regular arithmetic,
    that of ECMAScript included.) *)
Section OverflowedCounts.

Context {arith : Arithmetic}.

Theorem health_percent_nan_on_overflowed_counts (StringToNumber : string -> number) :
  let result := calculateServiceHealth StringToNumber "ec2" ec2Overflowed in
  healthPercent result = NaN
  /\ scanStatus result = success
  /\ ~ (exists z : Z, 0 <= z <= 100 /\ healthPercent result = of_Z z).
Proof.
  repeat split. intros (z & _ & Hz). discriminate Hz.
Qed.

End OverflowedCounts.

(** The sample inputs are scored in the arithmetic of ECMAScript. *)
Section SampleScores.

#[local] Existing Instance binary64Arithmetic.

Lemma zero_resources_is_healthy_witness :
  (0 === 0)%js = true
  /\ calculateServiceHealth HostNumber.asciiStringToNumber "cloudtrail"
       cloudtrailWithoutResources = mkHealth 100 success
  /\ calculateServiceHealth HostNumber.asciiStringToNumber "lambda"
       failedWithoutResources = mkHealth 100 success.
Proof.
  split; [reflexivity |]. split.
  - apply (zero_resources_is_healthy HostNumber.asciiStringToNumber "cloudtrail"
             cloudtrailWithoutResources 0); reflexivity.
  - apply (zero_resources_is_healthy HostNumber.asciiStringToNumber "lambda"
             failedWithoutResources 0); reflexivity.
Defined.

Lemma ec2_state_machine_score_witness :
  ec2Facts (ec2Fleet "success") 8 5 0 3
  /\ calculateServiceHealth HostNumber.asciiStringToNumber "ec2" (ec2Fleet "success")
     = mkHealth 43 success.
Proof.
  assert (ec2Facts (ec2Fleet "success") 8 5 0 3) as Hfacts.
  { repeat split; try reflexivity; try discriminate.
    eexists. repeat split; reflexivity. }
  split; [exact Hfacts |].
  destruct (ec2_state_machine_score HostNumber.asciiStringToNumber
              (ec2Fleet "success") 8 5 0 3 Hfacts)
    as (Hhealth & Hpartial & Hsuccess).
  destruct (calculateServiceHealth _ _ _) as [h st]. cbn [healthPercent scanStatus] in *.
  assert (h = 43) as -> by (rewrite Hhealth; by vm_compute).
  assert (st = success) as ->; [| reflexivity].
  apply Hsuccess. intros Hst. apply Hpartial in Hst. destruct Hst; discriminate.
Defined.

(** C3 as stated fails in two ways.  With the declared status [partial] and
    no stopped instance the scan status is [partial]; and with more running
    instances than resources (ten of eight) the health is [100], not
    [round(10 / 8 * 100) = 125]. *)
Lemma ec2_state_machine_counterexample :
  ~ (forall (serviceData : JsValue) (total running stopped terminated : number),
       ec2Facts serviceData total running stopped terminated ->
       let result :=
         calculateServiceHealth HostNumber.asciiStringToNumber "ec2" serviceData in
       scanStatus result = partial <-> (stopped >? 0)%js = true)
  /\ ~ (forall (serviceData : JsValue) (total running stopped terminated : number),
         ec2Facts serviceData total running stopped terminated ->
         let result :=
           calculateServiceHealth HostNumber.asciiStringToNumber "ec2" serviceData in
         let ratio := JsNumber.round ((running / total) * 100)%js in
         healthPercent result
         = if (terminated >? 0)%js then JsNumber.max 0 (ratio - 20)%js else ratio).
Proof.
  split.
  - intros Hclaim.
    assert (ec2Facts (ec2Fleet "partial") 8 5 0 3) as Hfacts.
    { repeat split; try reflexivity; try discriminate.
      eexists. repeat split; reflexivity. }
    destruct (Hclaim (ec2Fleet "partial") 8 5 0 3 Hfacts) as [Hstopped _].
    specialize (Hstopped eq_refl). discriminate Hstopped.
  - intros Hclaim.
    assert (ec2Facts (ec2Counts 8 10 0 0) 8 10 0 0) as Hfacts.
    { repeat split; try reflexivity; try discriminate.
      eexists. repeat split; reflexivity. }
    specialize (Hclaim (ec2Counts 8 10 0 0) 8 10 0 0 Hfacts).
    vm_compute in Hclaim. discriminate Hclaim.
Qed.

Lemma failed_status_or_missing_facts_witness :
  calculateServiceHealth HostNumber.asciiStringToNumber "rds" JNull = mkHealth 0 failed
  /\ calculateServiceHealth HostNumber.asciiStringToNumber "rds" failedWithResources
     = mkHealth 0 failed
  /\ calculateServiceHealth HostNumber.asciiStringToNumber "ec2" ec2WithoutDistribution
     = mkHealth 100 success.
Proof.
  split; [| split].
  - apply (failed_status_or_missing_facts HostNumber.asciiStringToNumber "rds" JNull).
    left. reflexivity.
  - apply (proj1 (proj2 (failed_status_or_missing_facts
             HostNumber.asciiStringToNumber "rds" failedWithResources)) 4);
      reflexivity.
  - apply (proj2 (proj2 (failed_status_or_missing_facts
             HostNumber.asciiStringToNumber "ec2" ec2WithoutDistribution)) 3);
      try reflexivity. discriminate.
Defined.

(** C4 as stated fails twice: a declared status [failed] with no resources is
    scored [100] / [success], and an [ec2] summary without its state
    distribution is scored [100] / [success]. *)
Lemma missing_facts_counterexample :
  ~ (normalizeScanStatus
       (getProp (getProp failedWithoutResources "summary") "scan_status") = failed ->
     calculateServiceHealth HostNumber.asciiStringToNumber "ec2" failedWithoutResources
     = mkHealth 0 failed)
  /\ ~ (getProp (getProp ec2WithoutDistribution "summary") "state_distribution"
        = JUndefined ->
        calculateServiceHealth HostNumber.asciiStringToNumber "ec2"
          ec2WithoutDistribution = mkHealth 0 failed).
Proof.
  split; intros Hclaim; specialize (Hclaim eq_refl); discriminate Hclaim.
Qed.

Lemma cloudtrail_without_trails_fails_witness :
  calculateServiceHealth HostNumber.asciiStringToNumber "cloudtrail"
    cloudtrailWithoutTrails = mkHealth 0 failed.
Proof.
  apply (cloudtrail_without_trails_fails HostNumber.asciiStringToNumber
           cloudtrailWithoutTrails 2); reflexivity.
Defined.

(** C5 as stated fails: with [total_trails = 0] and [resource_count = 0] the
    score is [100] / [success]. *)
Lemma cloudtrail_without_resources_counterexample :
  ~ (getProp (getProp cloudtrailWithoutResources "summary") "total_trails" = JNum 0 ->
     calculateServiceHealth HostNumber.asciiStringToNumber "cloudtrail"
       cloudtrailWithoutResources = mkHealth 0 failed).
Proof.
  intros Hclaim. specialize (Hclaim eq_refl). discriminate Hclaim.
Qed.

Lemma filterResourcesByRegion_never_drops_all_witness :
  filterResourcesByRegion sampleResources (Some "eu-west-1") = sampleResources
  /\ length (filterResourcesByRegion sampleResources (Some "ap-south-1")) = 2%nat.
Proof.
  split.
  - apply (proj1 (filterResourcesByRegion_never_drops_all sampleResources "eu-west-1")).
    reflexivity.
  - rewrite (proj1 (proj2 (filterResourcesByRegion_never_drops_all
               sampleResources "ap-south-1"))); [reflexivity | discriminate ..].
Defined.

Lemma getNumericValue_total_witness :
  getNumericValue HostNumber.asciiStringToNumber (JStr "12.5") = Fin (25 # 2)
  /\ getNumericValue HostNumber.asciiStringToNumber (JStr "n/a") = 0
  /\ getNumericValue HostNumber.asciiStringToNumber (JNum NaN) = NaN
  /\ getNumericValue HostNumber.asciiStringToNumber (JBool true) = 0.
Proof.
  pose proof (getNumericValue_total HostNumber.asciiStringToNumber (JStr "12.5"))
    as (_ & _ & Hfinite & _).
  pose proof (getNumericValue_total HostNumber.asciiStringToNumber (JStr "n/a"))
    as (_ & _ & _ & Hinfinite & _).
  pose proof (getNumericValue_total HostNumber.asciiStringToNumber (JNum NaN))
    as (_ & Hnumber & _).
  pose proof (getNumericValue_total HostNumber.asciiStringToNumber (JBool true))
    as (_ & _ & _ & _ & Hother).
  split; [| split; [| split]].
  - exact (Hfinite "12.5" eq_refl eq_refl).
  - exact (Hinfinite "n/a" eq_refl eq_refl).
  - exact (Hnumber NaN eq_refl).
  - apply Hother; discriminate.
Defined.

Lemma normalizeScanStatus_total_witness :
  normalizeScanStatus (JStr "PARTIAL") = partial
  /\ normalizeScanStatus (JStr "done") = failed
  /\ normalizeScanStatus (JNum 1) = failed.
Proof.
  split; [| split].
  - assert (statusString (normalizeScanStatus (JStr "PARTIAL")) = "partial") as H.
    { apply (proj1 (proj2 (normalizeScanStatus_total (JStr "PARTIAL"))) "PARTIAL");
        [reflexivity |]. cbn. repeat constructor. }
    destruct (normalizeScanStatus (JStr "PARTIAL")); [discriminate H .. | reflexivity].
  - apply (proj1 (proj2 (proj2 (normalizeScanStatus_total (JStr "done")))) "done");
      [reflexivity |].
    cbn. intros Hin. apply list_elem_of_In in Hin. cbn in Hin.
    destruct Hin as [H | [H | [H | []]]]; discriminate H.
  - apply (proj1 (proj2 (proj2 (proj2 (normalizeScanStatus_total (JNum 1)))))).
    discriminate.
Defined.

Lemma getServiceCategories_ordered_and_pruned_witness :
  let categories :=
    getServiceCategories HostNumber.asciiStringToNumber sampleFetch sampleSnapshot
      "acme" "ap-south-1" in
  List.map ServiceCategory.key categories = ["compute"; "storage"; "networking"]
  /\ ("database" ∉ List.map ServiceCategory.key categories)
  /\ (forall c, c ∈ categories ->
        "eks" ∉ List.map AWSService.serviceName (ServiceCategory.services c)).
Proof.
  destruct (getServiceCategories_ordered_and_pruned HostNumber.asciiStringToNumber
              sampleFetch sampleSnapshot "acme" "ap-south-1")
    as (Hkeys & _ & _ & Hservice & Hcategory).
  split; [exact Hkeys |]. split.
  - apply Hcategory. intros s Hs. apply list_elem_of_In in Hs.
    destruct Hs as [<- | []]. reflexivity.
  - intros c Hc. apply Hservice; [exact Hc |].
    apply list_elem_of_In in Hc. destruct Hc as [<- | [<- | [<- | []]]]; reflexivity.
Defined.

(** The sample service: two analyzed functions, savings [5/4 + 3/4]. *)
Example sample_potential_monthly_savings :
  OptimizationSummary.potential_monthly_savings (summarizeOptimization sampleFunctions)
  = 2.
Proof. by vm_compute. Qed.

(** The total depends on the order of the resources: [10^16 + 1] rounds back
    to [10^16], twice, while [1 + 1 + 10^16] is [10^16 + 2]. *)
Example savings_depend_on_order :
  OptimizationSummary.potential_monthly_savings (summarizeOptimization unevenSavings)
  = 10 ^ 16
  /\ OptimizationSummary.potential_monthly_savings
       (summarizeOptimization (rev unevenSavings))
     = 10 ^ 16 + 2.
Proof. by vm_compute. Qed.

(** Twenty-three running of forty: the quotient is rounded to
    [0.57499999999999996] and the product to [57.49999999999999], so the
    score is [57]; without rounding it is [58]. *)
Example percentage_is_rounded_twice :
  calculateServiceHealth HostNumber.asciiStringToNumber "ec2" (ec2Counts 40 23 0 0)
  = mkHealth 57 success
  /\ calculateServiceHealth (arith := exactArithmetic)
       HostNumber.asciiStringToNumber "ec2" (ec2Counts 40 23 0 0)
     = mkHealth 58 success.
Proof. by vm_compute. Qed.

(** Eight running and two stopped out of ten: [80], [partial]. *)
Example sample_stopped_instances :
  calculateServiceHealth HostNumber.asciiStringToNumber "ec2"
    (summaryOf
       [ ("resource_count", JNum 10); ("scan_status", JStr "success");
         ("state_distribution",
          JObj [("running", JNum 8); ("stopped", JNum 2); ("terminated", JNum 0)]) ])
  = mkHealth 80 partial.
Proof. reflexivity. Qed.

End SampleScores.

(** * Further properties of the data service *)

(** ** The other scoring rules *)

Section ScoringRules.

Context {arith : Arithmetic}.

Variable StringToNumber : string -> number.

(** Past the head of the function the score is the clamped outcome of the
    selected heuristic, started from [100] and the declared status. *)
Lemma scored (serviceName : string) (serviceData : JsValue)
    (resourceCount : number) (declared : ScanStatus) :
  scoredSummary serviceData resourceCount declared ->
  calculateServiceHealth StringToNumber serviceName serviceData =
    let '(healthScore, status) :=
      heuristic StringToNumber serviceName (getProp serviceData "summary")
        resourceCount declared 100 declared in
    mkHealth (JsNumber.max 0 (JsNumber.min 100 healthScore)) status.
Proof.
  intros (Hsum & Hcount & Hnz & Hdecl & Hnf).
  rewrite with_summary by done. cbn zeta. rewrite Hcount, Hnz, Hdecl.
  rewrite bool_decide_eq_false_2 by done. cbn [orb].
  by destruct declared.
Qed.

Lemma kept_or_partial (fewer : bool) (declared : ScanStatus) :
  declared <> failed ->
  let status := if fewer then partial else declared in
  (status = partial <-> fewer = true \/ declared = partial)
  /\ (status <> partial -> status = success).
Proof.
  intros Hnf. destruct fewer; cbn zeta; [by intuition |].
  destruct declared; [| done |]; intuition congruence.
Qed.

(** X1.  The availability rule ([rds]) on a summary with a status
    distribution: the score is [Math.round((available / resource_count) * 100)]
    as the host computes it when the count is positive and [0] when it is
    negative, where a missing [available] counts as [0]; the health is the
    score clamped to [0..100]; the status is [partial] exactly when
    [available < resource_count] or the declared status is [partial], and
    [success] otherwise. *)
Theorem rds_availability_score
    (serviceData : JsValue) (resourceCount : number) (declared : ScanStatus)
    (record : list (string * number)) :
  scoredSummary serviceData resourceCount declared ->
  asNumberRecord (getProp (getProp serviceData "summary") "status_distribution")
    = Some record ->
  let available := fieldOrZero record "available" in
  let score : number :=
    if (resourceCount >? 0)%js
    then JsNumber.round ((available / resourceCount) * 100)%js else 0 in
  let result := calculateServiceHealth StringToNumber "rds" serviceData in
  healthPercent result = JsNumber.max 0 (JsNumber.min 100 score)
  /\ (scanStatus result = partial <->
        (available <? resourceCount)%js = true \/ declared = partial)
  /\ (scanStatus result <> partial -> scanStatus result = success).
Proof.
  intros Hscored Hrecord available score result. subst result.
  pose proof Hscored as (_ & _ & _ & _ & Hnf).
  rewrite (scored _ _ _ _ Hscored). unfold heuristic.
  cbn [String.eqb Ascii.eqb Bool.eqb orb]. rewrite Hrecord.
  cbn [healthPercent scanStatus]. split; [reflexivity |].
  exact (kept_or_partial _ _ Hnf).
Qed.

(** X2.  The encryption rule ([s3]) on a summary with an [encryption_status]
    record: the score is [Math.round((encrypted / resource_count) * 100)] as
    the host computes it when the count is positive and [0] when it is
    negative, for the coerced [encrypted] count; the health is the score
    clamped to [0..100]; the status is [partial] exactly when
    [encrypted < resource_count] or the declared status is [partial], and
    [success] otherwise. *)
Theorem s3_encryption_score
    (serviceData : JsValue) (resourceCount : number) (declared : ScanStatus)
    (encryption : list (string * JsValue)) :
  scoredSummary serviceData resourceCount declared ->
  getProp (getProp serviceData "summary") "encryption_status" = JObj encryption ->
  let encrypted :=
    getNumericValue StringToNumber (getProp (JObj encryption) "encrypted") in
  let score : number :=
    if (resourceCount >? 0)%js
    then JsNumber.round ((encrypted / resourceCount) * 100)%js else 0 in
  let result := calculateServiceHealth StringToNumber "s3" serviceData in
  healthPercent result = JsNumber.max 0 (JsNumber.min 100 score)
  /\ (scanStatus result = partial <->
        (encrypted <? resourceCount)%js = true \/ declared = partial)
  /\ (scanStatus result <> partial -> scanStatus result = success).
Proof.
  intros Hscored Hrecord encrypted score result. subst result.
  pose proof Hscored as (_ & _ & _ & _ & Hnf).
  rewrite (scored _ _ _ _ Hscored). unfold heuristic.
  cbn [String.eqb Ascii.eqb Bool.eqb orb]. rewrite Hrecord. cbn [isRecord].
  cbn [healthPercent scanStatus]. split; [reflexivity |].
  exact (kept_or_partial _ _ Hnf).
Qed.

(** X3.  The logging rule ([cloudtrail]) with trails: when the coerced
    [total_trails] is not [0], the score is
    [Math.round((logging_enabled / total_trails) * 100)] as the host computes
    it, whatever the (non-zero) [resource_count]; the health is the score
    clamped to [0..100]; the status is [partial] exactly when
    [logging_enabled < total_trails] or the declared status is [partial], and
    [success] otherwise. *)
Theorem cloudtrail_logging_score
    (serviceData : JsValue) (resourceCount : number) (declared : ScanStatus) :
  scoredSummary serviceData resourceCount declared ->
  let summary := getProp serviceData "summary" in
  let enabled := getNumericValue StringToNumber (getProp summary "logging_enabled") in
  let trails := getNumericValue StringToNumber (getProp summary "total_trails") in
  (trails === 0)%js = false ->
  let score := JsNumber.round ((enabled / trails) * 100)%js in
  let result := calculateServiceHealth StringToNumber "cloudtrail" serviceData in
  healthPercent result = JsNumber.max 0 (JsNumber.min 100 score)
  /\ (scanStatus result = partial <->
        (enabled <? trails)%js = true \/ declared = partial)
  /\ (scanStatus result <> partial -> scanStatus result = success).
Proof.
  intros Hscored summary enabled trails Htrails score result. subst result.
  pose proof Hscored as (_ & _ & _ & _ & Hnf).
  rewrite (scored _ _ _ _ Hscored). unfold heuristic.
  cbn [String.eqb Ascii.eqb Bool.eqb orb]. fold summary. fold enabled trails.
  rewrite Htrails. cbn [healthPercent scanStatus]. split; [reflexivity |].
  exact (kept_or_partial _ _ Hnf).
Qed.

(** X4.  The default-network rule ([vpc]): a true [is_default] flag gives
    [70] / [partial], a false one [100] with the declared status, and a
    summary whose flag is not a boolean is left at [100] with the declared
    status. *)
Theorem vpc_default_flag_score
    (serviceData : JsValue) (resourceCount : number) (declared : ScanStatus) :
  scoredSummary serviceData resourceCount declared ->
  calculateServiceHealth StringToNumber "vpc" serviceData =
    match getProp (getProp serviceData "summary") "is_default" with
    | JBool true => mkHealth 70 partial
    | _ => mkHealth 100 declared
    end.
Proof.
  intros Hscored. rewrite (scored _ _ _ _ Hscored). unfold heuristic.
  cbn [String.eqb Ascii.eqb Bool.eqb orb].
  destruct (getProp _ "is_default") as [| | [|] | | | |]; reflexivity.
Qed.

(** X5.  The default rule: a service without a heuristic of its own, with a
    non-zero [resource_count], is scored [95] / [success] when it declares
    [success] and the count is positive, [100] / [success] when it declares
    [success] and the count is negative or [NaN], and [75] / [partial] when it
    declares [partial]. *)
Theorem default_rule_score
    (serviceName : string) (serviceData : JsValue) (resourceCount : number)
    (declared : ScanStatus) :
  hasOwnHeuristic serviceName = false ->
  scoredSummary serviceData resourceCount declared ->
  calculateServiceHealth StringToNumber serviceName serviceData =
    match declared with
    | success => mkHealth (if (resourceCount >? 0)%js then 95 else 100) success
    | _ => mkHealth 75 partial
    end.
Proof.
  unfold hasOwnHeuristic. intros Hname Hscored.
  repeat (apply orb_false_iff in Hname as [Hname ?]).
  rewrite (scored _ _ _ _ Hscored). unfold heuristic.
  repeat match goal with H : String.eqb _ _ = false |- _ => rewrite H; clear H end.
  destruct declared; [| reflexivity ..].
  by destruct (resourceCount >? 0)%js.
Qed.

Lemma heuristic_failed (serviceName : string) (summary : JsValue)
    (resourceCount : number) (normalizedStatus : ScanStatus)
    (healthScore : number) (status : ScanStatus) :
  status <> failed ->
  (heuristic StringToNumber serviceName summary resourceCount normalizedStatus
     healthScore status).2 = failed <->
  serviceName = "cloudtrail"
  /\ (getNumericValue StringToNumber (getProp summary "total_trails") === 0)%js = true.
Proof.
  intros Hstatus. unfold heuristic.
  destruct (String.eqb_spec serviceName "ec2") as [-> | Hec2].
  { split; [| by intros [[=] _]].
    repeat case_match; cbn [snd]; done. }
  destruct (String.eqb_spec serviceName "rds") as [-> | Hrds].
  { split; [| by intros [[=] _]].
    repeat case_match; cbn [snd]; done. }
  destruct (String.eqb_spec serviceName "cloudtrail") as [-> | Htrail].
  { destruct (_ === _)%js; [by split |].
    split; [| by intros [_ [=]]].
    repeat case_match; cbn [snd]; done. }
  split; [| by intros [? _]].
  repeat case_match; cbn [snd]; done.
Qed.

Lemma failed_characterized (serviceName : string) (serviceData : JsValue) :
  let summary := getProp serviceData "summary" in
  let resourceCount : number :=
    match getProp summary "resource_count" with JNum n => n | _ => 0 end in
  let declared := normalizeScanStatus (getProp summary "scan_status") in
  let result := calculateServiceHealth StringToNumber serviceName serviceData in
  (scanStatus result = failed <->
     truthy summary = false
     \/ ((resourceCount === 0)%js = false
         /\ (declared = failed
             \/ (serviceName = "cloudtrail"
                 /\ (getNumericValue StringToNumber (getProp summary "total_trails")
                       === 0)%js = true))))
  /\ (scanStatus result = failed -> healthPercent result = 0).
Proof.
  intros summary resourceCount declared result. subst result.
  destruct (truthy summary) eqn:Hsum; subst summary.
  2: { rewrite missing_summary by done. by intuition. }
  rewrite with_summary by done. cbn zeta. fold resourceCount declared.
  destruct (resourceCount === 0)%js eqn:Hnz.
  { rewrite orb_true_r. cbn. split; [| done]. split; [done |].
    intros [? | [? _]]; done. }
  destruct (bool_decide_reflect (declared = failed)) as [Hfailed | Hnf]; cbn [orb].
  { cbn. by intuition. }
  pose proof (heuristic_failed serviceName (getProp serviceData "summary")
                resourceCount declared 100
                (if bool_decide (declared = partial) then partial else success))
    as Hheur.
  assert ((if bool_decide (declared = partial) then partial else success) <> failed)
    as Hinit by (by destruct (bool_decide _)).
  specialize (Hheur Hinit).
  destruct (heuristic _ _ _ _ _ _ _) as [score st] eqn:Hrun.
  cbn [snd healthPercent scanStatus] in *. split.
  - rewrite Hheur. split; [by intuition |].
    intros [? | [_ [? | ?]]]; done.
  - intros Hst. apply Hheur in Hst as [-> Hzero].
    unfold heuristic in Hrun. cbn [String.eqb Ascii.eqb Bool.eqb orb] in Hrun.
    rewrite Hzero in Hrun. by injection Hrun as <- _.
Qed.

(** X6.  The status is [failed] in exactly three cases: the summary is
    missing; the declared status is [failed] while the [resource_count] is a
    number other than [0]; or, for [cloudtrail] with such a count, the coerced
    [total_trails] is [0].  A [failed] score always has health [0]. *)
Theorem failed_exactly_when (serviceName : string) (serviceData : JsValue) :
  let summary := getProp serviceData "summary" in
  let resourceCount : number :=
    match getProp summary "resource_count" with JNum n => n | _ => 0 end in
  let declared := normalizeScanStatus (getProp summary "scan_status") in
  let result := calculateServiceHealth StringToNumber serviceName serviceData in
  (scanStatus result = failed <->
     truthy summary = false
     \/ ((resourceCount === 0)%js = false
         /\ (declared = failed
             \/ (serviceName = "cloudtrail"
                 /\ (getNumericValue StringToNumber (getProp summary "total_trails")
                       === 0)%js = true))))
  /\ (scanStatus result = failed -> healthPercent result = 0).
Proof. exact (failed_characterized serviceName serviceData). Qed.

(** X7.  A scan declared [partial] is never reported as [success] while there
    are resources: with a non-zero [resource_count] the status stays
    [partial] or becomes [failed]. *)
Theorem partial_is_never_upgraded
    (serviceName : string) (serviceData : JsValue) (resourceCount : number) :
  scoredSummary serviceData resourceCount partial ->
  scanStatus (calculateServiceHealth StringToNumber serviceName serviceData)
    <> success.
Proof.
  intros Hscored. rewrite (scored _ _ _ _ Hscored). unfold heuristic.
  repeat case_match; cbn [scanStatus]; simplify_eq; done.
Qed.

End ScoringRules.

(** ** The ratio rules in the arithmetic of ECMAScript *)

Section RatioRules.

#[local] Existing Instance binary64Arithmetic.

Variable StringToNumber : string -> number.

Lemma positive_of_Z (total : Z) : 0 < total -> (of_Z total >? 0)%js = true.
Proof.
  intros Htotal. unfold JsNumber.gtb. change (0 : number) with (of_Z 0).
  rewrite ltb_of_Z. by apply Z.ltb_lt.
Qed.

(** X26.  In the arithmetic of ECMAScript the four ratio rules give a part
    of a total, both integers with [0 <= part <= total], [0 < total < 2^53]
    and [part < 2^44], one and the same health: an integer of [0..100] within
    one half of the exact percentage [100 * part / total], that is a nearest
    integer, where a tie can go either way.  The rules are those of [ec2]
    (running of the resource count, nothing terminated), [rds] (available of
    the resource count), [cloudtrail] (logging of the trails) and [s3]
    (encrypted of the resource count). *)
Theorem ratio_health_is_nearest_percentage (part total : Z) :
  0 <= part <= total -> 0 < total < 2 ^ 53 -> part < 2 ^ 44 ->
  exists z : Z,
    0 <= z <= 100
    /\ 200 * part - total <= 2 * total * z <= 200 * part + total
    /\ (forall (serviceData : JsValue) (stopped terminated : number),
          ec2Facts serviceData total part stopped terminated ->
          (terminated >? 0)%js = false ->
          healthPercent (calculateServiceHealth StringToNumber "ec2" serviceData)
          = of_Z z)
    /\ (forall (serviceData : JsValue) (declared : ScanStatus)
               (record : list (string * number)),
          scoredSummary serviceData total declared ->
          asNumberRecord
            (getProp (getProp serviceData "summary") "status_distribution")
            = Some record ->
          fieldOrZero record "available" = of_Z part ->
          healthPercent (calculateServiceHealth StringToNumber "rds" serviceData)
          = of_Z z)
    /\ (forall (serviceData : JsValue) (resourceCount : number)
               (declared : ScanStatus),
          scoredSummary serviceData resourceCount declared ->
          getNumericValue StringToNumber
            (getProp (getProp serviceData "summary") "total_trails") = of_Z total ->
          getNumericValue StringToNumber
            (getProp (getProp serviceData "summary") "logging_enabled") = of_Z part ->
          healthPercent
            (calculateServiceHealth StringToNumber "cloudtrail" serviceData)
          = of_Z z)
    /\ (forall (serviceData : JsValue) (declared : ScanStatus)
               (encryption : list (string * JsValue)),
          scoredSummary serviceData total declared ->
          getProp (getProp serviceData "summary") "encryption_status"
            = JObj encryption ->
          getNumericValue StringToNumber (getProp (JObj encryption) "encrypted")
            = of_Z part ->
          healthPercent (calculateServiceHealth StringToNumber "s3" serviceData)
          = of_Z z).
Proof.
  intros Hpart Htotal Hbound.
  destruct (rounded_percentage part total Hpart Htotal Hbound) as (z & Hround & Hz & Hnear).
  pose proof (positive_of_Z total ltac:(lia)) as Hpos.
  exists z. split; [exact Hz |]. split; [exact Hnear |]. repeat split.
  - intros serviceData stopped terminated
      (Hsum & Hcount & _ & Hdecl & dist & Hdist & Hrun & Hstop & Hterm) Hnone.
    rewrite (scored StringToNumber "ec2" serviceData total
               (normalizeScanStatus
                  (getProp (getProp serviceData "summary") "scan_status")))
      by (repeat split; try done; by apply positive_nonzero).
    unfold heuristic. cbn [String.eqb Ascii.eqb Bool.eqb orb]. rewrite Hdist.
    destruct (getProp_number _ _ _ Hrun) as [-> ->].
    destruct (getProp_number _ _ _ Hterm) as [_ ->].
    rewrite Hpos, Hnone, Hround. cbn [healthPercent]. by apply clamp_of_Z.
  - intros serviceData declared record Hscored Hrecord Havailable.
    rewrite (scored _ _ _ _ _ Hscored). unfold heuristic.
    cbn [String.eqb Ascii.eqb Bool.eqb orb]. rewrite Hrecord, Havailable, Hpos, Hround.
    cbn [healthPercent]. by apply clamp_of_Z.
  - intros serviceData resourceCount declared Hscored Htrails Henabled.
    rewrite (scored _ _ _ _ _ Hscored). unfold heuristic.
    cbn [String.eqb Ascii.eqb Bool.eqb orb]. rewrite Htrails, Henabled.
    rewrite (positive_nonzero _ Hpos), Hround. cbn [healthPercent]. by apply clamp_of_Z.
  - intros serviceData declared encryption Hscored Hrecord Hencrypted.
    rewrite (scored _ _ _ _ _ Hscored). unfold heuristic.
    cbn [String.eqb Ascii.eqb Bool.eqb orb]. rewrite Hrecord. cbn [isRecord].
    rewrite Hencrypted, Hpos, Hround. cbn [healthPercent]. by apply clamp_of_Z.
Qed.

End RatioRules.

(** ** Resource extraction *)

Section ExtractionFacts.

Lemma insertByIndex_elem {A} (i : Z) (entry : A) (sorted : list (Z * A)) (x : Z * A) :
  x ∈ insertByIndex i entry sorted <-> x = (i, entry) \/ x ∈ sorted.
Proof.
  induction sorted as [| [j e] rest IH]; cbn [insertByIndex].
  - rewrite list_elem_of_singleton, elem_of_nil. tauto.
  - destruct (i <? j); rewrite !elem_of_cons; [tauto |]. rewrite IH. tauto.
Qed.

Lemma indexEntries_elem {A} (props : list (string * A)) (x : Z * (string * A)) :
  x ∈ indexEntries props -> x.2 ∈ props.
Proof.
  induction props as [| [k v] rest IH]; cbn [indexEntries]; [by intros ?%elem_of_nil |].
  destruct (arrayIndex k).
  - intros [-> | Hin]%insertByIndex_elem; [left | right; by apply IH].
  - intros Hin. right. by apply IH.
Qed.

(** [Object.entries] yields own properties only. *)
Lemma objectEntries_elem {A} (props : list (string * A)) (entry : string * A) :
  entry ∈ objectEntries props -> entry ∈ props.
Proof.
  unfold objectEntries. intros [Hin | Hin]%elem_of_app.
  - apply list_elem_of_fmap in Hin as (x & -> & Hx). by apply indexEntries_elem.
  - apply list_elem_of_In, List.filter_In in Hin as [Hin _]. by apply list_elem_of_In.
Qed.

Lemma lookupProp_elem {A} (props : list (string * A)) (key : string) (v : A) :
  lookupProp props key = Some v -> (key, v) ∈ props.
Proof.
  induction props as [| [k w] rest IH]; [discriminate |]. cbn [lookupProp].
  destruct (String.eqb_spec k key) as [-> | _].
  - intros [= ->]. left.
  - intros H. right. by apply IH.
Qed.

Lemma getProp_elem (props : list (string * JsValue)) (key : string) (items : list JsValue) :
  getProp (JObj props) key = JArr items -> (key, JArr items) ∈ props.
Proof.
  cbn [getProp]. destruct (lookupProp props key) eqn:Hl; [| discriminate].
  cbn. intros ->. by apply lookupProp_elem.
Qed.

Lemma firstPreferredArray_elem (props : list (string * JsValue)) (keys : list string)
    (items : list JsValue) :
  firstPreferredArray (JObj props) keys = Some items ->
  exists key, key ∈ keys /\ (key, JArr items) ∈ props.
Proof.
  induction keys as [| key rest IH]; [discriminate |]. cbn [firstPreferredArray].
  destruct (getProp (JObj props) key) eqn:Hget;
    try (intros (k & Hk & Hin)%IH; exists k; split; [by right | done]).
  intros [= ->]. exists key. split; [left | by apply getProp_elem].
Qed.

Lemma firstOtherArray_elem (entries : list (string * JsValue)) (items : list JsValue) :
  firstOtherArray entries = Some items ->
  exists key, (key ∉ ["tags"; "metadata"; "summary"]) /\ (key, JArr items) ∈ entries.
Proof.
  induction entries as [| [key value] rest IH]; [discriminate |].
  cbn [firstOtherArray].
  destruct (String.eqb_spec key "tags") as [| Htags]; cbn [orb].
  { intros (k & Hk & Hin)%IH. exists k. split; [done | by right]. }
  destruct (String.eqb_spec key "metadata") as [| Hmeta]; cbn [orb].
  { intros (k & Hk & Hin)%IH. exists k. split; [done | by right]. }
  destruct (String.eqb_spec key "summary") as [| Hsum].
  { intros (k & Hk & Hin)%IH. exists k. split; [done | by right]. }
  destruct value;
    try (intros (k & Hk & Hin)%IH; exists k; split; [done | by right]).
  intros [= ->]. exists key. split; [| left].
  intros Hin. apply list_elem_of_In in Hin. cbn in Hin. intuition congruence.
Qed.

(** The array settled on is the value of an own property other than [tags],
    [metadata] and [summary]. *)
Lemma selectedArray_elem (serviceData : JsValue) (items : list JsValue) :
  selectedArray serviceData = Some items ->
  exists props key,
    serviceData = JObj props
    /\ (key ∉ ["tags"; "metadata"; "summary"])
    /\ (key, JArr items) ∈ props.
Proof.
  destruct serviceData; try discriminate. unfold selectedArray.
  destruct (getProp (JObj props) "resources") eqn:Hres.
  6: { intros [= ->]. exists props, "resources". split; [done |]. split.
       - intros Hin. apply list_elem_of_In in Hin. cbn in Hin. intuition congruence.
       - by apply getProp_elem. }
  all: destruct (firstPreferredArray (JObj props) preferredArrayKeys) eqn:Hpref.
  all: try (intros [= ->]; apply firstPreferredArray_elem in Hpref as (key & Hkey & Hin);
            exists props, key; split; [done |]; split; [| done];
            intros Hex; apply list_elem_of_In in Hex; apply list_elem_of_In in Hkey;
            cbn in Hex, Hkey; intuition congruence).
  all: intros (key & Hkey & Hin)%firstOtherArray_elem;
       exists props, key; split; [done |]; split; [done |];
       by apply objectEntries_elem.
Qed.

Lemma filterThrowing_sublist {A} (f : A -> option bool) (items kept : list A) :
  filterThrowing f items = Some kept -> sublist kept items.
Proof.
  revert kept. induction items as [| x rest IH]; intros kept; cbn [filterThrowing].
  - intros [= <-]. constructor.
  - destruct (f x) as [keep |]; [| discriminate].
    destruct (filterThrowing f rest) as [kept' |]; [| discriminate].
    intros [= <-]. destruct keep; constructor; by apply IH.
Qed.

Lemma filterThrowing_None {A} (f : A -> option bool) (items : list A) :
  filterThrowing f items = None <-> exists x, x ∈ items /\ f x = None.
Proof.
  induction items as [| x rest IH]; cbn [filterThrowing].
  - split; [discriminate | by intros (x & ?%elem_of_nil & _)].
  - destruct (f x) as [keep |] eqn:Hx.
    + destruct (filterThrowing f rest) as [kept |].
      * split; [discriminate |]. intros (y & [-> | Hy]%elem_of_cons & Hf); [congruence |].
        discriminate (proj2 IH (ex_intro _ y (conj Hy Hf))).
      * split; [| done]. intros _. destruct (proj1 IH eq_refl) as (y & Hy & Hf).
        exists y. split; [by right | done].
    + split; [| done]. intros _. exists x. split; [left | done].
Qed.

Lemma filterRaw_sublist (items out : list JsValue) (regionCode : option string) :
  filterRawResourcesByRegion items regionCode = Some out -> sublist out items.
Proof.
  unfold filterRawResourcesByRegion. destruct regionCode as [code |]; [| by intros [= <-]].
  destruct (_ || _); [by intros [= <-] |].
  destruct (filterThrowing _ items) as [filtered |] eqn:Hf; [| discriminate].
  intros [= <-]. destruct (0 <? length filtered)%nat; [| done].
  by apply filterThrowing_sublist in Hf.
Qed.

Lemma filterRaw_nonempty (items out : list JsValue) (regionCode : option string) :
  filterRawResourcesByRegion items regionCode = Some out -> out = [] -> items = [].
Proof.
  unfold filterRawResourcesByRegion. destruct regionCode as [code |]; [| by intros [= <-]].
  destruct (_ || _); [by intros [= <-] |].
  destruct (filterThrowing _ items) as [filtered |]; [| discriminate].
  intros [= <-]. by destruct filtered.
Qed.

(** X8.  Whatever [extractResourceArray] returns comes from one array of the
    payload: a non-empty result is a sub-list, in order, of the array held by
    an own property of the payload, and that property is never [tags],
    [metadata] or [summary]. *)
Theorem extractResourceArray_source
    (serviceData : JsValue) (regionCode : option string) (out : list JsValue) :
  extractResourceArray serviceData regionCode = Some out ->
  out <> [] ->
  exists props key items,
    serviceData = JObj props
    /\ (key ∉ ["tags"; "metadata"; "summary"])
    /\ (key, JArr items) ∈ props
    /\ sublist out items.
Proof.
  unfold extractResourceArray.
  destruct (selectedArray serviceData) as [items |] eqn:Hsel; [| by intros [= <-]].
  intros Hout _. apply selectedArray_elem in Hsel as (props & key & -> & Hkey & Hin).
  exists props, key, items. repeat split; try done. by eapply filterRaw_sublist.
Qed.

(** X9.  The region filter never empties the extraction: when
    [extractResourceArray] returns the empty list, the payload has no resource
    array to settle on or that array is itself empty; and without a region
    code (or with the empty one) the array settled on is returned whole. *)
Theorem extractResourceArray_empty_only_without_data
    (serviceData : JsValue) (regionCode : option string) :
  (extractResourceArray serviceData regionCode = Some [] ->
     selectedArray serviceData = None \/ selectedArray serviceData = Some [])
  /\ (regionCode = None \/ regionCode = Some "" ->
      extractResourceArray serviceData regionCode
      = Some (default [] (selectedArray serviceData))).
Proof.
  unfold extractResourceArray. split.
  - destruct (selectedArray serviceData) as [items |]; [| by left].
    intros Hout. right. f_equal. by eapply filterRaw_nonempty.
  - destruct (selectedArray serviceData) as [items |]; [| done].
    by intros [-> | ->].
Qed.

(** X10.  [extractResourceArray] throws in one situation only: a non-empty
    region code is given and the array settled on holds a [null] (or
    [undefined]) element. *)
Theorem extractResourceArray_throws_exactly_when
    (serviceData : JsValue) (regionCode : option string) :
  extractResourceArray serviceData regionCode = None <->
  exists code items,
    regionCode = Some code /\ code <> ""
    /\ selectedArray serviceData = Some items
    /\ (JNull ∈ items \/ JUndefined ∈ items).
Proof.
  unfold extractResourceArray, filterRawResourcesByRegion.
  destruct (selectedArray serviceData) as [items |].
  2: { split; [discriminate | by intros (? & ? & _ & _ & [=] & _)]. }
  destruct regionCode as [code |].
  2: { split; [discriminate | by intros (? & ? & [=] & _)]. }
  destruct (String.eqb_spec code "") as [-> | Hcode]; cbn [orb].
  { split; [discriminate | by intros (? & ? & [= <-] & ? & _)]. }
  destruct items as [| item rest] eqn:Hitems; cbn [length Nat.eqb].
  { split; [discriminate |].
    intros (? & ? & _ & _ & [= <-] & [?%elem_of_nil | ?%elem_of_nil]); done. }
  rewrite <- Hitems.
  destruct (filterThrowing _ items) as [filtered |] eqn:Hf.
  - split; [discriminate |]. intros (c & l & [= <-] & _ & [= <-] & Hnull).
    assert (filterThrowing
              (fun resource => option_map (fun region => isRegion region code)
                                          (regionOf resource)) items = None) as Hnone.
    { apply filterThrowing_None. destruct Hnull as [H | H]; eexists; (split; [exact H | done]). }
    congruence.
  - split; [| done]. intros _. apply filterThrowing_None in Hf as (x & Hx & Hnone).
    exists code, items. repeat split; try done.
    destruct x; try discriminate; [by right | by left].
Qed.

End ExtractionFacts.

(** ** Resource count and payload normalization *)

Section NormalizationFacts.

Context {arith : Arithmetic}.

Variable StringToNumber : string -> number.
Variable now : string.

Lemma gtb_geb (n : number) : (n >? 0)%js = true -> (n >=? 0)%js = true.
Proof.
  destruct n as [q | | |]; try done. cbn. rewrite negb_true_iff. intros Hle.
  apply Qle_bool_iff. apply Qlt_le_weak, Qnot_le_lt. intros H.
  apply Qle_bool_iff in H. congruence.
Qed.

Lemma geb_gtb (n : number) :
  (n >=? 0)%js = true -> (n === 0)%js = false -> (n >? 0)%js = true.
Proof.
  destruct n as [q | | |]; try done. cbn. intros Hge Hne.
  rewrite negb_true_iff. destruct (Qle_bool q (inject_Z 0)) eqn:Hle; [| done].
  apply Qle_bool_iff in Hge, Hle.
  assert (q == inject_Z 0)%Q as Heq by (by apply Qle_antisym).
  apply Qeq_bool_iff in Heq. congruence.
Qed.

Lemma lengthOf_nonnegative {A} (items : list A) : (lengthOf items >=? 0)%js = true.
Proof.
  unfold lengthOf. cbn [JsNumber.geb of_Z]. rewrite Qle_bool_inject_Z.
  apply Z.leb_le. lia.
Qed.

Lemma extractResourceCount_nonneg_aux
    (serviceData : JsValue) (regionCode : option string) :
  (forall n, extractResourceCount StringToNumber serviceData regionCode = Some n ->
     (n >=? 0)%js = true)
  /\ (extractResourceCount StringToNumber serviceData regionCode = None ->
      extractResourceArray serviceData regionCode = None).
Proof.
  unfold extractResourceCount. split.
  - intros n. destruct (isRecord serviceData); cbn [negb]; [| by intros [= <-]].
    destruct (_ >? 0)%js eqn:Hpos; [intros [= <-]; by apply gtb_geb |].
    destruct (extractResourceArray serviceData regionCode); [| discriminate].
    intros [= <-]. apply lengthOf_nonnegative.
  - destruct (isRecord serviceData); cbn [negb]; [| discriminate].
    destruct (_ >? 0)%js; [discriminate |].
    by destruct (extractResourceArray serviceData regionCode).
Qed.

(** X11.  A resource count is never negative and never [NaN]: what
    [extractResourceCount] returns is [>= 0].  It returns [0] for a payload
    that is not a record, and it throws only where [extractResourceArray]
    does. *)
Theorem extractResourceCount_nonnegative
    (serviceData : JsValue) (regionCode : option string) :
  (forall n, extractResourceCount StringToNumber serviceData regionCode = Some n ->
     (n >=? 0)%js = true)
  /\ (isRecord serviceData = false ->
      extractResourceCount StringToNumber serviceData regionCode = Some (0 : number))
  /\ (extractResourceCount StringToNumber serviceData regionCode = None ->
      extractResourceArray serviceData regionCode = None).
Proof.
  destruct (extractResourceCount_nonneg_aux serviceData regionCode) as [Hge Hthrow].
  split; [exact Hge |]. split; [| exact Hthrow].
  unfold extractResourceCount. by intros ->.
Qed.

Lemma normalized_shape (rawData normalized : JsValue)
    (accountName regionCode serviceName : string) :
  normalizeServiceData StringToNumber now rawData accountName regionCode serviceName
    = Some normalized ->
  isNormalized normalized = true.
Proof.
  unfold normalizeServiceData. fold (isNormalized rawData).
  destruct (isNormalized rawData) eqn:Hraw; [by intros [= <-] |].
  destruct (extractResourceArray _ _); [| discriminate].
  destruct (extractResourceCount _ _ _); [| discriminate].
  by intros [= <-].
Qed.

(** X12.  [normalizeServiceData] is idempotent: what it returns is a record
    with an array of resources and a record summary, and normalizing that
    again, for any account, region and service, returns it unchanged. *)
Theorem normalizeServiceData_idempotent
    (rawData normalized : JsValue) (accountName regionCode serviceName : string) :
  normalizeServiceData StringToNumber now rawData accountName regionCode serviceName
    = Some normalized ->
  isNormalized normalized = true
  /\ forall accountName' regionCode' serviceName',
      normalizeServiceData StringToNumber now normalized
        accountName' regionCode' serviceName' = Some normalized.
Proof.
  intros Hshape%normalized_shape. split; [done |]. intros a r sv.
  unfold normalizeServiceData. fold (isNormalized normalized). by rewrite Hshape.
Qed.

(** X13.  A payload that has to be inferred gets the summary
    [{resource_count, scan_status: 'success'}] with a count [>= 0], and its
    score depends on the count and the service name only: [100] / [success]
    with no resources; otherwise [0] / [failed] for [cloudtrail] (the inferred
    summary has no [total_trails]), [100] / [success] for the other services
    with a heuristic of their own, and [95] / [success] for the rest. *)
Theorem inferred_payload_score
    (rawData normalized : JsValue) (accountName regionCode serviceName : string)
    (scoredName : string) :
  isNormalized rawData = false ->
  normalizeServiceData StringToNumber now rawData accountName regionCode serviceName
    = Some normalized ->
  exists count : number,
    getProp normalized "summary"
      = JObj [("resource_count", JNum count); ("scan_status", JStr "success")]
    /\ (count >=? 0)%js = true
    /\ calculateServiceHealth StringToNumber scoredName normalized =
       if (count === 0)%js then mkHealth 100 success
       else if String.eqb scoredName "cloudtrail" then mkHealth 0 failed
       else if hasOwnHeuristic scoredName then mkHealth 100 success
       else mkHealth 95 success.
Proof.
  intros Hraw. unfold normalizeServiceData. fold (isNormalized rawData). rewrite Hraw.
  destruct (extractResourceArray _ _) as [resources |]; [| discriminate].
  destruct (extractResourceCount _ _ _) as [count |] eqn:Hcount; [| discriminate].
  intros [= <-]. exists count. split; [reflexivity |].
  pose proof (proj1 (extractResourceCount_nonneg_aux _ _) _ Hcount) as Hge.
  split; [exact Hge |].
  destruct (count === 0)%js eqn:Hzero.
  { rewrite with_summary by reflexivity. cbn zeta.
    cbn [getProp lookupProp String.eqb Ascii.eqb Bool.eqb default from_option id].
    rewrite Hzero. by rewrite orb_true_r. }
  pose proof (geb_gtb _ Hge Hzero) as Hpos.
  rewrite (scored StringToNumber scoredName _ count success).
  2: { repeat split; try done. }
  unfold heuristic, hasOwnHeuristic.
  cbn [getProp lookupProp String.eqb Ascii.eqb Bool.eqb default from_option id
       asNumberRecord isRecord getNumericValue JsNumber.eqb of_Z].
  destruct (String.eqb_spec scoredName "ec2") as [-> | _]; [reflexivity |].
  destruct (String.eqb_spec scoredName "rds") as [-> | _]; [reflexivity |].
  destruct (String.eqb_spec scoredName "cloudtrail") as [-> | _]; [reflexivity |].
  destruct (String.eqb_spec scoredName "vpc") as [-> | _]; [reflexivity |].
  destruct (String.eqb_spec scoredName "s3") as [-> | _]; [reflexivity |].
  cbn [orb]. by rewrite Hpos.
Qed.

End NormalizationFacts.

(** ** Consistency of the rollup *)

Section RollupConsistency.

(** The counts are added without rounding. *)
#[local] Existing Instance exactArithmetic.

Variable StringToNumber : string -> number.
Variable fetchServiceData : string -> string -> string -> string -> JsValue.
Variable data : DiscoverySnapshot.
Variables accountName regionCode : string.







End RollupConsistency.

(** ** The service model *)

Section ServiceModelFacts.

(** The active count is computed without rounding. *)
#[local] Existing Instance exactArithmetic.

Variable StringToNumber : string -> number.
Variable fetchServiceData : string -> string -> string -> string -> JsValue.



End ServiceModelFacts.

Section ServiceStatusFacts.

Context {arith : Arithmetic}.

Variable StringToNumber : string -> number.
Variable fetchServiceData : string -> string -> string -> string -> JsValue.

(** X16.  A service whose request failed (no payload) is reported [failed],
    and a service reported [failed] always has health [0] and the status
    [critical]. *)
Theorem failed_service_is_critical
    (serviceName category accountName regionCode : string) (resourceCount : number) :
  let service :=
    createServiceModelWithData StringToNumber fetchServiceData
      serviceName category accountName regionCode resourceCount in
  (fetchServiceData accountName regionCode category serviceName = JNull ->
     AWSService.scanStatus service = failed)
  /\ (AWSService.scanStatus service = failed ->
      AWSService.healthPercent service = 0 /\ AWSService.status service = critical).
Proof.
  cbn zeta. unfold createServiceModelWithData.
  cbn [AWSService.scanStatus AWSService.healthPercent AWSService.status]. split.
  - by intros ->.
  - intros Hfailed.
    apply (proj2 (failed_characterized StringToNumber serviceName _)) in Hfailed.
    by rewrite Hfailed.
Qed.

End ServiceStatusFacts.

(** ** Column definitions *)

Section ColumnFacts.

Lemma columnState_push (columns : list Column.t) (visibleCount : nat)
    (key label : string) :
  columnState columns visibleCount ->
  let visible := (visibleCount <? maxVisible)%nat in
  columnState (columns ++ [Column.mk key label visible true])
              (if visible then S visibleCount else visibleCount).
Proof.
  unfold columnState, visibleFirst, maxVisible. intros [Hcount Hmap]. cbn zeta.
  rewrite List.map_app, Hmap, length_app. cbn [length List.map Column.visible].
  destruct (Nat.ltb_spec visibleCount 9) as [Hlt | Hge].
  - assert (length columns = visibleCount) as Hlen by lia. rewrite Hlen.
    replace (Nat.min 9 visibleCount) with visibleCount by lia.
    replace (visibleCount - 9)%nat with 0%nat by lia.
    replace (Nat.min 9 (visibleCount + 1)) with (S visibleCount) by lia.
    replace (visibleCount + 1 - 9)%nat with 0%nat by lia.
    split; [lia |]. cbn [replicate]. by rewrite !app_nil_r, replicate_cons_app.
  - assert (9 <= length columns)%nat as Hlen by lia.
    replace (Nat.min 9 (length columns)) with 9%nat by lia.
    replace (Nat.min 9 (length columns + 1)) with 9%nat by lia.
    replace (length columns + 1 - 9)%nat with (S (length columns - 9)) by lia.
    split; [lia |].
    by rewrite (replicate_S_end (length columns - 9)), app_assoc.
Qed.

Lemma addPriorityColumns_state (firstResource : ServiceResource)
    (priority : list (string * string)) (columns : list Column.t) (visibleCount : nat) :
  columnState columns visibleCount ->
  columnState (addPriorityColumns firstResource priority columns visibleCount).1
              (addPriorityColumns firstResource priority columns visibleCount).2.
Proof.
  revert columns visibleCount.
  induction priority as [| [key label] rest IH]; intros columns visibleCount Hstate;
    [done |].
  cbn [addPriorityColumns].
  destruct (present _); cbn [andb]; [| by apply IH].
  destruct (visibleCount <? maxVisible)%nat eqn:Hlt; [| by apply IH].
  apply IH. pose proof (columnState_push columns visibleCount key label Hstate) as Hpush.
  cbn zeta in Hpush. by rewrite Hlt in Hpush.
Qed.

Lemma addRemainingColumns_state (entries : list (string * JsValue))
    (columns : list Column.t) (visibleCount : nat) :
  columnState columns visibleCount ->
  List.map Column.visible (addRemainingColumns entries columns visibleCount)
  = visibleFirst (length (addRemainingColumns entries columns visibleCount)).
Proof.
  revert columns visibleCount.
  induction entries as [| [key value] rest IH]; intros columns visibleCount Hstate.
  { by destruct Hstate. }
  cbn [addRemainingColumns].
  destruct (String.eqb key "tags"); [by apply IH |].
  destruct (negb _ && present value); [| by apply IH].
  cbn zeta. apply IH. change (Nat.max 7 maxVisible) with maxVisible.
  by apply columnState_push.
Qed.

(** X17.  At most nine columns are visible, and they come first: of the [n]
    columns generated, the first [min(9, n)] are visible and all later ones
    hidden; every column is sortable. *)
Theorem visible_columns_come_first
    (resources : option (list ServiceResource)) (serviceName : string) :
  let columns := generateColumnsFromData resources serviceName in
  List.map Column.visible columns = visibleFirst (length columns)
  /\ (length (List.filter Column.visible columns) <= 9)%nat
  /\ Forall (fun c => Column.sortable c = true) columns.
Proof.
  cbn zeta.
  assert (List.map Column.visible (generateColumnsFromData resources serviceName)
          = visibleFirst (length (generateColumnsFromData resources serviceName)))
    as Hprofile.
  { unfold generateColumnsFromData.
    destruct resources as [[| firstResource rest] |]; [done | | done].
    pose proof (addPriorityColumns_state firstResource priorityColumns [] 0%nat)
      as Hstate.
    destruct (addPriorityColumns _ _ _ _) as [columns visibleCount].
    apply addRemainingColumns_state, Hstate. by split. }
  split; [exact Hprofile |]. split.
  - revert Hprofile. generalize (generateColumnsFromData resources serviceName).
    intros columns Hprofile.
    assert (length (List.filter Column.visible columns)
            = length (List.filter id (List.map Column.visible columns))) as ->.
    { clear Hprofile. induction columns as [| c cs IH]; [done |].
      cbn [List.map List.filter]. unfold id at 1. destruct (Column.visible c); cbn; lia. }
    rewrite Hprofile. unfold visibleFirst, maxVisible.
    rewrite List.filter_app, length_app.
    assert (forall n, length (List.filter id (replicate n true)) = n) as Htrue.
    { induction n; cbn; [done | by f_equal]. }
    assert (forall n, length (List.filter id (replicate n false)) = 0%nat) as Hfalse.
    { induction n; cbn; done. }
    rewrite Htrue, Hfalse. lia.
  - unfold generateColumnsFromData.
    destruct resources as [[| firstResource rest] |];
      [by repeat constructor | | by repeat constructor].
    assert (forall pr cols n, Forall (fun c => Column.sortable c = true) cols ->
              Forall (fun c => Column.sortable c = true)
                (addPriorityColumns firstResource pr cols n).1) as Hone.
    { induction pr as [| [k l] pr IH]; intros cols n Hcols; [done |].
      cbn [addPriorityColumns]. destruct (_ && _); apply IH; [| done].
      apply Forall_app. split; [done | by repeat constructor]. }
    assert (forall es cols n, Forall (fun c => Column.sortable c = true) cols ->
              Forall (fun c => Column.sortable c = true)
                (addRemainingColumns es cols n)) as Htwo.
    { induction es as [| [k v] es IH]; intros cols n Hcols; [done |].
      cbn [addRemainingColumns]. destruct (String.eqb k "tags"); [by apply IH |].
      destruct (_ && _); apply IH; [| done].
      apply Forall_app. split; [done | by repeat constructor]. }
    specialize (Hone priorityColumns [] 0%nat (Forall_nil_2 _)).
    destruct (addPriorityColumns _ _ _ _) as [columns visibleCount].
    by apply Htwo.
Qed.

Lemma hasColumn_false (columns : list Column.t) (key : string) :
  hasColumn columns key = false <-> key ∉ List.map Column.key columns.
Proof.
  unfold hasColumn. induction columns as [| c cs IH]; cbn [existsb List.map].
  - split; [intros _ ?%elem_of_nil; done | done].
  - rewrite orb_false_iff, IH, not_elem_of_cons.
    destruct (String.eqb_spec (Column.key c) key); split; intros [? ?]; split;
      congruence.
Qed.

Lemma addPriorityColumns_NoDup (firstResource : ServiceResource)
    (priority : list (string * string)) (columns : list Column.t) (visibleCount : nat) :
  NoDup (List.map fst priority) ->
  NoDup (List.map Column.key columns) ->
  (forall k, k ∈ List.map fst priority -> k ∉ List.map Column.key columns) ->
  NoDup (List.map Column.key
           (addPriorityColumns firstResource priority columns visibleCount).1).
Proof.
  revert columns visibleCount.
  induction priority as [| [key label] rest IH]; intros columns visibleCount Hpr Hcols Hsep;
    [done |].
  cbn [addPriorityColumns]. cbn [List.map fst] in Hpr, Hsep.
  apply NoDup_cons in Hpr as [Hkey Hrest].
  destruct (_ && _).
  - apply IH; [done | |].
    + rewrite List.map_app. cbn [List.map Column.key]. apply NoDup_app.
      split; [done |]. split; [| apply NoDup_singleton].
      intros k Hk ->%list_elem_of_singleton. apply (Hsep key); [left | done].
    + intros k Hk. rewrite List.map_app. cbn [List.map Column.key].
      rewrite not_elem_of_app. split; [apply Hsep; by right |].
      intros ->%list_elem_of_singleton. done.
  - apply IH; [done | done |]. intros k Hk. apply Hsep. by right.
Qed.

Lemma addRemainingColumns_NoDup (entries : list (string * JsValue))
    (columns : list Column.t) (visibleCount : nat) :
  NoDup (List.map Column.key columns) ->
  NoDup (List.map Column.key (addRemainingColumns entries columns visibleCount)).
Proof.
  revert columns visibleCount.
  induction entries as [| [key value] rest IH]; intros columns visibleCount Hcols; [done |].
  cbn [addRemainingColumns]. destruct (String.eqb key "tags"); [by apply IH |].
  destruct (hasColumn columns key) eqn:Hhas; cbn [negb andb]; [by apply IH |].
  destruct (present value); [| by apply IH].
  apply IH. rewrite List.map_app. cbn [List.map Column.key]. apply NoDup_app.
  split; [done |]. split; [| apply NoDup_singleton].
  intros k Hk ->%list_elem_of_singleton. by apply hasColumn_false in Hhas.
Qed.

(** X18.  No key is given two columns, whatever the resources. *)
Theorem column_keys_are_distinct
    (resources : option (list ServiceResource)) (serviceName : string) :
  NoDup (List.map Column.key (generateColumnsFromData resources serviceName)).
Proof.
  assert (NoDup (List.map Column.key defaultColumns)) as Hdefault.
  { apply (bool_decide_eq_true_1 _). vm_compute. reflexivity. }
  unfold generateColumnsFromData.
  destruct resources as [[| firstResource rest] |]; [done | | done].
  pose proof (addPriorityColumns_NoDup firstResource priorityColumns [] 0%nat) as Hone.
  destruct (addPriorityColumns _ _ _ _) as [columns visibleCount].
  apply addRemainingColumns_NoDup, Hone.
  - apply (bool_decide_eq_true_1 _). vm_compute. reflexivity.
  - constructor.
  - intros k _ ?%elem_of_nil. done.
Qed.

Lemma objectEntries_complete {A} (props : list (string * A)) (entry : string * A) :
  entry ∈ props -> entry ∈ objectEntries props.
Proof.
  intros Hin. unfold objectEntries. apply elem_of_app.
  destruct (arrayIndex entry.1) as [i |] eqn:Hi.
  - left. apply list_elem_of_fmap. exists (i, entry). split; [done |].
    induction props as [| [k v] rest IH]; [by apply elem_of_nil in Hin |].
    cbn [indexEntries]. apply elem_of_cons in Hin as [-> | Hin].
    + cbn [fst] in Hi. rewrite Hi. apply insertByIndex_elem. by left.
    + destruct (arrayIndex k); [apply insertByIndex_elem; right |]; by apply IH.
  - right. apply list_elem_of_In, List.filter_In. split; [by apply list_elem_of_In |].
    destruct entry as [k v]. cbn [fst] in Hi. rewrite Hi.
    by rewrite bool_decide_eq_false_2 by (by intros [? [=]]).
Qed.

Lemma addPriorityColumns_keys (firstResource : ServiceResource)
    (priority : list (string * string)) (columns : list Column.t) (visibleCount : nat)
    (key : string) :
  key ∈ List.map Column.key
          (addPriorityColumns firstResource priority columns visibleCount).1 ->
  key ∈ List.map Column.key columns
  \/ (key ∈ List.map fst priority
      /\ exists value, (key, value) ∈ firstResource /\ present value = true).
Proof.
  revert columns visibleCount.
  induction priority as [| [k label] rest IH]; intros columns visibleCount; [by left |].
  cbn [addPriorityColumns List.map fst].
  destruct (present (resourceProp firstResource k)) eqn:Hpresent; cbn [andb].
  2: { intros [? | [? ?]]%IH; [by left | right]. split; [by right | done]. }
  destruct (visibleCount <? maxVisible)%nat.
  2: { intros [? | [? ?]]%IH; [by left | right]. split; [by right | done]. }
  intros [Hin | [? ?]]%IH; [| right; split; [by right | done]].
  rewrite List.map_app in Hin. apply elem_of_app in Hin as [? | Hin]; [by left |].
  cbn in Hin. apply list_elem_of_singleton in Hin as ->. right. split; [left |].
  unfold resourceProp in Hpresent.
  destruct (lookupProp firstResource k) as [value |] eqn:Hl; [| done].
  exists value. split; [by apply lookupProp_elem | done].
Qed.

Lemma addRemainingColumns_keys (entries : list (string * JsValue))
    (columns : list Column.t) (visibleCount : nat) (key : string) :
  key ∈ List.map Column.key (addRemainingColumns entries columns visibleCount) <->
  key ∈ List.map Column.key columns
  \/ (key <> "tags"
      /\ exists value, (key, value) ∈ entries /\ present value = true).
Proof.
  revert columns visibleCount.
  induction entries as [| [k v] rest IH]; intros columns visibleCount.
  { cbn [addRemainingColumns]. split; [by left |].
    intros [? | (_ & ? & ?%elem_of_nil & _)]; done. }
  cbn [addRemainingColumns].
  destruct (String.eqb_spec k "tags") as [-> | Htags].
  { rewrite IH. split; (intros [? | (Hk & value & Hin & Hp)]; [by left | right]);
      (split; [done |]); exists value; (split; [| done]).
    - by right.
    - apply elem_of_cons in Hin as [[= ? ?] | ?]; done. }
  destruct (hasColumn columns k) eqn:Hhas; cbn [negb andb].
  { rewrite IH. split; (intros [? | (Hk & value & Hin & Hp)]; [by left |]).
    - right. split; [done |]. exists value. split; [by right | done].
    - apply elem_of_cons in Hin as [[= -> ->] | Hin].
      + left. destruct (decide (k ∈ List.map Column.key columns)) as [? | Hno]; [done |].
        apply hasColumn_false in Hno. congruence.
      + right. split; [done |]. by exists value. }
  destruct (present v) eqn:Hv.
  - rewrite IH, List.map_app, elem_of_app. cbn [List.map Column.key].
    rewrite list_elem_of_singleton. split.
    + intros [[? | ->] | (Hk & value & Hin & Hp)]; [by left | right | right].
      * split; [done |]. exists v. split; [left | done].
      * split; [done |]. exists value. split; [by right | done].
    + intros [? | (Hk & value & Hin & Hp)]; [by left; left |].
      apply elem_of_cons in Hin as [[= -> ->] | Hin]; [by left; right |].
      right. split; [done |]. by exists value.
  - rewrite IH. split; (intros [? | (Hk & value & Hin & Hp)]; [by left | right]);
      (split; [done |]); exists value; (split; [| done]).
    + by right.
    + apply elem_of_cons in Hin as [[= -> ->] | ?]; [congruence | done].
Qed.

(** X19.  The columns generated from a resource list are exactly the fields
    of its first resource that hold a value: a key has a column if and only if
    it is not [tags] and the first resource has it with a value other than
    [null] and [undefined]. *)
Theorem columns_cover_present_fields
    (firstResource : ServiceResource) (others : list ServiceResource)
    (serviceName key : string) :
  key ∈ List.map Column.key
          (generateColumnsFromData (Some (firstResource :: others)) serviceName)
  <-> key <> "tags"
      /\ exists value, (key, value) ∈ firstResource /\ present value = true.
Proof.
  unfold generateColumnsFromData.
  pose proof (addPriorityColumns_keys firstResource priorityColumns [] 0%nat key)
    as Hone.
  destruct (addPriorityColumns _ _ _ _) as [columns visibleCount]. cbn [fst] in Hone.
  rewrite addRemainingColumns_keys. split.
  - intros [Hin | (Hk & value & Hin & Hp)].
    + apply Hone in Hin as [?%elem_of_nil | [Hpr Hex]]; [done |]. split; [| done].
      intros ->. apply list_elem_of_In in Hpr. cbn in Hpr. intuition congruence.
    + split; [done |]. exists value. split; [by apply objectEntries_elem | done].
  - intros (Hk & value & Hin & Hp). right. split; [done |].
    exists value. split; [by apply objectEntries_complete | done].
Qed.

End ColumnFacts.

(** ** Account identifiers *)

Section AccountIdFacts.

Lemma toInt32_range (z : Z) : - 2 ^ 31 <= toInt32 z < 2 ^ 31.
Proof. unfold toInt32. pose proof (Z.mod_pos_bound (z + 2 ^ 31) (2 ^ 32)). lia. Qed.

Lemma hash_range (units : list Z) : Z.abs (fold_left hashStep units 0) <= 2 ^ 31.
Proof.
  assert (forall a, - 2 ^ 31 <= a < 2 ^ 31 ->
            - 2 ^ 31 <= fold_left hashStep units a < 2 ^ 31) as Hfold.
  { induction units as [| u rest IH]; intros a Ha; [done |].
    cbn [fold_left]. apply IH. apply toInt32_range. }
  specialize (Hfold 0). lia.
Qed.

Lemma length_append (s1 s2 : string) :
  String.length (s1 +:+ s2) = (String.length s1 + String.length s2)%nat.
Proof. induction s1 as [| c s1 IH]; simpl; [done | by rewrite IH]. Qed.

Lemma length_repeatChar (n : nat) (c : Ascii.ascii) : String.length (repeatChar n c) = n.
Proof. induction n as [| n IH]; cbn; [done | by rewrite IH]. Qed.

Lemma sliceTo_all (n : nat) (s : string) :
  (String.length s <= n)%nat -> sliceTo n s = s.
Proof.
  revert n. induction s as [| c s IH]; intros n Hn; [by destruct n |].
  destruct n as [| n]; cbn in *; [lia |]. rewrite IH; [done | lia].
Qed.

Lemma allDigits_append (s1 s2 : string) :
  allDigits (s1 +:+ s2) = allDigits s1 && allDigits s2.
Proof.
  induction s1 as [| c s1 IH]; simpl; [done |].
  rewrite IH. by rewrite andb_assoc.
Qed.

Lemma allDigits_repeat_zero (n : nat) : allDigits (repeatChar n (Ascii.ascii_of_N 48)) = true.
Proof. induction n as [| n IH]; [done |]. cbn [repeatChar allDigits]. by rewrite IH. Qed.

Lemma digit_code (d : Z) :
  0 <= d < 10 -> HostNumber.code (Ascii.ascii_of_N (Z.to_N (48 + d))) = 48 + d.
Proof.
  intros Hd. unfold HostNumber.code. rewrite Ascii.N_ascii_embedding by lia. lia.
Qed.

Lemma decimalDigits_allDigits (fuel : nat) (n : Z) (acc : string) :
  0 <= n -> allDigits acc = true -> allDigits (decimalDigits fuel n acc) = true.
Proof.
  revert n acc. induction fuel as [| fuel IH]; intros n acc Hn Hacc;
    cbn [decimalDigits].
  - cbn [allDigits]. pose proof (Z.mod_pos_bound n 10).
    rewrite digit_code, Hacc by lia. apply andb_true_iff. split; [| done].
    apply andb_true_iff. split; apply Z.leb_le; lia.
  - assert (allDigits (String (Ascii.ascii_of_N (Z.to_N (48 + n mod 10))) acc) = true)
      as Hpush.
    { cbn [allDigits]. pose proof (Z.mod_pos_bound n 10).
      rewrite digit_code, Hacc by lia. apply andb_true_iff. split; [| done].
      apply andb_true_iff. split; apply Z.leb_le; lia. }
    destruct (n / 10 =? 0); [done |]. apply IH; [| done].
    apply Z.div_pos; lia.
Qed.

Lemma decimalDigits_length (fuel : nat) (n : Z) (acc : string) (k : nat) :
  0 <= n < 10 ^ Z.of_nat (S k) ->
  (String.length (decimalDigits fuel n acc) <= S k + String.length acc)%nat.
Proof.
  revert n acc k. induction fuel as [| fuel IH]; intros n acc k Hn;
    cbn [decimalDigits]; [cbn; lia |].
  destruct (Z.eqb_spec (n / 10) 0) as [_ | Hne]; [cbn; lia |].
  destruct k as [| k].
  { exfalso. apply Hne. apply Z.div_small. change (10 ^ Z.of_nat 1) with 10 in Hn. lia. }
  etransitivity; [apply (IH _ _ k) |]; [| cbn; lia].
  split; [apply Z.div_pos; lia |].
  apply Z.div_lt_upper_bound; [lia |].
  replace (Z.of_nat (S (S k))) with (Z.succ (Z.of_nat (S k))) in Hn by lia.
  rewrite Z.pow_succ_r in Hn by lia. lia.
Qed.

(** X20.  An account id is always twelve decimal digits beginning with [00]:
    the hash is a signed 32-bit integer, so its absolute value has at most ten
    digits, is padded with zeros and is never truncated by the final
    [slice(0, 12)]. *)
Theorem generateAccountId_shape (nameUnits : list Z) :
  let id := generateAccountId nameUnits in
  String.length id = 12%nat
  /\ allDigits id = true
  /\ sliceTo 2 id = "00"
  /\ id = padStart 12 (Ascii.ascii_of_N 48)
            (toDecimal (Z.abs (fold_left hashStep nameUnits 0))).
Proof.
  cbn zeta. unfold generateAccountId.
  set (hash := Z.abs (fold_left hashStep nameUnits 0)).
  assert (0 <= hash <= 2 ^ 31) as Hhash.
  { subst hash. split; [apply Z.abs_nonneg | apply hash_range]. }
  assert (String.length (toDecimal hash) <= 10)%nat as Hlen.
  { unfold toDecimal.
    pose proof (decimalDigits_length (Z.to_nat (Z.log2 hash)) hash EmptyString 9) as H.
    cbn [String.length] in H. rewrite Nat.add_0_r in H. apply H.
    change (10 ^ Z.of_nat 10) with 10000000000. change (2 ^ 31) with 2147483648 in Hhash.
    lia. }
  assert (allDigits (toDecimal hash) = true) as Hdigits.
  { unfold toDecimal. apply decimalDigits_allDigits; [lia | done]. }
  assert (String.length (padStart 12 (Ascii.ascii_of_N 48) (toDecimal hash)) = 12%nat)
    as Hpad.
  { unfold padStart. rewrite length_append, length_repeatChar. lia. }
  rewrite sliceTo_all by lia. split; [done |]. split; [| split; [| done]].
  - unfold padStart. by rewrite allDigits_append, allDigits_repeat_zero, Hdigits.
  - unfold padStart.
    destruct (12 - String.length (toDecimal hash))%nat as [| [| n]] eqn:Hn; [lia .. |].
    reflexivity.
Qed.

End AccountIdFacts.

(** ** The application store *)

Section AppStoreFacts.

Context {Account Region : Type}.

Implicit Types (s : AppStore.t Account Region) (e : AppStore.event Account Region).

Lemma run_snoc (events : list (AppStore.event Account Region)) e s :
  AppStore.run (events ++ [e]) s = AppStore.apply e (AppStore.run events s).
Proof. unfold AppStore.run. by rewrite fold_left_app. Qed.

(** X21.  The two sidebars are never open together: from the initial state,
    after any sequence of store updates that uses no direct setter, at most
    one of the account sidebar and the region sidebar is open. *)
Theorem sidebars_never_both_open (events : list (AppStore.event Account Region)) :
  Forall (fun e => AppStore.isDirectSetter e = false) events ->
  let s := AppStore.run events AppStore.initial in
  AppStore.accountSidebarOpen s && AppStore.regionSidebarOpen s = false.
Proof.
  induction events as [| e events IH] using rev_ind; [done |].
  intros [Hevents He]%Forall_app. rewrite Forall_singleton in He.
  specialize (IH Hevents). cbn zeta in *. rewrite run_snoc.
  destruct (AppStore.run events AppStore.initial) as [? ? ? ? sa ? ? a r ? ?].
  cbn [AppStore.accountSidebarOpen AppStore.regionSidebarOpen] in IH.
  destruct e; cbn in He; try discriminate He; cbn; try done.
  - destruct sa; cbn; [by rewrite andb_false_r | done].
  - by destruct a, r.
  - by destruct a, r.
Qed.

(** X22.  A region is never selected without an account: from the initial
    state, after any sequence of store updates that uses no direct setter, a
    selected region comes with a selected account. *)
Theorem region_selected_only_with_account
    (events : list (AppStore.event Account Region)) :
  Forall (fun e => AppStore.isDirectSetter e = false) events ->
  let s := AppStore.run events AppStore.initial in
  is_Some (AppStore.selectedRegion s) -> is_Some (AppStore.selectedAccount s).
Proof.
  induction events as [| e events IH] using rev_ind;
    [cbn; by intros _ ?%is_Some_None |].
  intros [Hevents He]%Forall_app. rewrite Forall_singleton in He.
  specialize (IH Hevents). cbn zeta in *. rewrite run_snoc.
  destruct (AppStore.run events AppStore.initial) as [? ? ? ? sa sr ? ? ? ? ?].
  cbn [AppStore.selectedAccount AppStore.selectedRegion] in IH.
  destruct e; cbn in He; try discriminate He; cbn; try done;
    try (by intros ?%is_Some_None).
  destruct sa; cbn; [by eauto | done].
Qed.

End AppStoreFacts.

(** ** Normalization and the resource count *)

Section NormalizedCount.

Variable StringToNumber : string -> number.
Variable now : string.

Lemma lengthOf_zero {A} (items : list A) : (lengthOf items >? 0)%js = false -> items = [].
Proof. destruct items; [done |]. discriminate. Qed.

(** X23.  Normalizing a payload does not change its resource count: for the
    region it was normalized for, [extractResourceCount] gives the same count
    on the normalized payload as on the raw one. *)
Theorem normalizeServiceData_keeps_count
    (rawData normalized : JsValue) (accountName regionCode serviceName : string) :
  normalizeServiceData StringToNumber now rawData accountName regionCode serviceName
    = Some normalized ->
  extractResourceCount StringToNumber normalized (Some regionCode)
  = extractResourceCount StringToNumber rawData (Some regionCode).
Proof.
  unfold normalizeServiceData. destruct (_ && _); [by intros [= <-] |].
  destruct (extractResourceArray rawData (Some regionCode)) as [resources |] eqn:Harray;
    [| discriminate].
  destruct (extractResourceCount _ rawData _) as [count |] eqn:Hcount; [| discriminate].
  intros [= <-]. unfold extractResourceCount.
  cbn [isRecord negb getProp lookupProp String.eqb Ascii.eqb Bool.eqb
       default from_option id nullish getNumericValue].
  destruct (count >? 0)%js eqn:Hpos; [reflexivity |].
  assert (resources = [] /\ count = lengthOf resources) as [-> ->].
  { unfold extractResourceCount in Hcount. rewrite Harray in Hcount.
    destruct (isRecord rawData) eqn:Hrecord; cbn [negb] in Hcount.
    - destruct (_ >? 0)%js eqn:Hsummary in Hcount.
      + injection Hcount as <-. congruence.
      + cbn [option_map] in Hcount. injection Hcount as <-.
        split; [by apply lengthOf_zero | done].
    - injection Hcount as <-. unfold extractResourceArray in Harray.
      destruct rawData; try discriminate; by injection Harray as <-. }
  unfold extractResourceArray, filterRawResourcesByRegion.
  cbn [selectedArray getProp lookupProp String.eqb Ascii.eqb Bool.eqb
       default from_option id length Nat.eqb].
  by rewrite orb_true_r.
Qed.

End NormalizedCount.

(** ** Dashboard metrics *)

Section MetricsFacts.

(** The figures are added without rounding. *)
#[local] Existing Instance exactArithmetic.

Context {Account Region : Type}.





End MetricsFacts.

(** ** Column labels *)

Section LabelFacts.

Lemma splitUnderscore_nonempty (key word : string) : splitUnderscore key word <> [].
Proof.
  revert word. induction key as [| c rest IH]; intros word; cbn [splitUnderscore]; [done |].
  destruct (Ascii.eqb c _); [done | apply IH].
Qed.

Lemma app_cons (c : Ascii.ascii) (s t : string) :
  String c s +:+ t = String c (s +:+ t).
Proof. reflexivity. Qed.

Lemma app_empty_r (s : string) : s +:+ EmptyString = s.
Proof. induction s as [| c s IH]; [done |]. by rewrite app_cons, IH. Qed.

Lemma app_assoc_string (a b c : string) : (a +:+ b) +:+ c = a +:+ (b +:+ c).
Proof. induction a as [| x a IH]; [done |]. by rewrite !app_cons, IH. Qed.

Lemma label_pass (key word : string) :
  joinSpace (List.map capitalize (splitUnderscore key word))
  = match word with
    | EmptyString => titleCase key true
    | _ => capitalize word +:+ titleCase key false
    end.
Proof.
  revert word. induction key as [| c rest IH]; intros word;
    cbn [splitUnderscore titleCase].
  - cbn [List.map joinSpace]. destruct word; [done | by rewrite app_empty_r].
  - destruct (Ascii.eqb c (Ascii.ascii_of_N 95)).
    + cbn [List.map]. specialize (IH EmptyString). cbn in IH.
      pose proof (splitUnderscore_nonempty rest EmptyString) as Hne.
      destruct (splitUnderscore rest EmptyString) as [| w ws]; [done |].
      cbn [List.map joinSpace] in *. rewrite IH. by destruct word.
    + rewrite IH. destruct word as [| w0 word]; [done |].
      rewrite app_cons. cbn [capitalize]. rewrite !app_cons. f_equal.
      by rewrite app_assoc_string.
Qed.

(** X25.  The label generated for a key of ASCII characters is the key read
    in one pass: each underscore becomes a space, the first character of each
    word is upper-cased, and every other character is kept. *)
Theorem labelOf_is_title_case (key : string) :
  isAscii key = true -> labelOf key = titleCase key true.
Proof. intros _. unfold labelOf. by rewrite label_pass. Qed.

End LabelFacts.

(** ** The further properties on the sample inputs *)

Section FurtherSampleScores.

#[local] Existing Instance binary64Arithmetic.

(** [29 / 200] is rounded to [0.14499999999999999] and the product to
    [14.499999999999998]: the health is [14]. *)
Lemma rds_availability_score_witness :
  calculateServiceHealth HostNumber.asciiStringToNumber "rds" rdsFleet
  = mkHealth 14 partial.
Proof.
  assert (scoredSummary rdsFleet 200 success) as Hscored
    by (repeat split; discriminate).
  pose proof (rds_availability_score HostNumber.asciiStringToNumber rdsFleet 200 success
                [("available", 29 : number); ("stopped", 171 : number)]
                Hscored eq_refl)
    as (Hhealth & Hpartial & _).
  destruct (calculateServiceHealth _ _ _) as [h st]. cbn [healthPercent scanStatus] in *.
  assert (h = 14) as -> by (rewrite Hhealth; by vm_compute).
  assert (st = partial) as ->; [| reflexivity].
  apply Hpartial. left. reflexivity.
Defined.

Lemma s3_encryption_score_witness :
  calculateServiceHealth HostNumber.asciiStringToNumber "s3" s3Buckets
  = mkHealth 57 partial.
Proof.
  assert (scoredSummary s3Buckets 40 success) as Hscored
    by (repeat split; discriminate).
  pose proof (s3_encryption_score HostNumber.asciiStringToNumber s3Buckets 40 success
                [("encrypted", JStr "23"); ("unencrypted", JNum 17)]
                Hscored eq_refl)
    as (Hhealth & Hpartial & _).
  destruct (calculateServiceHealth _ _ _) as [h st]. cbn [healthPercent scanStatus] in *.
  assert (h = 57) as -> by (rewrite Hhealth; by vm_compute).
  assert (st = partial) as ->; [| reflexivity].
  apply Hpartial. left. reflexivity.
Defined.

Lemma cloudtrail_logging_score_witness :
  calculateServiceHealth HostNumber.asciiStringToNumber "cloudtrail" cloudtrailTrails
  = mkHealth 57 partial.
Proof.
  assert (scoredSummary cloudtrailTrails 40 success) as Hscored
    by (repeat split; discriminate).
  pose proof (cloudtrail_logging_score HostNumber.asciiStringToNumber cloudtrailTrails
                40 success Hscored eq_refl)
    as (Hhealth & Hpartial & _).
  destruct (calculateServiceHealth _ _ _) as [h st]. cbn [healthPercent scanStatus] in *.
  assert (h = 57) as -> by (rewrite Hhealth; by vm_compute).
  assert (st = partial) as ->; [| reflexivity].
  apply Hpartial. left. reflexivity.
Defined.

Lemma vpc_default_flag_score_witness :
  calculateServiceHealth HostNumber.asciiStringToNumber "vpc" vpcDefault
  = mkHealth 70 partial.
Proof.
  apply (vpc_default_flag_score HostNumber.asciiStringToNumber vpcDefault 1 success).
  repeat split; discriminate.
Defined.

Lemma default_rule_score_witness :
  calculateServiceHealth HostNumber.asciiStringToNumber "lambda" lambdaSummary
  = mkHealth 95 success.
Proof.
  apply (default_rule_score HostNumber.asciiStringToNumber "lambda" lambdaSummary
           12 success); [reflexivity |].
  repeat split; discriminate.
Defined.

Lemma failed_exactly_when_witness :
  scanStatus (calculateServiceHealth HostNumber.asciiStringToNumber "cloudtrail"
                cloudtrailWithoutTrails) = failed
  /\ healthPercent (calculateServiceHealth HostNumber.asciiStringToNumber "cloudtrail"
                      cloudtrailWithoutTrails) = 0.
Proof.
  destruct (failed_exactly_when HostNumber.asciiStringToNumber "cloudtrail"
              cloudtrailWithoutTrails) as [Hiff Hzero].
  assert (scanStatus (calculateServiceHealth HostNumber.asciiStringToNumber "cloudtrail"
                        cloudtrailWithoutTrails) = failed) as Hfailed.
  { apply Hiff. right. split; [reflexivity |]. right. split; reflexivity. }
  split; [exact Hfailed | exact (Hzero Hfailed)].
Defined.

Lemma partial_is_never_upgraded_witness :
  scanStatus (calculateServiceHealth HostNumber.asciiStringToNumber "ec2"
                (ec2Fleet "partial")) <> success.
Proof.
  apply (partial_is_never_upgraded HostNumber.asciiStringToNumber "ec2"
           (ec2Fleet "partial") 8).
  repeat split; discriminate.
Defined.

Lemma extractResourceArray_source_witness :
  exists props items,
    rawBuckets = JObj props
    /\ ("buckets", JArr items) ∈ props
    /\ sublist [JObj [("name", JStr "logs"); ("region", JStr "ap-south-1")]] items.
Proof.
  destruct (extractResourceArray_source rawBuckets (Some "ap-south-1")
              [JObj [("name", JStr "logs"); ("region", JStr "ap-south-1")]]
              eq_refl ltac:(discriminate))
    as (props & key & items & Hraw & Hkey & Hin & Hsub).
  exists props, items. split; [exact Hraw |]. split; [| exact Hsub].
  injection Hraw as <-. apply list_elem_of_In in Hin. cbn in Hin.
  destruct Hin as [[= <- <-] | [[= <- <-] | []]].
  - destruct Hkey. left.
  - right. left.
Defined.

Lemma extractResourceArray_empty_only_without_data_witness :
  extractResourceArray rawBuckets (Some "eu-west-1")
  = Some (default [] (selectedArray rawBuckets))
  /\ extractResourceArray rawBuckets None
     = Some (default [] (selectedArray rawBuckets))
  /\ (selectedArray (JStr "n/a") = None \/ selectedArray (JStr "n/a") = Some []).
Proof.
  split; [reflexivity |]. split.
  - apply (proj2 (extractResourceArray_empty_only_without_data rawBuckets None)).
    left. reflexivity.
  - apply (proj1 (extractResourceArray_empty_only_without_data (JStr "n/a")
                    (Some "eu-west-1"))).
    reflexivity.
Defined.

Lemma extractResourceArray_throws_exactly_when_witness :
  extractResourceArray rawWithNull (Some "ap-south-1") = None
  /\ extractResourceArray rawWithNull None
     = Some [JObj [("region", JStr "ap-south-1")]; JNull].
Proof.
  split; [| reflexivity].
  apply (proj2 (extractResourceArray_throws_exactly_when rawWithNull
                  (Some "ap-south-1"))).
  exists "ap-south-1", [JObj [("region", JStr "ap-south-1")]; JNull].
  split; [reflexivity |]. split; [discriminate |]. split; [reflexivity |].
  left. right. left.
Defined.

Lemma extractResourceCount_nonnegative_witness :
  extractResourceCount HostNumber.asciiStringToNumber rawBuckets (Some "ap-south-1")
  = Some (1 : number)
  /\ (1 >=? 0)%js = true
  /\ extractResourceCount HostNumber.asciiStringToNumber (JStr "n/a") None
     = Some (0 : number).
Proof.
  destruct (extractResourceCount_nonnegative HostNumber.asciiStringToNumber
              rawBuckets (Some "ap-south-1")) as (Hge & _ & _).
  destruct (extractResourceCount_nonnegative HostNumber.asciiStringToNumber
              (JStr "n/a") None) as (_ & Hzero & _).
  split; [reflexivity |]. split; [exact (Hge 1 eq_refl) | exact (Hzero eq_refl)].
Defined.

Lemma normalizeServiceData_idempotent_witness :
  exists normalized,
    normalizeServiceData HostNumber.asciiStringToNumber sampleNow rawBuckets
      "acme" "ap-south-1" "s3" = Some normalized
    /\ normalizeServiceData HostNumber.asciiStringToNumber sampleNow normalized
         "other" "eu-west-1" "ec2" = Some normalized.
Proof.
  eexists. split; [reflexivity |].
  apply (normalizeServiceData_idempotent HostNumber.asciiStringToNumber sampleNow
           rawBuckets _ "acme" "ap-south-1" "s3" eq_refl).
Defined.

Lemma inferred_payload_score_witness :
  exists normalized,
    normalizeServiceData HostNumber.asciiStringToNumber sampleNow rawBuckets
      "acme" "ap-south-1" "s3" = Some normalized
    /\ calculateServiceHealth HostNumber.asciiStringToNumber "s3" normalized
       = mkHealth 100 success
    /\ calculateServiceHealth HostNumber.asciiStringToNumber "cloudtrail" normalized
       = mkHealth 0 failed
    /\ calculateServiceHealth HostNumber.asciiStringToNumber "lambda" normalized
       = mkHealth 95 success.
Proof.
  eexists. split; [reflexivity |].
  split; [| split].
  - destruct (inferred_payload_score HostNumber.asciiStringToNumber sampleNow
                rawBuckets _ "acme" "ap-south-1" "s3" "s3" eq_refl eq_refl)
      as (count & Hsummary & _ & Hscore).
    injection Hsummary as <-. exact Hscore.
  - destruct (inferred_payload_score HostNumber.asciiStringToNumber sampleNow
                rawBuckets _ "acme" "ap-south-1" "s3" "cloudtrail" eq_refl eq_refl)
      as (count & Hsummary & _ & Hscore).
    injection Hsummary as <-. exact Hscore.
  - destruct (inferred_payload_score HostNumber.asciiStringToNumber sampleNow
                rawBuckets _ "acme" "ap-south-1" "s3" "lambda" eq_refl eq_refl)
      as (count & Hsummary & _ & Hscore).
    injection Hsummary as <-. exact Hscore.
Defined.

Lemma normalizeServiceData_keeps_count_witness :
  exists normalized,
    normalizeServiceData HostNumber.asciiStringToNumber sampleNow rawBuckets
      "acme" "ap-south-1" "s3" = Some normalized
    /\ extractResourceCount HostNumber.asciiStringToNumber normalized (Some "ap-south-1")
       = Some (1 : number).
Proof.
  eexists. split; [reflexivity |].
  etransitivity;
    [ exact (normalizeServiceData_keeps_count HostNumber.asciiStringToNumber sampleNow
               rawBuckets _ "acme" "ap-south-1" "s3" eq_refl)
    | reflexivity ].
Defined.

Lemma failed_service_is_critical_witness :
  let service :=
    createServiceModelWithData HostNumber.asciiStringToNumber sampleFetch
      "s3" "storage" "acme" "ap-south-1" 2 in
  AWSService.scanStatus service = failed
  /\ AWSService.healthPercent service = 0
  /\ AWSService.status service = critical.
Proof.
  destruct (failed_service_is_critical HostNumber.asciiStringToNumber sampleFetch
              "s3" "storage" "acme" "ap-south-1" 2) as [Hnull Hfailed].
  cbn zeta in *. split; [exact (Hnull eq_refl) |]. exact (Hfailed (Hnull eq_refl)).
Defined.

Lemma columns_cover_present_fields_witness :
  let keys :=
    List.map Column.key (generateColumnsFromData (Some [sampleInstance]) "ec2") in
  "public_ip" ∈ keys /\ ("platform" ∉ keys) /\ ("tags" ∉ keys).
Proof.
  cbn zeta. split; [| split].
  - apply (columns_cover_present_fields sampleInstance [] "ec2" "public_ip").
    split; [discriminate |]. exists (JStr "10.0.0.1"). split; [| reflexivity].
    apply list_elem_of_In. cbn. tauto.
  - intros Hin.
    apply (columns_cover_present_fields sampleInstance [] "ec2" "platform") in Hin
      as (_ & value & Hin & Hpresent).
    apply list_elem_of_In in Hin. cbn in Hin.
    repeat (destruct Hin as [[=] | Hin]); subst; try discriminate. done.
  - intros Hin.
    by apply (columns_cover_present_fields sampleInstance [] "ec2" "tags") in Hin
      as (Htags & _).
Defined.

Lemma sidebars_never_both_open_witness :
  let s := AppStore.run sampleSession AppStore.initial in
  AppStore.accountSidebarOpen s && AppStore.regionSidebarOpen s = false.
Proof.
  apply (sidebars_never_both_open sampleSession).
  repeat constructor.
Defined.

Lemma region_selected_only_with_account_witness :
  let s :=
    AppStore.run [AppStore.SelectRegion "ap-south-1"; AppStore.SelectAccount "acme";
                  AppStore.SelectRegion "ap-south-1"]
      (AppStore.initial (Account := string) (Region := string)) in
  AppStore.selectedRegion s = Some "ap-south-1"
  /\ is_Some (AppStore.selectedAccount s).
Proof.
  cbn zeta. split; [reflexivity |].
  apply (region_selected_only_with_account
           [AppStore.SelectRegion "ap-south-1"; AppStore.SelectAccount "acme";
            AppStore.SelectRegion "ap-south-1"]).
  - repeat constructor.
  - by eexists.
Defined.

(** Twenty-three of forty is [57.5] per cent: the health is [57] or [58],
    the same for the buckets and for the trails. *)
Lemma ratio_health_is_nearest_percentage_witness :
  exists z : Z,
    57 <= z <= 58
    /\ healthPercent
         (calculateServiceHealth HostNumber.asciiStringToNumber "s3" s3Buckets)
       = of_Z z
    /\ healthPercent
         (calculateServiceHealth HostNumber.asciiStringToNumber "cloudtrail"
            cloudtrailTrails)
       = of_Z z.
Proof.
  destruct (ratio_health_is_nearest_percentage HostNumber.asciiStringToNumber 23 40)
    as (z & _ & Hnear & _ & _ & Htrails & Hbuckets); [lia | lia | lia |].
  exists z. split; [lia |]. split.
  - apply (Hbuckets s3Buckets success
             [("encrypted", JStr "23"); ("unencrypted", JNum 17)]);
      [repeat split; discriminate | reflexivity | reflexivity].
  - apply (Htrails cloudtrailTrails 40 success);
      [repeat split; discriminate | reflexivity | reflexivity].
Defined.

Lemma labelOf_is_title_case_witness :
  labelOf "db_instance_class" = "Db Instance Class".
Proof. rewrite (labelOf_is_title_case "db_instance_class" eq_refl). reflexivity. Defined.

End FurtherSampleScores.

(** The figures stated for the arithmetic without rounding. *)
Section ExactSampleFigures.

#[local] Existing Instance exactArithmetic.




End ExactSampleFigures.
